(** * Deep Research plugin for Open WebUI

    A shallow embedding of [openwebui-plugin/index.js]: the session
    registry, the WebSocket transport with its reconnect timer, the event
    dispatcher and the query admission gate of [DeepResearchPlugin].

    JavaScript values are an inductive type, numbers are IEEE 754 values
    read exactly, the registry is a finite map from chat identifiers to
    references into a heap of session objects, and every [async] method is
    a resumption: it runs up to its next [await] and hands back the call it
    waits for together with its continuation.  The event loop of the host
    is a step function on a world made of the plugin state and the
    suspended continuations. *)

From Stdlib Require Import ZArith String Ascii List SpecFloat.
From stdpp Require Import base option list gmap strings pretty.

(** ** JavaScript values *)

Module Js.

(** A Number is an IEEE 754 value; [S754_finite s m e] stands for the
    exact dyadic rational [(-1)^s * m * 2^e] (not necessarily normalised). *)
Definition number := spec_float.

(** The values that JSON frames, host events and host replies carry.
    Strings are sequences of code units below 256; an object is the list
    of its own properties. *)
#[warnings="-register-all"] Inductive value : Type :=
| VUndefined
| VNull
| VBool (b : bool)
| VNum (x : number)
| VStr (s : string)
| VArr (items : list value)
| VObj (fields : list (string * value)).

(** Either a value or a thrown exception (any value can be thrown). *)
Inductive completion (A : Type) : Type :=
| Normal (a : A)
| Abrupt (e : value).
Arguments Normal {A} a.
Arguments Abrupt {A} e.

Definition mkError (name message : string) : value :=
  VObj [("name", VStr name); ("message", VStr message)].

(** Built-ins of the JavaScript engine that the plugin calls and that are
    not part of the repository. *)
Class Runtime := {
  (** [JSON.parse]; [None] when it throws a SyntaxError. *)
  JSON_parse : string -> option value;
  (** [JSON.stringify] on the request bodies. *)
  JSON_stringify : value -> string;
  (** [Number::toString(x, 10)]. *)
  Number_toString : number -> string;
  (** [StringToNumber], the numeric reading of a string. *)
  StringToNumber : string -> number;
  (** Whether [new WebSocket(url)] accepts the URL; it throws a
      SyntaxError otherwise. *)
  WebSocket_accepts : string -> bool;
  (** The message text the engine puts in the errors it raises itself. *)
  engine_message : string
}.

Definition of_nat (n : nat) : number :=
  match n with
  | O => S754_zero false
  | S _ => S754_finite false (Pos.of_nat n) 0
  end.

(** [ToBoolean]. *)
Definition truthy (v : value) : bool :=
  match v with
  | VUndefined | VNull => false
  | VBool b => b
  | VNum (S754_zero _) | VNum S754_nan => false
  | VNum _ => true
  | VStr s => bool_decide (s ≠ "")
  | VArr _ | VObj _ => true
  end.

(** [a || b] on values. *)
Definition or_else (a b : value) : value := if truthy a then a else b.

Fixpoint own (fields : list (string * value)) (k : string) : option value :=
  match fields with
  | [] => None
  | (k', v) :: rest => if decide (k' = k) then Some v else own rest k
  end.

Section WithRuntime.
Context `{Runtime}.

Definition TypeError : value := mkError "TypeError" engine_message.
Definition SyntaxError : value := mkError "SyntaxError" engine_message.

(** Property read [v.k], for the property names the plugin uses: none of
    them is inherited from a prototype except [length] of arrays and
    strings (and [toFixed], see [call_toFixed]). *)
Definition get (v : value) (k : string) : completion value :=
  match v with
  | VUndefined | VNull => Abrupt TypeError
  | VObj fields => Normal (default VUndefined (own fields k))
  | VArr items =>
      Normal (if decide (k = "length") then VNum (of_nat (length items))
              else VUndefined)
  | VStr s =>
      Normal (if decide (k = "length") then VNum (of_nat (String.length s))
              else VUndefined)
  | VBool _ | VNum _ => Normal VUndefined
  end.

Definition join (sep : string) (parts : list string) : string :=
  match parts with
  | [] => ""
  | p :: ps => fold_left (fun acc q => acc +:+ sep +:+ q) ps p
  end.

(** [ToString], as a template literal applies it.  A plain object prints
    as [[object Object]] unless it has an own [toString] property, which
    for data is never callable: [ToPrimitive] then throws.  An array
    prints its elements joined by commas, holes for undefined and null. *)
Fixpoint ToString (v : value) : completion string :=
  match v with
  | VUndefined => Normal "undefined"
  | VNull => Normal "null"
  | VBool true => Normal "true"
  | VBool false => Normal "false"
  | VNum x => Normal (Number_toString x)
  | VStr s => Normal s
  | VObj fields =>
      match own fields "toString" with
      | Some _ => Abrupt TypeError
      | None => Normal "[object Object]"
      end
  | VArr items =>
      let fix parts (l : list value) : completion (list string) :=
        match l with
        | [] => Normal []
        | x :: rest =>
            let sx := match x with
                      | VUndefined | VNull => Normal ""
                      | _ => ToString x
                      end in
            match sx with
            | Abrupt e => Abrupt e
            | Normal s =>
                match parts rest with
                | Abrupt e => Abrupt e
                | Normal ss => Normal (s :: ss)
                end
            end
        end in
      match parts items with
      | Abrupt e => Abrupt e
      | Normal ss => Normal (join "," ss)
      end
  end.

(** [ToNumber]; objects and arrays go through their string form. *)
Definition ToNumber (v : value) : completion number :=
  match v with
  | VUndefined => Normal S754_nan
  | VNull => Normal (S754_zero false)
  | VBool true => Normal (S754_finite false 1 0)
  | VBool false => Normal (S754_zero false)
  | VNum x => Normal x
  | VStr s => Normal (StringToNumber s)
  | VArr _ | VObj _ =>
      match ToString v with
      | Abrupt e => Abrupt e
      | Normal s => Normal (StringToNumber s)
      end
  end.

(** [x > 0] on numbers: false for NaN, zeros and negatives. *)
Definition positive_number (x : number) : bool :=
  match x with
  | S754_infinity false | S754_finite false _ _ => true
  | _ => false
  end.

(** [v > 0]. *)
Definition gt_zero (v : value) : completion bool :=
  match ToNumber v with
  | Abrupt e => Abrupt e
  | Normal x => Normal (positive_number x)
  end.

(** *** [Number.prototype.toFixed] *)

(** [10^21 <= m * 2^e]. *)
Definition at_least_1e21 (m : positive) (e : Z) : bool :=
  if (0 <=? e)%Z then (10 ^ 21 <=? Z.pos m * 2 ^ e)%Z
  else (10 ^ 21 * 2 ^ (- e) <=? Z.pos m)%Z.

(** The integer [n] for which [n / 10^f] is closest to [m * 2^e]; of two
    such integers, the larger. *)
Definition nearest_scaled (f : nat) (m : positive) (e : Z) : Z :=
  if (0 <=? e)%Z then (Z.pos m * 2 ^ e * 10 ^ Z.of_nat f)%Z
  else ((2 * Z.pos m * 10 ^ Z.of_nat f + 2 ^ (- e)) / 2 ^ (1 - e))%Z.

Fixpoint zeros (n : nat) : string :=
  match n with
  | O => ""
  | S n' => String "0" (zeros n')
  end.

(** Digits of [n] with a decimal point before the last [f] of them. *)
Definition place_point (f : nat) (n : Z) : string :=
  let m := pretty (Z.to_N n) in
  let m := if decide (String.length m ≤ f)
           then zeros (f + 1 - String.length m) +:+ m else m in
  let k := String.length m in
  match f with
  | O => m
  | S _ => substring 0 (k - f) m +:+ "." +:+ substring (k - f) f m
  end.

Definition toFixed (f : nat) (x : number) : string :=
  match x with
  | S754_nan | S754_infinity _ => Number_toString x
  | S754_zero _ => place_point f 0
  | S754_finite s m e =>
      if at_least_1e21 m e then Number_toString x
      else (if s then "-" else "") +:+ place_point f (nearest_scaled f m e)
  end.

(** [v.toFixed(2)]: reading a property of undefined or null throws, and on
    anything but a number [toFixed] is not a function. *)
Definition call_toFixed (v : value) (f : nat) : completion string :=
  match v with
  | VNum x => Normal (toFixed f x)
  | _ => Abrupt TypeError
  end.

(** [s.replace(pat, by)] with a string pattern: the first occurrence. *)
Fixpoint replace (pat by_ s : string) : string :=
  if String.prefix pat s
  then by_ +:+ substring (String.length pat) (String.length s) s
  else match s with
       | EmptyString => EmptyString
       | String c rest => String c (replace pat by_ rest)
       end.

End WithRuntime.
End Js.

Import Js.

(** ** Plugin state *)

(** [session.status]: the strings ['idle'], ['processing'] and ['error']. *)
Inductive Status : Type := idle | processing | error.

Definition Status_eqb (a b : Status) : bool :=
  match a, b with
  | idle, idle | processing, processing | error, error => true
  | _, _ => false
  end.

(** A session object [{sessionId, websocket, status}]; [websocket] is
    [null] or a reference to a socket. *)
Record Session : Type := mkSession {
  sessionId : string;
  websocket : option nat;
  status : Status
}.

(** [WebSocket.readyState]. *)
Inductive ReadyState : Type := CONNECTING | OPEN | CLOSING | CLOSED.

(** A socket made by [connectWebSocket]: its URL, the [chatId] and
    [sessionId] its four handlers close over, and its ready state. *)
Record Socket : Type := mkSocket {
  url : string;
  ws_chatId : string;
  ws_sessionId : string;
  readyState : ReadyState
}.

(** A timeout set by [ws.onclose]; its callback is
    [connectWebSocket(chatId, sessionId)]. *)
Record Timer : Type := mkTimer {
  delay : Z;
  t_chatId : string;
  t_sessionId : string;
  fired : bool
}.

(** The asynchronous calls the plugin awaits. *)
Inductive call : Type :=
| Webui (method : string) (arg : value)
| Fetch (url : string) (init : value).

(** What the outside world sees the plugin do, in order. *)
Inductive effect : Type :=
| ConsoleLog (args : list value)
| ConsoleError (args : list value)
| PreventDefault
| SocketNew (w : nat) (url : string)
| SocketClose (w : nat)
| SetTimeout (t : nat) (delay : Z)
| Issued (c : call).

(** [this.sessions] maps a chat id to a reference into [heap]; session
    objects are shared by reference, as in the source. *)
Record store : Type := mkStore {
  apiEndpoint : string;
  sessions : gmap string nat;
  heap : list Session;
  sockets : list Socket;
  timers : list Timer;
  trace : list effect
}.

(** [new DeepResearchPlugin()], with [pluginConfig.endpoint] a string or
    undefined. *)
Definition constructor (endpoint : option string) : store :=
  {| apiEndpoint :=
       match endpoint with
       | Some e => if bool_decide (e ≠ "") then e else "http://localhost:8000"
       | None => "http://localhost:8000"
       end;
     sessions := ∅; heap := []; sockets := []; timers := []; trace := [] |}.

(** ** Asynchronous methods as resumptions *)

Inductive reply : Type :=
| Resolved (v : value)
| Rejected (e : value).

(** The state of an [async] function: returned, thrown (its promise is
    rejected), or suspended at an [await] on call [c]. *)
Inductive result (A : Type) : Type :=
| Done (a : A) (s : store)
| Failed (e : value) (s : store)
| Suspended (c : call) (s : store) (k : reply -> store -> result A).
Arguments Done {A} a s.
Arguments Failed {A} e s.
Arguments Suspended {A} c s k.

Definition M (A : Type) : Type := store -> result A.

Fixpoint bind_result {A B} (r : result A) (f : A -> M B) : result B :=
  match r with
  | Done a s => f a s
  | Failed e s => Failed e s
  | Suspended c s k => Suspended c s (fun rp s' => bind_result (k rp s') f)
  end.

Fixpoint catch_result {A} (r : result A) (h : value -> M A) : result A :=
  match r with
  | Done a s => Done a s
  | Failed e s => h e s
  | Suspended c s k => Suspended c s (fun rp s' => catch_result (k rp s') h)
  end.

#[global] Instance M_ret : MRet M := fun A a s => Done a s.
#[global] Instance M_bind : MBind M := fun A B f m s => bind_result (m s) f.

Definition throw {A} (e : value) : M A := fun s => Failed e s.

(** [try { m } catch (e) { h e }]. *)
Definition try_catch {A} (m : M A) (h : value -> M A) : M A :=
  fun s => catch_result (m s) h.

Definition eval {A} (c : completion A) : M A :=
  match c with
  | Normal a => mret a
  | Abrupt e => throw e
  end.

Definition upd_sessions (f : gmap string nat -> gmap string nat) (s : store) : store :=
  mkStore (apiEndpoint s) (f (sessions s)) (heap s) (sockets s) (timers s) (trace s).
Definition upd_heap (f : list Session -> list Session) (s : store) : store :=
  mkStore (apiEndpoint s) (sessions s) (f (heap s)) (sockets s) (timers s) (trace s).
Definition upd_sockets (f : list Socket -> list Socket) (s : store) : store :=
  mkStore (apiEndpoint s) (sessions s) (heap s) (f (sockets s)) (timers s) (trace s).
Definition upd_timers (f : list Timer -> list Timer) (s : store) : store :=
  mkStore (apiEndpoint s) (sessions s) (heap s) (sockets s) (f (timers s)) (trace s).
Definition upd_trace (f : list effect -> list effect) (s : store) : store :=
  mkStore (apiEndpoint s) (sessions s) (heap s) (sockets s) (timers s) (f (trace s)).

Definition emit (e : effect) : M unit :=
  fun s => Done tt (upd_trace (fun t => t ++ [e]) s).

(** [await c]: issue the call and suspend until it settles. *)
Definition await (c : call) : M value :=
  fun s => bind_result (emit (Issued c) s) (fun _ s1 =>
    Suspended c s1 (fun rp s2 =>
      match rp with
      | Resolved v => Done v s2
      | Rejected e => Failed e s2
      end)).

(** [await c] where only completion matters. *)
Definition await_ (c : call) : M unit := _ ← await c; mret tt.

(** *** The registry and the session objects *)

(** [this.sessions.get(chatId)]: a reference, or undefined. *)
Definition sessions_get (chatId : string) : M (option nat) :=
  fun s => Done (sessions s !! chatId) s.

(** [this.sessions.has(chatId)]. *)
Definition sessions_has (chatId : string) : M bool :=
  fun s => Done (bool_decide (is_Some (sessions s !! chatId))) s.

(** [this.sessions.set(chatId, {...})] with a new object. *)
Definition sessions_set (chatId : string) (o : Session) : M unit :=
  fun s => Done tt
    (upd_sessions (fun m => <[chatId := length (heap s)]> m)
       (upd_heap (fun h => h ++ [o]) s)).

(** [this.sessions.delete(chatId)]. *)
Definition sessions_delete (chatId : string) : M unit :=
  fun s => Done tt (upd_sessions (fun m => delete chatId m) s).

(** References are made by [sessions_set] only and the heap never shrinks,
    so a reference outside the heap does not arise; reading through one is
    an exception. *)
Definition dangling : value := mkError "ReferenceError" "dangling session reference".

(** [session.f] through a reference. *)
Definition field {A} (f : Session -> A) (l : nat) : M A :=
  fun s => match heap s !! l with
           | Some o => Done (f o) s
           | None => Failed dangling s
           end.

(** [session.status = st]. *)
Definition write_status (l : nat) (st : Status) (s : store) : store :=
  upd_heap (alter (fun o => mkSession (sessionId o) (websocket o) st) l) s.

Definition set_status (l : nat) (st : Status) : M unit :=
  fun s => Done tt (write_status l st s).

(** [session.websocket = ws]. *)
Definition set_websocket (l : nat) (w : nat) : M unit :=
  fun s => Done tt
    (upd_heap (alter (fun o => mkSession (sessionId o) (Some w) (status o)) l) s).

Definition this_apiEndpoint : M string := fun s => Done (apiEndpoint s) s.

(** *** Sockets and timers *)

(** [ws.close()] starts the closing handshake of a socket that is not yet
    closing or closed; the close event comes later. *)
Definition closing (k : Socket) : Socket :=
  mkSocket (url k) (ws_chatId k) (ws_sessionId k)
    match readyState k with
    | CONNECTING | OPEN => CLOSING
    | r => r
    end.

Definition ws_close (w : nat) : M unit :=
  fun s => emit (SocketClose w) (upd_sockets (alter closing w) s).

(** [setTimeout(() => this.connectWebSocket(chatId, sessionId), ms)]. *)
Definition setTimeout (ms : Z) (chatId sessionId : string) : M unit :=
  fun s =>
    emit (SetTimeout (length (timers s)) ms)
      (upd_timers (fun l => l ++ [mkTimer ms chatId sessionId false]) s).

Fixpoint for_of (items : list value) (body : value -> M unit) : M unit :=
  match items with
  | [] => mret tt
  | x :: rest => body x;; for_of rest body
  end.

(** [v === 'lit']. *)
Definition is_str (v : value) (lit : string) : bool :=
  match v with
  | VStr s => bool_decide (s = lit)
  | _ => false
  end.

(** ** The methods of [DeepResearchPlugin] *)

Section Plugin.
Context `{Runtime}.

Definition json_headers : value := VObj [("Content-Type", VStr "application/json")].

(** [new WebSocket(wsUrl)] with the four handlers of [connectWebSocket]
    attached, which close over [chatId] and [sessionId]. *)
Definition new_WebSocket (wsUrl chatId sessionId : string) : M nat :=
  fun s =>
    if WebSocket_accepts wsUrl then
      let w := length (sockets s) in
      bind_result
        (emit (SocketNew w wsUrl)
           (upd_sockets (fun l => l ++ [mkSocket wsUrl chatId sessionId CONNECTING]) s))
        (fun _ s' => Done w s')
    else Failed SyntaxError s.

(** [this.apiEndpoint.replace('http', 'ws')] followed by the stream path. *)
Definition ws_url (endpoint sessionId : string) : string :=
  replace "http" "ws" endpoint +:+ "/ws/" +:+ sessionId.

(** [connectWebSocket(chatId, sessionId)]. *)
Definition connectWebSocket (chatId sessionId : string) : M unit :=
  session ← sessions_get chatId;
  match session with
  | None => mret tt
  | Some session =>
      (* Close existing WebSocket if any *)
      old ← field websocket session;
      match old with
      | Some w => ws_close w
      | None => mret tt
      end;;
      (* Create new WebSocket connection *)
      endpoint ← this_apiEndpoint;
      let wsUrl := ws_url endpoint sessionId in
      ws ← new_WebSocket wsUrl chatId sessionId;
      (* Store the WebSocket *)
      set_websocket session ws
  end.

(** [handleWebSocketMessage(chatId, data)]. *)
Definition handleWebSocketMessage (chatId : string) (data : value) : M unit :=
  session ← sessions_get chatId;
  match session with
  | None => mret tt
  | Some session =>
      event ← eval (get data "event");
      d ← eval (get data "data");
      let eventData := or_else d (VObj []) in
      if is_str event "token" then
        token ← eval (get eventData "token");
        await_ (Webui "updateLastMessage"
          (VObj [("chatId", VStr chatId); ("append", token); ("done", VBool false)]))
      else if is_str event "research_start" then
        set_status session processing;;
        await_ (Webui "updateChatStatus"
          (VObj [("chatId", VStr chatId); ("status", VStr "typing")]));;
        await_ (Webui "addAssistantMessage"
          (VObj [("chatId", VStr chatId); ("content", VStr "Researching...");
                 ("metadata", VObj [("model", VStr "DeepSeek-R1");
                                    ("provider", VStr "Groq/Ollama")])]))
      else if is_str event "tool_start" then
        tool ← eval (get eventData "tool");
        tool ← eval (ToString tool);
        input ← eval (get eventData "input");
        input ← eval (ToString input);
        await_ (Webui "addThinkingMessage"
          (VObj [("chatId", VStr chatId);
                 ("content", VStr ("Using tool: " +:+ tool +:+ String "010" "Input: " +:+ input))]))
      else if is_str event "tool_end" then
        output ← eval (get eventData "output");
        output ← eval (ToString output);
        await_ (Webui "addThinkingMessage"
          (VObj [("chatId", VStr chatId);
                 ("content", VStr ("Tool result: " +:+ output))]))
      else if is_str event "research_complete" then
        set_status session idle;;
        await_ (Webui "updateChatStatus"
          (VObj [("chatId", VStr chatId); ("status", VStr "idle")]));;
        response ← eval (get eventData "response");
        result ← eval (get response "result");
        response ← eval (get eventData "response");
        model ← eval (get response "model");
        response ← eval (get eventData "response");
        provider ← eval (get response "provider");
        response ← eval (get eventData "response");
        process_time ← eval (get response "process_time");
        process_time ← eval (call_toFixed process_time 2);
        await_ (Webui "updateLastMessage"
          (VObj [("chatId", VStr chatId); ("content", result); ("done", VBool true);
                 ("metadata", VObj [("model", model); ("provider", provider);
                                    ("process_time", VStr (process_time +:+ "s"))])]))
      else if is_str event "research_error" then
        set_status session error;;
        await_ (Webui "updateChatStatus"
          (VObj [("chatId", VStr chatId); ("status", VStr "idle")]));;
        err ← eval (get eventData "error");
        err ← eval (get err "error");
        err ← eval (ToString err);
        await_ (Webui "updateLastMessage"
          (VObj [("chatId", VStr chatId); ("content", VStr ("Error: " +:+ err));
                 ("done", VBool true); ("metadata", VObj [("error", VBool true)])]))
      else if is_str event "session_state" then
        messages ← eval (get eventData "messages");
        nonempty ← (if truthy messages
                    then len ← eval (get messages "length"); eval (gt_zero len)
                    else mret false);
        if nonempty : bool then
          let body (message : value) : M unit :=
            role ← eval (get message "role");
            if is_str role "user" then
              content ← eval (get message "content");
              await_ (Webui "addUserMessage"
                (VObj [("chatId", VStr chatId); ("content", content)]))
            else if is_str role "assistant" then
              content ← eval (get message "content");
              await_ (Webui "addAssistantMessage"
                (VObj [("chatId", VStr chatId); ("content", content); ("done", VBool true)]))
            else mret tt in
          match messages with
          | VArr items => for_of items body
          | VStr _ => mret tt
          | _ => throw TypeError
          end
        else mret tt
      else mret tt
  end.

(** [handleResearchQuery(chatId, message)]. *)
Definition handleResearchQuery (chatId : string) (message : value) : M unit :=
  session ← sessions_get chatId;
  match session with
  | None => mret tt
  | Some session =>
      (* Check if a research is already in progress *)
      st ← field status session;
      if Status_eqb st processing then
        await_ (Webui "addSystemMessage"
          (VObj [("chatId", VStr chatId);
                 ("content", VStr "Please wait for the current research to complete before submitting a new query.")]))
      else
        (* Add user message to UI *)
        await_ (Webui "addUserMessage"
          (VObj [("chatId", VStr chatId); ("content", message)]));;
        (* Submit query to backend *)
        try_catch
          (endpoint ← this_apiEndpoint;
           sid ← field sessionId session;
           response ← await (Fetch (endpoint +:+ "/api/query")
             (VObj [("method", VStr "POST"); ("headers", json_headers);
                    ("body", VStr (JSON_stringify
                       (VObj [("query", message); ("session_id", VStr sid)])))]));
           ok ← eval (get response "ok");
           if negb (truthy ok) then
             throw (mkError "Error" "Failed to submit research query")
           else
             (* Backend will send updates via WebSocket *)
             set_status session processing)
          (fun err =>
             emit (ConsoleError [VStr "Error submitting research query:"; err]);;
             msg ← eval (get err "message");
             msg ← eval (ToString msg);
             await_ (Webui "addSystemMessage"
               (VObj [("chatId", VStr chatId); ("content", VStr ("Error: " +:+ msg))])))
  end.

(** [cleanupSession(chatId)]. *)
Definition cleanupSession (chatId : string) : M unit :=
  session ← sessions_get chatId;
  match session with
  | None => mret tt
  | Some session =>
      (* Close WebSocket *)
      ws ← field websocket session;
      match ws with
      | Some w => ws_close w
      | None => mret tt
      end;;
      (* Delete session on backend *)
      try_catch
        (endpoint ← this_apiEndpoint;
         sid ← field sessionId session;
         await_ (Fetch (endpoint +:+ "/api/sessions/" +:+ sid)
           (VObj [("method", VStr "DELETE")])))
        (fun err => emit (ConsoleError [VStr "Error deleting session:"; err]));;
      (* Remove from local sessions map *)
      sessions_delete chatId
  end.

(** The host resolves [webui.createChat] with the identifier of the new
    chat, a string; a reply of another shape counts as a rejection. *)
Definition await_chat_id (c : call) : M string :=
  v ← await c;
  match v with
  | VStr chatId => mret chatId
  | _ => throw TypeError
  end.

(** [createResearchChat()], where [now] is what [Date.now()] returns. *)
Definition createResearchChat (now : Z) : M value :=
  (* Generate a new session ID *)
  let sessionId := "research-" +:+ pretty now in
  (* Create a new chat in the UI *)
  chatId ← await_chat_id (Webui "createChat"
    (VObj [("title", VStr "Research Session"); ("type", VStr "research");
           ("metadata", VObj [("sessionId", VStr sessionId)])]));
  (* Create a new research session on the backend *)
  try_catch
    (endpoint ← this_apiEndpoint;
     await_ (Fetch (endpoint +:+ "/api/sessions")
       (VObj [("method", VStr "POST"); ("headers", json_headers);
              ("body", VStr (JSON_stringify (VObj [("session_id", VStr sessionId)])))]));;
     (* Store session information *)
     sessions_set chatId (mkSession sessionId None idle);;
     (* Connect WebSocket *)
     connectWebSocket chatId sessionId;;
     (* Add welcome message *)
     await_ (Webui "addSystemMessage"
       (VObj [("chatId", VStr chatId);
              ("content", VStr "Welcome to the Deep Research Assistant! Ask me any research question, and I'll provide a comprehensive answer using Groq's DeepSeek-R1 model and Perplexica search.")]));;
     mret (VStr chatId))
    (fun err =>
       emit (ConsoleError [VStr "Failed to create research session:"; err]);;
       await_ (Webui "addSystemMessage"
         (VObj [("chatId", VStr chatId);
                ("content", VStr "Error: Failed to initialize research session. Please try again.")]));;
       mret (VStr chatId)).

(** [createNewResearchChat()]. *)
Definition createNewResearchChat (now : Z) : M value := createResearchChat now.

(** The ['message:send'] listener of [registerAPIHandlers]. *)
Definition on_message_send (chatId : string) (message : value) : M unit :=
  (* Check if this is a research chat *)
  has ← sessions_has chatId;
  if has : bool then
    emit PreventDefault;;
    handleResearchQuery chatId message
  else mret tt.

(** The ['chat:delete'] listener of [registerAPIHandlers]. *)
Definition on_chat_delete (chatId : string) : M unit :=
  has ← sessions_has chatId;
  if has : bool then cleanupSession chatId else mret tt.

(** The handlers [connectWebSocket] attaches to a socket. *)
Definition ws_onopen (sessionId : string) : M unit :=
  emit (ConsoleLog [VStr ("WebSocket connected for session " +:+ sessionId)]).

Definition ws_onmessage (chatId : string) (frame : string) : M unit :=
  match JSON_parse frame with
  | None => throw SyntaxError
  | Some data => handleWebSocketMessage chatId data
  end.

Definition ws_onerror (sessionId : string) (err : value) : M unit :=
  emit (ConsoleError [VStr ("WebSocket error for session " +:+ sessionId +:+ ":"); err]).

Definition ws_onclose (chatId sessionId : string) : M unit :=
  emit (ConsoleLog [VStr ("WebSocket closed for session " +:+ sessionId)]);;
  (* Reconnect if session still exists *)
  has ← sessions_has chatId;
  if has : bool then setTimeout 5000 chatId sessionId else mret tt.

End Plugin.

(** ** Running a method against scripted replies *)

Inductive outcome (A : Type) : Type :=
| Returned (a : A)
| Threw (e : value).
Arguments Returned {A} a.
Arguments Threw {A} e.

(** Where a method stands once the replies of a script are used up. *)
Inductive progress (A : Type) : Type :=
| Settled (o : outcome A) (s : store)
| Awaiting (c : call) (s : store).
Arguments Settled {A} o s.
Arguments Awaiting {A} c s.

Fixpoint run {A} (r : result A) (replies : list reply) : progress A :=
  match r with
  | Done a s => Settled (Returned a) s
  | Failed e s => Settled (Threw e) s
  | Suspended c s k =>
      match replies with
      | [] => Awaiting c s
      | rp :: rest => run (k rp s) rest
      end
  end.

Definition store_of {A} (p : progress A) : store :=
  match p with
  | Settled _ s => s
  | Awaiting _ s => s
  end.

(** ** The event loop *)

(** A suspended method: the call it awaits and what it does next. *)
Record task : Type := mkTask {
  waiting : call;
  resume : reply -> store -> result unit
}.

(** The plugin state, the suspended methods, and the exceptions that
    escaped a handler (rejected promises nobody handles). *)
Record world : Type := mkWorld {
  plugin : store;
  pending : list task;
  escaped : list value
}.

(** The world once the plugin is constructed and its listeners are
    registered with the host. *)
Definition boot (endpoint : option string) : world :=
  mkWorld (constructor endpoint) [] [].

(** What the host and the network can do to the plugin. *)
Inductive input : Type :=
| NewResearchChat (now : Z)
| MessageSend (chatId : string) (message : value)
| ChatDelete (chatId : string)
| SocketOpened (w : nat)
| SocketMessage (w : nat) (frame : string)
| SocketError (w : nat) (err : value)
| SocketClosed (w : nat)
| TimerFired (t : nat)
| Settle (i : nat) (rp : reply).

Definition absorb (r : result unit) (others : list task) (esc : list value) : world :=
  match r with
  | Done _ s => mkWorld s others esc
  | Failed e s => mkWorld s others (esc ++ [e])
  | Suspended c s k => mkWorld s (others ++ [mkTask c k]) esc
  end.

Definition set_readyState (r : ReadyState) (k : Socket) : Socket :=
  mkSocket (url k) (ws_chatId k) (ws_sessionId k) r.

Definition set_fired (t : Timer) : Timer :=
  mkTimer (delay t) (t_chatId t) (t_sessionId t) true.

Definition void {A} (m : M A) : M unit := _ ← m; mret tt.

Section Loop.
Context `{Runtime}.

(** One turn of the event loop; [None] when the host cannot deliver the
    input: a message on a socket that is not open, an event on a closed
    socket, a timer that fired already, a reply nobody waits for. *)
Definition step (w : world) (i : input) : option world :=
  let go (m : M unit) (s : store) := Some (absorb (m s) (pending w) (escaped w)) in
  match i with
  | NewResearchChat now => go (void (createResearchChat now)) (plugin w)
  | MessageSend chatId message => go (on_message_send chatId message) (plugin w)
  | ChatDelete chatId => go (on_chat_delete chatId) (plugin w)
  | SocketOpened n =>
      match sockets (plugin w) !! n with
      | Some k =>
          match readyState k with
          | CONNECTING =>
              go (ws_onopen (ws_sessionId k))
                 (upd_sockets (alter (set_readyState OPEN) n) (plugin w))
          | _ => None
          end
      | None => None
      end
  | SocketMessage n frame =>
      match sockets (plugin w) !! n with
      | Some k =>
          match readyState k with
          | OPEN => go (ws_onmessage (ws_chatId k) frame) (plugin w)
          | _ => None
          end
      | None => None
      end
  | SocketError n err =>
      match sockets (plugin w) !! n with
      | Some k =>
          match readyState k with
          | CLOSED => None
          | _ => go (ws_onerror (ws_sessionId k) err) (plugin w)
          end
      | None => None
      end
  | SocketClosed n =>
      match sockets (plugin w) !! n with
      | Some k =>
          match readyState k with
          | CLOSED => None
          | _ =>
              go (ws_onclose (ws_chatId k) (ws_sessionId k))
                 (upd_sockets (alter (set_readyState CLOSED) n) (plugin w))
          end
      | None => None
      end
  | TimerFired t =>
      match timers (plugin w) !! t with
      | Some tm =>
          if fired tm then None
          else go (connectWebSocket (t_chatId tm) (t_sessionId tm))
                  (upd_timers (alter set_fired t) (plugin w))
      | None => None
      end
  | Settle i rp =>
      match pending w !! i with
      | Some t =>
          Some (absorb (resume t rp (plugin w)) (delete i (pending w)) (escaped w))
      | None => None
      end
  end.

Fixpoint steps (w : world) (inputs : list input) : option world :=
  match inputs with
  | [] => Some w
  | i :: rest =>
      match step w i with
      | Some w' => steps w' rest
      | None => None
      end
  end.

Definition reachable (w : world) : Prop :=
  exists endpoint inputs, steps (boot endpoint) inputs = Some w.

End Loop.

(** ** A concrete runtime for the examples *)

Module Sample.

Definition dq : string := String "034" "".
Definition q (s : string) : string := dq +:+ s +:+ dq.

(** [{"event":"research_start"}] *)
Definition frame_start : string :=
  "{" +:+ q "event" +:+ ":" +:+ q "research_start" +:+ "}".

(** [{"event":"research_complete"}] *)
Definition frame_complete_bare : string :=
  "{" +:+ q "event" +:+ ":" +:+ q "research_complete" +:+ "}".

(** [{"event":"research_error"}] *)
Definition frame_error_bare : string :=
  "{" +:+ q "event" +:+ ":" +:+ q "research_error" +:+ "}".

(** [{"event":"research_error","data":{"error":{"error":"boom"}}}] *)
Definition frame_error : string :=
  "{" +:+ q "event" +:+ ":" +:+ q "research_error" +:+ "," +:+ q "data" +:+ ":{"
  +:+ q "error" +:+ ":{" +:+ q "error" +:+ ":" +:+ q "boom" +:+ "}}}".

(** [{"event":"token","data":{"token":"Hel"}}] *)
Definition frame_token : string :=
  "{" +:+ q "event" +:+ ":" +:+ q "token" +:+ "," +:+ q "data" +:+ ":{"
  +:+ q "token" +:+ ":" +:+ q "Hel" +:+ "}}".

(** The double nearest to 1.234. *)
Definition d1_234 : number := S754_finite false 5557441940175192 (-52).

(** [{"event":"research_complete","data":{"response":{"result":"Answer.",
    "model":"m","provider":"p","process_time":1.234}}}] *)
Definition frame_complete : string :=
  "{" +:+ q "event" +:+ ":" +:+ q "research_complete" +:+ "," +:+ q "data" +:+ ":{"
  +:+ q "response" +:+ ":{" +:+ q "result" +:+ ":" +:+ q "Answer." +:+ ","
  +:+ q "model" +:+ ":" +:+ q "m" +:+ "," +:+ q "provider" +:+ ":" +:+ q "p" +:+ ","
  +:+ q "process_time" +:+ ":1.234}}}".

Definition complete_payload : value :=
  VObj [("event", VStr "research_complete");
        ("data", VObj [("response",
           VObj [("result", VStr "Answer."); ("model", VStr "m");
                 ("provider", VStr "p"); ("process_time", VNum d1_234)])])].

(** A frame that is not JSON. *)
Definition frame_garbage : string := "<html>502 Bad Gateway</html>".

(** [JSON.parse] on the frames above, read by hand; every other text is
    taken to be malformed. *)
Definition parse_table : list (string * value) :=
  [ (frame_start, VObj [("event", VStr "research_start")]);
    (frame_complete_bare, VObj [("event", VStr "research_complete")]);
    (frame_error_bare, VObj [("event", VStr "research_error")]);
    (frame_error,
       VObj [("event", VStr "research_error");
             ("data", VObj [("error", VObj [("error", VStr "boom")])])]);
    (frame_token,
       VObj [("event", VStr "token"); ("data", VObj [("token", VStr "Hel")])]);
    (frame_complete, complete_payload) ].

(** Decimal digits of an integer-valued number; the runs below print no
    other number. *)
Definition number_to_string (x : number) : string :=
  match x with
  | S754_nan => "NaN"
  | S754_infinity s => (if s then "-" else "") +:+ "Infinity"
  | S754_zero _ => "0"
  | S754_finite s m e => (if s then "-" else "") +:+ pretty (Z.to_N (Z.pos m * 2 ^ e))
  end.

(** Enough of [JSON.stringify] for request bodies made of strings. *)
Fixpoint stringify (v : value) : string :=
  match v with
  | VUndefined | VNull => "null"
  | VBool true => "true"
  | VBool false => "false"
  | VNum x => number_to_string x
  | VStr s => q s
  | VArr items => "[" +:+ join "," (map stringify items) +:+ "]"
  | VObj fields =>
      "{" +:+ join "," (map (fun kv => q (fst kv) +:+ ":" +:+ stringify (snd kv)) fields)
      +:+ "}"
  end.

#[export] Instance runtime : Runtime := {|
  JSON_parse := own parse_table;
  JSON_stringify := stringify;
  Number_toString := number_to_string;
  StringToNumber := fun _ => S754_nan;
  WebSocket_accepts := fun u => String.prefix "ws://" u || String.prefix "wss://" u;
  engine_message := "not an object"
|}.

(** The response of a request the backend accepted, and of one it
    refused. *)
Definition response_ok : value := VObj [("ok", VBool true); ("status", VNum (of_nat 200))].
Definition response_500 : value := VObj [("ok", VBool false); ("status", VNum (of_nat 500))].
Definition network_error : value := mkError "TypeError" "Failed to fetch".

End Sample.

(** ** Specifications of resumptions *)

(** [follows G Q r]: the segment of [r] that runs now ends in a store
    satisfying [Q], and every later segment, resumed in store [s1] by
    reply [rp] to call [c], ends in a store related to [s1] by
    [G c rp]. *)
Inductive follows {A : Type} (G : call -> reply -> store -> store -> Prop)
  : (store -> Prop) -> result A -> Prop :=
| follows_done Q a s : Q s -> follows G Q (Done a s)
| follows_failed Q e s : Q s -> follows G Q (Failed e s)
| follows_suspended Q c s k :
    Q s ->
    (forall rp s1, follows G (G c rp s1) (k rp s1)) ->
    follows G Q (Suspended c s k).

(** A method is quiet when each of its segments stays within [B]. *)
Definition quiet {A} (G : call -> reply -> store -> store -> Prop)
    (B : store -> store -> Prop) (m : M A) : Prop :=
  forall s, follows G (B s) (m s).

(** [B] is what any code may do to the store, [G c rp] what the code
    resumed by reply [rp] to call [c] may do. *)
Class Discipline (G : call -> reply -> store -> store -> Prop)
    (B : store -> store -> Prop) : Prop := {
  B_refl : forall s, B s s;
  B_trans : forall s1 s2 s3, B s1 s2 -> B s2 s3 -> B s1 s3;
  B_trace : forall f s, B s (upd_trace f s);
  G_start : forall c rp s, G c rp s s;
  G_then : forall c rp s1 s2 s3, G c rp s1 s2 -> B s2 s3 -> G c rp s1 s3
}.

Definition tasks_follow (G : call -> reply -> store -> store -> Prop)
    (ts : list task) : Prop :=
  forall t, t ∈ ts -> forall rp s1, follows G (G (waiting t) rp s1) (resume t rp s1).

(** [keeps I]: what code that maintains the invariant [I] may do. *)
Definition keeps (I : store -> Prop) (s s' : store) : Prop := I s -> I s'.

Definition keeping (I : store -> Prop) (c : call) (rp : reply) : store -> store -> Prop :=
  keeps I.

(** ** Status transitions *)

Definition status_at (s : store) (l : nat) : option Status :=
  status <$> heap s !! l.

(** Every session object keeps its status or moves to one that [P]
    allows for it. *)
Definition status_moves (P : nat -> Status -> Prop) (s s' : store) : Prop :=
  forall l a, status_at s l = Some a ->
    exists b, status_at s' l = Some b /\ (b = a \/ P l b).

Definition status_kept : store -> store -> Prop := status_moves (fun _ _ => False).

Section Causes.
Context `{Runtime}.

(** The call is the query request of [handleResearchQuery]. *)
Definition query_call (c : call) : Prop :=
  exists endpoint init, c = Fetch (endpoint +:+ "/api/query") init.

(** The request was answered by a response whose [ok] is truthy. *)
Definition acknowledged (rp : reply) : Prop :=
  exists response ok,
    rp = Resolved response /\ get response "ok" = Normal ok /\ truthy ok = true.

Definition grants (c : call) (rp : reply) (l : nat) (b : Status) : Prop :=
  b = processing /\ query_call c /\ acknowledged rp.

(** What the code resumed by reply [rp] to call [c] may do to statuses. *)
Definition may_write (c : call) (rp : reply) : store -> store -> Prop :=
  status_moves (grants c rp).

Definition event_named (data : value) (name : string) : Prop :=
  get data "event" = Normal (VStr name).

(** The status an inbound event may write. *)
Definition event_target (data : value) (b : Status) : Prop :=
  (b = processing /\ event_named data "research_start") \/
  (b = idle /\ event_named data "research_complete") \/
  (b = error /\ event_named data "research_error").

(** What the event carried by [data], dispatched for chat [chatId], may
    write, and to which session object. *)
Definition event_writes (s : store) (chatId : string) (data : value)
    (l : nat) (b : Status) : Prop :=
  sessions s !! chatId = Some l /\ event_target data b.

(** Why a turn of the event loop may change the status of session object
    [l] to [b]: an event of the matching kind arrives on a socket whose
    chat is registered to [l], or the query request of a suspended
    [handleResearchQuery] is acknowledged. *)
Inductive cause (w : world) : input -> nat -> Status -> Prop :=
| cause_event n k frame data l b :
    sockets (plugin w) !! n = Some k ->
    sessions (plugin w) !! ws_chatId k = Some l ->
    JSON_parse frame = Some data ->
    event_target data b ->
    cause w (SocketMessage n frame) l b
| cause_query i rp t l :
    pending w !! i = Some t ->
    query_call (waiting t) ->
    acknowledged rp ->
    cause w (Settle i rp) l processing.

End Causes.

(** The transitions the specification allows. *)
Definition spec_transition (a b : Status) : Prop :=
  (a = idle /\ b = processing) \/ (a = processing /\ b = idle).

(** The transitions of the specification, as a property of the event
    loop: a status only ever changes from [idle] to [processing] or from
    [processing] to [idle]. *)
Definition spec_status_machine `{Runtime} : Prop :=
  forall w i w' l a b,
    reachable w ->
    step w i = Some w' ->
    status_at (plugin w) l = Some a ->
    status_at (plugin w') l = Some b ->
    a <> b ->
    spec_transition a b.

(** ** Live connections *)

(** The timeout [ws.onclose] sets. *)
Definition reconnect_timer (chatId sessionId : string) : Timer :=
  mkTimer 5000 chatId sessionId false.

Definition closed_log (sessionId : string) : effect :=
  ConsoleLog [VStr ("WebSocket closed for session " +:+ sessionId)].

Definition live (k : Socket) : bool :=
  match readyState k with
  | CONNECTING | OPEN => true
  | CLOSING | CLOSED => false
  end.

(** Session object [l] holds socket [n] in its [websocket] field. *)
Definition holds (s : store) (l n : nat) : Prop :=
  exists o, heap s !! l = Some o /\ websocket o = Some n.

(** Every socket that can still deliver events is the current connection
    of exactly one session object, and connections refer to sockets that
    exist. *)
Record one_listener (s : store) : Prop := {
  live_held : forall n k, sockets s !! n = Some k -> live k = true ->
                exists l, holds s l n;
  held_once : forall l l' n, holds s l n -> holds s l' n -> l = l';
  held_exists : forall l n, holds s l n -> n < length (sockets s)
}.

(** ** Requests and notices *)

(** The system message shown when a query is refused as busy. *)
Definition busy_notice (chatId : string) : call :=
  Webui "addSystemMessage"
    (VObj [("chatId", VStr chatId);
           ("content", VStr "Please wait for the current research to complete before submitting a new query.")]).

Definition is_request (e : effect) : bool :=
  match e with
  | Issued (Fetch _ _) => true
  | _ => false
  end.

(** The HTTP requests issued so far. *)
Definition requests (s : store) : list effect :=
  filter (fun e => is_request e = true) (trace s).

(** A method whose last statement was an [await] ends with that call. *)
Definition settles (k : reply -> store -> result unit) : Prop :=
  forall rp s,
    k rp s = match rp with
             | Resolved _ => Done tt s
             | Rejected e => Failed e s
             end.

(** The store once effects [es] have been appended to its trace. *)
Definition traced (es : list effect) (s : store) : store :=
  upd_trace (fun t => t ++ es) s.

(** A number that [toFixed] prints in fixed-point notation: a zero, or a
    finite value of magnitude below 10^21. *)
Definition fixed_point_range (x : number) : Prop :=
  match x with
  | S754_zero _ => True
  | S754_finite _ m e => at_least_1e21 m e = false
  | _ => False
  end.

(** A text with a decimal point followed by exactly two characters. *)
Definition two_decimals (t : string) : Prop :=
  exists a b, t = a +:+ "." +:+ b /\ String.length b = 2 /\ 1 <= String.length a.

(** The calls of the dispatcher and of the admission gate. *)
Definition status_update (chatId status : string) : call :=
  Webui "updateChatStatus" (VObj [("chatId", VStr chatId); ("status", VStr status)]).

Definition final_message (chatId : string) (result model provider : value)
    (process_time : string) : call :=
  Webui "updateLastMessage"
    (VObj [("chatId", VStr chatId); ("content", result); ("done", VBool true);
           ("metadata", VObj [("model", model); ("provider", provider);
                              ("process_time", VStr process_time)])]).

Definition user_echo (chatId : string) (message : value) : call :=
  Webui "addUserMessage" (VObj [("chatId", VStr chatId); ("content", message)]).

Definition error_notice (chatId msg : string) : call :=
  Webui "addSystemMessage"
    (VObj [("chatId", VStr chatId); ("content", VStr ("Error: " +:+ msg))]).

Definition query_request `{Runtime} (endpoint sid : string) (message : value) : call :=
  Fetch (endpoint +:+ "/api/query")
    (VObj [("method", VStr "POST"); ("headers", json_headers);
           ("body", VStr (JSON_stringify
              (VObj [("query", message); ("session_id", VStr sid)])))]).

Definition submit_failed : value := mkError "Error" "Failed to submit research query".

Definition submit_error_log (err : value) : effect :=
  ConsoleError [VStr "Error submitting research query:"; err].

(** Undefined or null: reading a property of such a value throws. *)
Definition nullish (v : value) : Prop := v = VUndefined \/ v = VNull.

(** The calls of session creation and deletion. *)
Definition create_chat (now : Z) : call :=
  Webui "createChat"
    (VObj [("title", VStr "Research Session"); ("type", VStr "research");
           ("metadata", VObj [("sessionId", VStr ("research-" +:+ pretty now))])]).

Definition provision_request `{Runtime} (endpoint : string) (now : Z) : call :=
  Fetch (endpoint +:+ "/api/sessions")
    (VObj [("method", VStr "POST"); ("headers", json_headers);
           ("body", VStr (JSON_stringify
              (VObj [("session_id", VStr ("research-" +:+ pretty now))])))]).

Definition creation_failed_notice (chatId : string) : call :=
  Webui "addSystemMessage"
    (VObj [("chatId", VStr chatId);
           ("content", VStr "Error: Failed to initialize research session. Please try again.")]).

Definition creation_failed_log (err : value) : effect :=
  ConsoleError [VStr "Failed to create research session:"; err].

Definition teardown_request (endpoint sid : string) : call :=
  Fetch (endpoint +:+ "/api/sessions/" +:+ sid) (VObj [("method", VStr "DELETE")]).

Definition teardown_failed_log (err : value) : effect :=
  ConsoleError [VStr "Error deleting session:"; err].

(** The store once [ws.close()] has been called on the connection of a
    session object, if it has one. *)
Definition closed_connection (o : Session) (s : store) : store :=
  match websocket o with
  | Some w => traced [SocketClose w] (upd_sockets (alter closing w) s)
  | None => s
  end.

(** The WebSocket constructor accepts every stream URL of the endpoint. *)
Definition accepts_all `{Runtime} (endpoint : string) : Prop :=
  forall sid, WebSocket_accepts (ws_url endpoint sid) = true.

(** The endpoint is [endpoint], and every registered chat refers to a
    session object, which has a connection unless the WebSocket
    constructor refuses a URL. *)
Definition registered `{Runtime} (endpoint : string) (s : store) : Prop :=
  apiEndpoint s = endpoint /\
  forall chatId l, sessions s !! chatId = Some l ->
    exists o, heap s !! l = Some o /\
              (accepts_all endpoint -> is_Some (websocket o)).

(** The store once [connectWebSocket] has run for the session object at
    [l]: the old connection closed, a new socket made and stored. *)
Definition reconnected (chatId sid : string) (l : nat) (o : Session) (s : store) : store :=
  let s1 := closed_connection o s in
  let w := length (sockets s1) in
  let wsUrl := ws_url (apiEndpoint s) sid in
  upd_heap (alter (fun o => mkSession (sessionId o) (Some w) (status o)) l)
    (traced [SocketNew w wsUrl]
       (upd_sockets (fun ks => ks ++ [mkSocket wsUrl chatId sid CONNECTING]) s1)).

(** The specification on a failed submission: when a query is admitted
    (the user message settles), its request is rejected and the error
    notice settles, the status of the session is [idle]. *)
Definition spec_failed_query_idle `{Runtime} : Prop :=
  forall w chatId l o message v e v',
    reachable w ->
    sessions (plugin w) !! chatId = Some l ->
    heap (plugin w) !! l = Some o ->
    status o <> processing ->
    status_at
      (store_of (run (handleResearchQuery chatId message (plugin w))
                   [Resolved v; Rejected e; Resolved v'])) l
      = Some idle.

(** ** Concrete runs *)

Module Runs.
Import Sample.

(** The world after the plugin, started with the default endpoint, has
    taken the inputs of a script (the initial world if the host cannot
    deliver one of them). *)
Definition after (script : list input) : world :=
  default (boot None) (steps (boot None) script).

(** A research chat [c1] is created at time 1700000000000, the backend
    provisions it, the welcome message is shown and the socket opens. *)
Definition chat_opened : list input :=
  [ NewResearchChat 1700000000000;
    Settle 0 (Resolved (VStr "c1"));
    Settle 0 (Resolved response_ok);
    Settle 0 (Resolved VUndefined);
    SocketOpened 0 ].

(** Then the user asks a question and the backend accepts it. *)
Definition query_accepted : list input :=
  chat_opened ++
  [ MessageSend "c1" (VStr "What is Rocq?");
    Settle 0 (Resolved VUndefined);
    Settle 0 (Resolved response_ok) ].

(** The backend answers the provisioning request with status 500. *)
Definition provisioning_refused : list input :=
  [ NewResearchChat 1700000000000;
    Settle 0 (Resolved (VStr "c1"));
    Settle 0 (Resolved response_500);
    Settle 0 (Resolved VUndefined) ].

(** The provisioning request is rejected by the network. *)
Definition provisioning_unreachable : list input :=
  [ NewResearchChat 1700000000000;
    Settle 0 (Resolved (VStr "c1"));
    Settle 0 (Rejected network_error);
    Settle 0 (Resolved VUndefined) ].

(** The chat is deleted and the teardown request is rejected. *)
Definition deleted_offline : list input :=
  chat_opened ++ [ ChatDelete "c1"; Settle 0 (Rejected network_error) ].

(** Then the backend reports that the research failed. *)
Definition research_failed : list input :=
  query_accepted ++
  [ SocketMessage 0 frame_error;
    Settle 0 (Resolved VUndefined);
    Settle 0 (Resolved VUndefined) ].

(** The session object and the socket of chat [c1] in these runs. *)
Definition session_c1 (st : Status) : Session :=
  mkSession "research-1700000000000" (Some 0) st.

Definition socket_c1 (r : ReadyState) : Socket :=
  mkSocket "ws://localhost:8000/ws/research-1700000000000" "c1"
    "research-1700000000000" r.

End Runs.

(** ** The other event kinds *)

(** The event kinds [handleWebSocketMessage] has a case for. *)
Definition event_kinds : list string :=
  ["token"; "research_start"; "tool_start"; "tool_end"; "research_complete";
   "research_error"; "session_state"].

Definition token_append (chatId : string) (token : value) : call :=
  Webui "updateLastMessage"
    (VObj [("chatId", VStr chatId); ("append", token); ("done", VBool false)]).

Definition placeholder_message (chatId : string) : call :=
  Webui "addAssistantMessage"
    (VObj [("chatId", VStr chatId); ("content", VStr "Researching...");
           ("metadata", VObj [("model", VStr "DeepSeek-R1");
                              ("provider", VStr "Groq/Ollama")])]).

Definition thinking_message (chatId content : string) : call :=
  Webui "addThinkingMessage"
    (VObj [("chatId", VStr chatId); ("content", VStr content)]).

Definition error_message (chatId msg : string) : call :=
  Webui "updateLastMessage"
    (VObj [("chatId", VStr chatId); ("content", VStr ("Error: " +:+ msg));
           ("done", VBool true); ("metadata", VObj [("error", VBool true)])]).

Definition replayed_assistant (chatId : string) (content : value) : call :=
  Webui "addAssistantMessage"
    (VObj [("chatId", VStr chatId); ("content", content); ("done", VBool true)]).

(** The call that the replay of [session_state] issues for one buffered
    message: none unless its role is ['user'] or ['assistant']. *)
Definition replayed `{Runtime} (chatId : string) (message : value) : list call :=
  match get message "role", get message "content" with
  | Normal role, Normal content =>
      if is_str role "user" then [user_echo chatId content]
      else if is_str role "assistant" then [replayed_assistant chatId content]
      else []
  | _, _ => []
  end.

(** A [messages] value for which the replay of [session_state] has
    nothing to do: anything but a non-empty array or an object. *)
Definition nothing_to_replay (messages : value) : Prop :=
  match messages with
  | VArr (_ :: _) | VObj _ => False
  | _ => True
  end.

(** What one turn of the replay loop does with a message. *)
Definition replays `{Runtime} (chatId : string) (body : value -> M unit) : Prop :=
  forall x s,
    (nullish x -> body x s = Failed TypeError s) /\
    (~ nullish x ->
     (replayed chatId x = [] /\ body x s = Done tt s) \/
     (exists c k, replayed chatId x = [c] /\
                  body x s = Suspended c (traced [Issued c] s) k /\ settles k)).

(** ** Plugin initialisation *)

(** The data of the chat type and of the toolbar button that
    [registerUIComponents] registers.  Their function-valued properties
    ([createHandler], [action]) are not data: both are
    [createResearchChat], which the event loop runs on [NewResearchChat]. *)
Definition research_chat_type : value :=
  VObj [("id", VStr "research"); ("name", VStr "Research Chat");
        ("icon", VStr "search");
        ("description", VStr "Deep research with Groq and Perplexica")].

Definition research_button : value :=
  VObj [("id", VStr "new-research-chat"); ("icon", VStr "science");
        ("label", VStr "New Research"); ("position", VStr "right")].

(** [registerUIComponents()]. *)
Definition registerUIComponents : M unit :=
  (* Register a new chat type for research *)
  await_ (Webui "registerChatType" research_chat_type);;
  (* Add a toolbar button for research mode *)
  await_ (Webui "addToolbarButton" research_button).

(** [webui.on(event, listener)], a synchronous call; the listeners are
    [on_message_send] and [on_chat_delete]. *)
Definition listening (event : string) : effect := Issued (Webui "on" (VStr event)).

(** [registerAPIHandlers()]. *)
Definition registerAPIHandlers : M unit :=
  emit (listening "message:send");;
  (* Handle chat deletion *)
  emit (listening "chat:delete").

Definition initialized_log : effect :=
  ConsoleLog [VStr "Deep Research Agent plugin initialized successfully"].

Definition initialization_failed_log (err : value) : effect :=
  ConsoleError [VStr "Failed to initialize Deep Research Agent plugin:"; err].

(** [registerPlugin()]. *)
Definition registerPlugin : M unit :=
  try_catch
    ((* Register UI components *)
     registerUIComponents;;
     (* Register API handlers *)
     registerAPIHandlers;;
     emit initialized_log)
    (fun err => emit (initialization_failed_log err)).

(** ** Session creation *)

Definition welcome_message (chatId : string) : call :=
  Webui "addSystemMessage"
    (VObj [("chatId", VStr chatId);
           ("content", VStr "Welcome to the Deep Research Assistant! Ask me any research question, and I'll provide a comprehensive answer using Groq's DeepSeek-R1 model and Perplexica search.")]).

(** ['research-' + Date.now()]. *)
Definition session_id_at (now : Z) : string := "research-" +:+ pretty now.

(** [s.includes(pat)]. *)
Fixpoint occurs (pat s : string) : bool :=
  String.prefix pat s ||
  match s with
  | EmptyString => false
  | String _ rest => occurs pat rest
  end.

(** ** Stream URLs *)

(** The endpoint is [endpoint], and every socket was made for the stream
    URL of its session at that endpoint. *)
Definition wired (endpoint : string) (s : store) : Prop :=
  apiEndpoint s = endpoint /\
  forall n k, sockets s !! n = Some k -> url k = ws_url endpoint (ws_sessionId k).

(** ** Payloads for the examples *)

Module Payloads.
Import Sample.

(** [{"event":"ping"}] *)
Definition ping_payload : value := VObj [("event", VStr "ping")].

(** [{"event":"token","data":{"token":"Hel"}}] *)
Definition token_payload : value :=
  VObj [("event", VStr "token"); ("data", VObj [("token", VStr "Hel")])].

(** [{"event":"research_start"}] *)
Definition start_payload : value := VObj [("event", VStr "research_start")].

(** [{"event":"tool_start","data":{"tool":"search","input":"rocq"}}] *)
Definition tool_start_payload : value :=
  VObj [("event", VStr "tool_start");
        ("data", VObj [("tool", VStr "search"); ("input", VStr "rocq")])].

(** [{"event":"tool_end","data":{"output":"3 results"}}] *)
Definition tool_end_payload : value :=
  VObj [("event", VStr "tool_end"); ("data", VObj [("output", VStr "3 results")])].

(** [{"event":"research_error","data":{"error":{"error":"boom"}}}] *)
Definition error_payload : value :=
  VObj [("event", VStr "research_error");
        ("data", VObj [("error", VObj [("error", VStr "boom")])])].

(** [{"event":"research_complete","data":{"response":{"result":"Answer.",
    "process_time":"1.2"}}}]: the time is a string. *)
Definition complete_payload_text_time : value :=
  VObj [("event", VStr "research_complete");
        ("data", VObj [("response",
           VObj [("result", VStr "Answer."); ("process_time", VStr "1.2")])])].

Definition user_said : value :=
  VObj [("role", VStr "user"); ("content", VStr "hi")].
Definition assistant_said : value :=
  VObj [("role", VStr "assistant"); ("content", VStr "hello")].
Definition system_said : value :=
  VObj [("role", VStr "system"); ("content", VStr "note")].

Definition session_state_of (messages : list value) : value :=
  VObj [("event", VStr "session_state"); ("data", VObj [("messages", VArr messages)])].

(** [{"event":"session_state"}] *)
Definition state_payload_bare : value := VObj [("event", VStr "session_state")].

(** The chat [c1] is opened, its socket closes, and the chat is deleted
    before the reconnect timeout fires. *)
Definition closed_then_deleted : list input :=
  Runs.chat_opened
  ++ [ SocketClosed 0; ChatDelete "c1"; Settle 0 (Resolved response_ok) ].

End Payloads.

(** * Proofs *)

(** ** The logic of resumptions *)

Section Logic.
Context {G : call -> reply -> store -> store -> Prop} {B : store -> store -> Prop}.
Context `{!Discipline G B}.

Lemma follows_weaken {A} (Q Q' : store -> Prop) (r : result A) :
  (forall s, Q s -> Q' s) -> follows G Q r -> follows G Q' r.
Proof.
  intros HQ Hr. destruct Hr; constructor; auto.
Qed.

Lemma follows_bind {A C} (Q : store -> Prop) (r : result A) (f : A -> M C) :
  follows G Q r ->
  (forall s s', Q s -> B s s' -> Q s') ->
  (forall a, quiet G B (f a)) ->
  follows G Q (bind_result r f).
Proof.
  intros Hr. induction Hr as [Q a s HQ|Q e s HQ|Q c s k HQ Hk IH]; intros Hcl Hf; simpl.
  - eapply follows_weaken; [|apply Hf]. intros s'. by apply Hcl.
  - by constructor.
  - constructor; [done|]. intros rp s1. apply IH; [|done].
    intros s2 s3. apply G_then.
Qed.

Lemma follows_catch {A} (Q : store -> Prop) (r : result A) (h : value -> M A) :
  follows G Q r ->
  (forall s s', Q s -> B s s' -> Q s') ->
  (forall e, quiet G B (h e)) ->
  follows G Q (catch_result r h).
Proof.
  intros Hr. induction Hr as [Q a s HQ|Q e s HQ|Q c s k HQ Hk IH]; intros Hcl Hh; simpl.
  - by constructor.
  - eapply follows_weaken; [|apply Hh]. intros s'. by apply Hcl.
  - constructor; [done|]. intros rp s1. apply IH; [|done].
    intros s2 s3. apply G_then.
Qed.

Lemma quiet_ret {A} (a : A) : quiet G B (mret a).
Proof. intros s. constructor. apply B_refl. Qed.

Lemma quiet_throw {A} (e : value) : quiet G B (@throw A e).
Proof. intros s. constructor. apply B_refl. Qed.

Lemma quiet_eval {A} (c : completion A) : quiet G B (eval c).
Proof. destruct c; [apply quiet_ret|apply quiet_throw]. Qed.

Lemma quiet_bind {A C} (m : M A) (f : A -> M C) :
  quiet G B m -> (forall a, quiet G B (f a)) -> quiet G B (m ≫= f).
Proof.
  intros Hm Hf s. apply follows_bind; [apply Hm| |done].
  intros s1 s2. apply B_trans.
Qed.

Lemma quiet_try_catch {A} (m : M A) (h : value -> M A) :
  quiet G B m -> (forall e, quiet G B (h e)) -> quiet G B (try_catch m h).
Proof.
  intros Hm Hh s. apply follows_catch; [apply Hm| |done].
  intros s1 s2. apply B_trans.
Qed.

(** A synchronous update of the store that stays within [B]. *)
Lemma quiet_update {A} (a : store -> A) (g : store -> store) :
  (forall s, B s (g s)) -> quiet G B (fun s => Done (a s) (g s)).
Proof. intros Hg s. by constructor. Qed.

Lemma quiet_emit (e : effect) : quiet G B (emit e).
Proof. apply (quiet_update (fun _ => tt)). intros s. apply B_trace. Qed.

(** What runs after an [await] may use what the reply grants. *)
Lemma quiet_await_bind {C} (c : call) (f : value -> M C) :
  (forall v s1, follows G (G c (Resolved v) s1) (f v s1)) ->
  quiet G B (await c ≫= f).
Proof.
  intros Hf s. constructor; [apply B_trace|].
  intros [v|e] s1; simpl; [apply Hf|]. constructor. apply G_start.
Qed.

Lemma quiet_await (c : call) : quiet G B (await c).
Proof.
  intros s. constructor; [apply B_trace|].
  intros [v|e] s1; constructor; apply G_start.
Qed.

Lemma quiet_await_ (c : call) : quiet G B (await_ c).
Proof. apply quiet_bind; [apply quiet_await|]. intros _. apply quiet_ret. Qed.

Lemma quiet_sessions_get (chatId : string) : quiet G B (sessions_get chatId).
Proof. intros s. constructor. apply B_refl. Qed.

Lemma quiet_sessions_has (chatId : string) : quiet G B (sessions_has chatId).
Proof. intros s. constructor. apply B_refl. Qed.

Lemma quiet_field {A} (f : Session -> A) (l : nat) : quiet G B (field f l).
Proof. intros s. unfold field. destruct (heap s !! l); constructor; apply B_refl. Qed.

Lemma quiet_this_apiEndpoint : quiet G B this_apiEndpoint.
Proof. intros s. constructor. apply B_refl. Qed.

Lemma quiet_for_of (items : list value) (body : value -> M unit) :
  (forall x, quiet G B (body x)) -> quiet G B (for_of items body).
Proof.
  intros Hb. induction items as [|x rest IH]; simpl.
  - apply quiet_ret.
  - apply quiet_bind; [apply Hb|]. intros _. apply IH.
Qed.

Lemma quiet_void {A} (m : M A) : quiet G B m -> quiet G B (void m).
Proof. intros Hm. apply quiet_bind; [done|]. intros _. apply quiet_ret. Qed.

(** Code that runs after a synchronous update. *)
Lemma follows_after {A} (Q : store -> Prop) (s : store) (m : M A) :
  Q s -> (forall s', Q s -> B s s' -> Q s') -> quiet G B m -> follows G Q (m s).
Proof.
  intros HQ Hcl Hm. eapply follows_weaken; [|apply Hm]. intros s'. by apply Hcl.
Qed.

(** Handing a result to the event loop keeps the suspended methods
    within [G]. *)
Lemma absorb_follows (Q : store -> Prop) (r : result unit) (ts : list task)
    (esc : list value) :
  follows G Q r -> tasks_follow G ts ->
  Q (plugin (absorb r ts esc)) /\ tasks_follow G (pending (absorb r ts esc)).
Proof.
  intros Hr Hts. inversion Hr; subst; simpl; (split; [done|]); [done..|].
  intros t [Ht|Ht]%elem_of_app; [by apply Hts|].
  apply list_elem_of_singleton in Ht as ->. simpl. auto.
Qed.

Lemma tasks_follow_delete (ts : list task) (i : nat) :
  tasks_follow G ts -> tasks_follow G (delete i ts).
Proof.
  intros Hts t Ht. apply Hts. by eapply list_elem_of_delete_inv.
Qed.

End Logic.

Create HintDb quiet.

(** Syntax-directed proof that a method is quiet; writers of the store
    are looked up in the [quiet] hint database. *)
Ltac quiet_step :=
  lazymatch goal with
  | |- quiet _ _ (mret _) => apply quiet_ret
  | |- quiet _ _ (throw _) => apply quiet_throw
  | |- quiet _ _ (eval _) => apply quiet_eval
  | |- quiet _ _ (emit _) => apply quiet_emit
  | |- quiet _ _ (await_ _) => apply quiet_await_
  | |- quiet _ _ (await _) => apply quiet_await
  | |- quiet _ _ (sessions_get _) => apply quiet_sessions_get
  | |- quiet _ _ (sessions_has _) => apply quiet_sessions_has
  | |- quiet _ _ (field _ _) => apply quiet_field
  | |- quiet _ _ this_apiEndpoint => apply quiet_this_apiEndpoint
  | |- quiet _ _ (for_of _ _) => apply quiet_for_of; intros ?; cbv zeta
  | |- quiet _ _ (try_catch _ _) => apply quiet_try_catch; [|intros ?; cbv zeta]
  | |- quiet _ _ (void _) => apply quiet_void
  | |- quiet _ _ (_ ≫= _) => apply quiet_bind; [|intros ?; cbv zeta]
  | |- quiet _ _ (match ?x with _ => _ end) => destruct x
  | |- quiet _ _ _ => solve [eauto with quiet]
  end.
Ltac quiet_tac := cbv zeta; repeat quiet_step.

(** ** Who writes [status] *)

Section StatusWrites.
Context `{Runtime}.

Lemma status_moves_refl P s : status_moves P s s.
Proof. intros l a Ha. eauto. Qed.

Lemma status_moves_trans P s1 s2 s3 :
  status_moves P s1 s2 -> status_moves P s2 s3 -> status_moves P s1 s3.
Proof.
  intros H12 H23 l a Ha.
  destruct (H12 l a Ha) as (b & Hb & Hab).
  destruct (H23 l b Hb) as (c & Hc & Hbc).
  exists c. split; [done|]. destruct Hbc as [->|?]; auto.
Qed.

Lemma status_moves_mono (P P' : nat -> Status -> Prop) s s' :
  (forall l b, P l b -> P' l b) -> status_moves P s s' -> status_moves P' s s'.
Proof.
  intros HP Hm l a Ha. destruct (Hm l a Ha) as (b & Hb & [->|Hab]); eauto.
Qed.

Lemma status_kept_moves P s s' : status_kept s s' -> status_moves P s s'.
Proof. apply status_moves_mono. intros l b []. Qed.

(** Updates that leave the heap alone, or only grow it, keep statuses. *)
Lemma status_kept_heap s s' :
  (forall l o, heap s !! l = Some o ->
     exists o', heap s' !! l = Some o' /\ status o' = status o) ->
  status_kept s s'.
Proof.
  intros Hh l a Ha. unfold status_at in *.
  destruct (heap s !! l) as [o|] eqn:Ho; [|done]. simpl in Ha.
  destruct (Hh l o Ho) as (o' & -> & Hst). exists a. simpl. split; [|by left].
  congruence.
Qed.

Lemma status_kept_same_heap s s' : heap s' = heap s -> status_kept s s'.
Proof. intros Hh. apply status_kept_heap. intros l o Ho. rewrite Hh. eauto. Qed.

#[global] Instance status_discipline : Discipline may_write status_kept.
Proof.
  split.
  - intros s. apply status_moves_refl.
  - intros s1 s2 s3. apply status_moves_trans.
  - intros f s. by apply status_kept_same_heap.
  - intros c rp s. apply status_moves_refl.
  - intros c rp s1 s2 s3 H12 H23. eapply status_moves_trans; [done|].
    by apply status_kept_moves.
Qed.

Lemma status_moves_set_status (P : nat -> Status -> Prop) s l st :
  P l st -> status_moves P s (write_status l st s).
Proof.
  intros HP l' a Ha. unfold status_at in *. simpl.
  destruct (decide (l = l')) as [->|Hne].
  - rewrite list_lookup_alter_eq. destruct (heap s !! l'); [|done].
    simpl. eauto.
  - rewrite list_lookup_alter_ne by done. eauto.
Qed.

Lemma quiet_sessions_set chatId o : quiet may_write status_kept (sessions_set chatId o).
Proof.
  apply (quiet_update (fun _ => tt)). intros s. apply status_kept_heap.
  intros l o' Ho'. exists o'. split; [|done]. simpl. by apply lookup_app_l_Some.
Qed.

Lemma quiet_sessions_delete chatId : quiet may_write status_kept (sessions_delete chatId).
Proof. apply (quiet_update (fun _ => tt)). intros s. by apply status_kept_same_heap. Qed.

Lemma quiet_set_websocket l w : quiet may_write status_kept (set_websocket l w).
Proof.
  apply (quiet_update (fun _ => tt)). intros s. apply status_kept_heap.
  intros l' o Ho. simpl. destruct (decide (l = l')) as [->|Hne].
  - rewrite list_lookup_alter_eq, Ho. simpl. eauto.
  - rewrite list_lookup_alter_ne by done. eauto.
Qed.

Lemma quiet_ws_close w : quiet may_write status_kept (ws_close w).
Proof. apply (quiet_update (fun _ => tt)). intros s. by apply status_kept_same_heap. Qed.

Lemma quiet_new_WebSocket wsUrl chatId sid :
  quiet may_write status_kept (new_WebSocket wsUrl chatId sid).
Proof.
  intros s. unfold new_WebSocket. destruct (WebSocket_accepts wsUrl).
  - constructor. by apply status_kept_same_heap.
  - constructor. apply status_moves_refl.
Qed.

Lemma quiet_setTimeout ms chatId sid : quiet may_write status_kept (setTimeout ms chatId sid).
Proof. apply (quiet_update (fun _ => tt)). intros s. by apply status_kept_same_heap. Qed.

#[local] Hint Resolve quiet_sessions_set quiet_sessions_delete quiet_set_websocket
  quiet_ws_close quiet_new_WebSocket quiet_setTimeout : quiet.

Lemma quiet_connectWebSocket chatId sid :
  quiet may_write status_kept (connectWebSocket chatId sid).
Proof. unfold connectWebSocket. quiet_tac. Qed.

Lemma quiet_cleanupSession chatId : quiet may_write status_kept (cleanupSession chatId).
Proof. unfold cleanupSession. quiet_tac. Qed.

#[local] Hint Resolve quiet_connectWebSocket quiet_cleanupSession : quiet.

Lemma quiet_createResearchChat now : quiet may_write status_kept (createResearchChat now).
Proof. unfold createResearchChat, await_chat_id. quiet_tac. Qed.

Lemma quiet_on_chat_delete chatId : quiet may_write status_kept (on_chat_delete chatId).
Proof. unfold on_chat_delete. quiet_tac. Qed.

Lemma quiet_ws_onopen sid : quiet may_write status_kept (ws_onopen sid).
Proof. unfold ws_onopen. quiet_tac. Qed.

Lemma quiet_ws_onerror sid err : quiet may_write status_kept (ws_onerror sid err).
Proof. unfold ws_onerror. quiet_tac. Qed.

Lemma quiet_ws_onclose chatId sid : quiet may_write status_kept (ws_onclose chatId sid).
Proof. unfold ws_onclose. quiet_tac. Qed.

(** The query request is the one call whose reply lets the resumed code
    write a status: [processing], once the response is ok. *)
Lemma quiet_handleResearchQuery chatId message :
  quiet may_write status_kept (handleResearchQuery chatId message).
Proof.
  unfold handleResearchQuery.
  apply quiet_bind; [quiet_tac|]. intros [l|]; [|quiet_tac].
  apply quiet_bind; [quiet_tac|]. intros st.
  destruct (Status_eqb st processing); [quiet_tac|].
  apply quiet_bind; [quiet_tac|]. intros _.
  apply quiet_try_catch; [|intros err; quiet_tac].
  apply quiet_bind; [quiet_tac|]. intros endpoint.
  apply quiet_bind; [quiet_tac|]. intros sid.
  apply quiet_await_bind. intros response s1.
  unfold mbind, M_bind. destruct (get response "ok") as [ok|e] eqn:Hok; simpl.
  - destruct (truthy ok) eqn:Ht; simpl.
    + constructor. apply status_moves_set_status.
      split; [done|]. split; [by eexists _, _|]. by exists response, ok.
    + constructor. apply status_moves_refl.
  - constructor. apply status_moves_refl.
Qed.

#[local] Hint Resolve quiet_handleResearchQuery : quiet.

Lemma quiet_on_message_send chatId message :
  quiet may_write status_kept (on_message_send chatId message).
Proof. unfold on_message_send. quiet_tac. Qed.

Lemma is_str_true v lit : is_str v lit = true -> v = VStr lit.
Proof.
  destruct v; simpl; try done. intros Hb. by apply bool_decide_eq_true in Hb as ->.
Qed.

(** An inbound event writes the status its kind names, and only at
    dispatch, before its first [await]. *)
Lemma follows_handleWebSocketMessage chatId data s :
  follows may_write (status_moves (event_writes s chatId data) s)
    (handleWebSocketMessage chatId data s).
Proof.
  set (P := event_writes s chatId data).
  assert (Hcl : forall s1 s2, status_moves P s s1 ->
            status_kept s1 s2 -> status_moves P s s2).
  { intros s1 s2 H1 H2. eapply status_moves_trans; [done|].
    by apply status_kept_moves. }
  assert (Hq : forall m : M unit, quiet may_write status_kept m ->
            follows may_write (status_moves P s) (m s)).
  { intros m Hm. apply (follows_after (B:=status_kept));
      [apply status_moves_refl|intros s' _; apply Hcl, status_moves_refl|done]. }
  assert (Hw : forall l st (m : M unit), P l st ->
            quiet may_write status_kept m ->
            follows may_write (status_moves P s)
              ((set_status l st ≫= fun _ => m) s)).
  { intros l st m Hst Hm.
    apply (follows_after (B:=status_kept) _ (write_status l st s) m);
      [by apply status_moves_set_status|intros s' Hs'; by apply Hcl|done]. }
  unfold handleWebSocketMessage, mbind at 1, M_bind at 1, sessions_get. simpl.
  destruct (sessions s !! chatId) as [l|] eqn:Hc; [|apply Hq; quiet_tac].
  unfold mbind at 1, M_bind at 1.
  destruct (get data "event") as [event|e] eqn:Hev; simpl;
    [|constructor; apply status_moves_refl].
  unfold mbind at 1, M_bind at 1.
  destruct (get data "data") as [d|e] eqn:Hd; simpl;
    [|constructor; apply status_moves_refl].
  destruct (is_str event "token"); [apply Hq; quiet_tac|].
  destruct (is_str event "research_start") eqn:E1.
  { apply is_str_true in E1 as ->. apply Hw; [|quiet_tac].
    split; [done|]. left. by split. }
  destruct (is_str event "tool_start"); [apply Hq; quiet_tac|].
  destruct (is_str event "tool_end"); [apply Hq; quiet_tac|].
  destruct (is_str event "research_complete") eqn:E2.
  { apply is_str_true in E2 as ->. apply Hw; [|quiet_tac].
    split; [done|]. right; left. by split. }
  destruct (is_str event "research_error") eqn:E3.
  { apply is_str_true in E3 as ->. apply Hw; [|quiet_tac].
    split; [done|]. right; right. by split. }
  apply Hq. quiet_tac.
Qed.

End StatusWrites.

(** ** Status transitions of the event loop *)

Section StatusTransitions.
Context `{Runtime}.

Lemma step_status w i w' :
  tasks_follow may_write (pending w) ->
  step w i = Some w' ->
  tasks_follow may_write (pending w') /\
  exists P : nat -> Status -> Prop,
    status_moves P (plugin w) (plugin w') /\ forall l b, P l b -> cause w i l b.
Proof.
  intros Hts Hstep.
  assert (Hquiet : forall (m : M unit) s,
            status_kept (plugin w) s -> quiet may_write status_kept m ->
            Some (absorb (m s) (pending w) (escaped w)) = Some w' ->
            tasks_follow may_write (pending w') /\
            exists P : nat -> Status -> Prop,
              status_moves P (plugin w) (plugin w') /\
              forall l b, P l b -> cause w i l b).
  { intros m s Hs Hm [= <-].
    destruct (absorb_follows (G:=may_write)
                (status_kept (plugin w)) (m s) (pending w) (escaped w))
      as [HQ Hts']; [|done|].
    - apply (follows_after (B:=status_kept)); [done| |done].
      intros s' _. by apply status_moves_trans.
    - split; [done|]. exists (fun _ _ => False). split; [done|]. tauto. }
  destruct i as [now|chatId message|chatId|n|n frame|n err|n|t|j rp];
    unfold step in Hstep; cbv beta iota zeta in Hstep.
  - apply (Hquiet _ _ (status_moves_refl _ _)) in Hstep; [done|].
    apply quiet_void, quiet_createResearchChat.
  - apply (Hquiet _ _ (status_moves_refl _ _)) in Hstep; [done|].
    apply quiet_on_message_send.
  - apply (Hquiet _ _ (status_moves_refl _ _)) in Hstep; [done|].
    apply quiet_on_chat_delete.
  - destruct (sockets (plugin w) !! n) as [k|]; [|done].
    destruct (readyState k); try done.
    apply Hquiet in Hstep; [done|by apply status_kept_same_heap|apply quiet_ws_onopen].
  - destruct (sockets (plugin w) !! n) as [k|] eqn:Hn; [|done].
    destruct (readyState k); try done.
    injection Hstep as <-. unfold ws_onmessage.
    destruct (JSON_parse frame) as [data|] eqn:Hparse.
    + destruct (absorb_follows (G:=may_write) _ _ (pending w) (escaped w)
                  (follows_handleWebSocketMessage (ws_chatId k) data (plugin w)) Hts)
        as [HQ Hts'].
      split; [done|]. exists (event_writes (plugin w) (ws_chatId k) data).
      split; [done|]. intros l b [Hl Hb]. by econstructor.
    + simpl. split; [done|]. exists (fun _ _ => False).
      split; [apply status_moves_refl|tauto].
  - destruct (sockets (plugin w) !! n) as [k|]; [|done].
    destruct (readyState k); try done;
      (apply (Hquiet _ _ (status_moves_refl _ _)) in Hstep; [done|apply quiet_ws_onerror]).
  - destruct (sockets (plugin w) !! n) as [k|]; [|done].
    destruct (readyState k); try done;
      (apply Hquiet in Hstep; [done|by apply status_kept_same_heap|apply quiet_ws_onclose]).
  - destruct (timers (plugin w) !! t) as [tm|]; [|done].
    destruct (fired tm); [done|].
    apply Hquiet in Hstep; [done|by apply status_kept_same_heap|apply quiet_connectWebSocket].
  - destruct (pending w !! j) as [t|] eqn:Ht; [|done]. injection Hstep as <-.
    destruct (absorb_follows (G:=may_write)
                (may_write (waiting t) rp (plugin w))
                (resume t rp (plugin w)) (delete j (pending w)) (escaped w))
      as [HQ Hts'].
    + apply Hts. by eapply list_elem_of_lookup_2.
    + by apply tasks_follow_delete.
    + split; [done|]. exists (grants (waiting t) rp). split; [done|].
      intros l b (-> & Hc & Hrp). by econstructor.
Qed.

Lemma steps_tasks_follow w inputs w' :
  tasks_follow may_write (pending w) ->
  steps w inputs = Some w' ->
  tasks_follow may_write (pending w').
Proof.
  revert w. induction inputs as [|i rest IH]; intros w Hts; simpl.
  - by intros [= <-].
  - destruct (step w i) as [w1|] eqn:Hstep; [|done].
    apply IH. by destruct (step_status w i w1 Hts Hstep).
Qed.

Lemma reachable_tasks_follow w : reachable w -> tasks_follow may_write (pending w).
Proof.
  intros (endpoint & inputs & Hw). eapply steps_tasks_follow; [|done].
  intros t Ht. simpl in Ht. by apply elem_of_nil in Ht.
Qed.

(** C1 (amended).  In a reachable world, a turn of the event loop changes
    the status of a session object only for one of these causes: to
    [processing] when a [research_start] event is dispatched for its chat
    or when the query request of an admitted query is answered by an ok
    response; to [idle] when a [research_complete] event is dispatched for
    its chat; to [error] when a [research_error] event is dispatched for
    its chat. *)
Theorem status_changes_have_cause w i w' l a b :
  reachable w ->
  step w i = Some w' ->
  status_at (plugin w) l = Some a ->
  status_at (plugin w') l = Some b ->
  a <> b ->
  cause w i l b.
Proof.
  intros Hw Hstep Ha Hb Hab.
  destruct (step_status w i w' (reachable_tasks_follow w Hw) Hstep)
    as (_ & P & Hmoves & HP).
  destruct (Hmoves l a Ha) as (b' & Hb' & [->|Hgrant]); [congruence|].
  apply HP. congruence.
Qed.

End StatusTransitions.

(** ** The admission gate *)

Section Admission.
Context `{Runtime}.

Lemma requests_traced es s :
  requests (traced es s) = requests s ++ filter (fun e => is_request e = true) es.
Proof. unfold requests, traced. simpl. apply filter_app. Qed.

(** C3.  While the status of a session is [processing], a submitted query
    only issues the busy notice as a system message and suspends on it:
    the registry, the session objects, the sockets and the timers are
    untouched, no HTTP request is issued, and once the notice settles the
    method ends without doing anything more. *)
Theorem busy_query_rejected s chatId l o message :
  sessions s !! chatId = Some l ->
  heap s !! l = Some o ->
  status o = processing ->
  exists s' k,
    handleResearchQuery chatId message s = Suspended (busy_notice chatId) s' k /\
    s' = traced [Issued (busy_notice chatId)] s /\
    sessions s' = sessions s /\ heap s' = heap s /\
    requests s' = requests s /\
    settles k.
Proof.
  intros Hc Hl Hst.
  unfold handleResearchQuery, mbind, M_bind, sessions_get, field. simpl.
  rewrite Hc. simpl. rewrite Hl. simpl. rewrite Hst. simpl.
  eexists _, _. split; [reflexivity|]. split; [reflexivity|].
  split; [done|]. split; [done|]. split.
  - change (requests (traced [Issued (busy_notice chatId)] s) = requests s).
    rewrite requests_traced. simpl. apply app_nil_r.
  - intros [v|e] s1; reflexivity.
Qed.

(** C4 (amended).  A query on a session that is not processing echoes the
    user message and then issues the query request; while that request is
    in flight no status has been written.  An ok response sets the status
    to [processing] at once, with no [research_start] event needed.  A
    response that is not ok, and a rejection by an error object, leave
    every session object as it is (so the status is what it was before the
    submission), log the failure and show it in the chat as an [Error:]
    system message. *)
Theorem query_admission s chatId l o message :
  sessions s !! chatId = Some l ->
  heap s !! l = Some o ->
  status o <> processing ->
  exists k1,
    handleResearchQuery chatId message s
      = Suspended (user_echo chatId message)
          (traced [Issued (user_echo chatId message)] s) k1 /\
    forall v s1 o1, heap s1 !! l = Some o1 ->
      let request := query_request (apiEndpoint s1) (sessionId o1) message in
      exists k2,
        k1 (Resolved v) s1 = Suspended request (traced [Issued request] s1) k2 /\
        (forall response ok s2,
           get response "ok" = Normal ok -> truthy ok = true ->
           k2 (Resolved response) s2 = Done tt (write_status l processing s2)) /\
        (forall response ok s2,
           get response "ok" = Normal ok -> truthy ok = false ->
           exists k3,
             k2 (Resolved response) s2
               = Suspended (error_notice chatId "Failed to submit research query")
                   (traced [Issued (error_notice chatId "Failed to submit research query")]
                      (traced [submit_error_log submit_failed] s2)) k3 /\
             settles k3) /\
        (forall name msg s2,
           exists k3,
             k2 (Rejected (mkError name msg)) s2
               = Suspended (error_notice chatId msg)
                   (traced [Issued (error_notice chatId msg)]
                      (traced [submit_error_log (mkError name msg)] s2)) k3 /\
             settles k3).
Proof.
  intros Hc Hl Hst.
  unfold handleResearchQuery, mbind, M_bind, sessions_get, field. simpl.
  rewrite Hc. simpl. rewrite Hl. simpl.
  destruct (status o) eqn:Hso; [|done|]; simpl;
    (eexists; split; [reflexivity|]; intros v s1 o1 Hl1; simpl;
     unfold try_catch, this_apiEndpoint; simpl; rewrite Hl1; simpl;
     eexists; split; [reflexivity|]; split; [|split];
     [ intros response ok s2 Hok Ht; simpl; rewrite Hok; simpl; rewrite Ht; reflexivity
     | intros response ok s2 Hok Ht; simpl; rewrite Hok; simpl; rewrite Ht; simpl;
       eexists; split; [reflexivity|]; intros [?|?] ?; reflexivity
     | intros name msg s2; simpl;
       eexists; split; [reflexivity|]; intros [?|?] ?; reflexivity ]).
Qed.

End Admission.

(** ** The transport *)

Section Transport.
Context `{Runtime}.

(** C2.  A frame that [JSON.parse] rejects makes the [onmessage] handler
    throw before it touches anything: the turn leaves the plugin state
    (registry, session objects, sockets, timers, trace) and the suspended
    methods as they were, the socket stays open, and the only trace of the
    frame is the rejected promise of the handler.  A later frame that
    parses is dispatched to [handleWebSocketMessage] on that same state. *)
Theorem malformed_frame_discarded w n k frame :
  sockets (plugin w) !! n = Some k ->
  readyState k = OPEN ->
  JSON_parse frame = None ->
  let w' := mkWorld (plugin w) (pending w) (escaped w ++ [SyntaxError]) in
  step w (SocketMessage n frame) = Some w' /\
  forall frame' data,
    JSON_parse frame' = Some data ->
    step w' (SocketMessage n frame')
      = Some (absorb (handleWebSocketMessage (ws_chatId k) data (plugin w))
                (pending w) (escaped w')).
Proof.
  intros Hn Hopen Hbad w'. split.
  - unfold step, ws_onmessage. rewrite Hn, Hopen, Hbad. reflexivity.
  - intros frame' data Hgood. unfold step, ws_onmessage. simpl.
    rewrite Hn, Hopen, Hgood. reflexivity.
Qed.

Lemma connectWebSocket_unknown chatId sid s :
  sessions s !! chatId = None -> connectWebSocket chatId sid s = Done tt s.
Proof.
  intros Hc. unfold connectWebSocket, mbind, M_bind, sessions_get. simpl.
  by rewrite Hc.
Qed.

(** C5.  When a socket closes, [onclose] looks the chat up in the
    registry.  If the session is there, the turn sets one timeout of 5000
    ms whose callback is [connectWebSocket] for that chat and session; if
    it is gone, no timeout is set.  In both cases no socket is created in
    that turn, and a reconnect that finds the session gone does nothing. *)
Theorem close_schedules_reconnect w n k :
  sockets (plugin w) !! n = Some k ->
  readyState k <> CLOSED ->
  exists w',
    step w (SocketClosed n) = Some w' /\
    pending w' = pending w /\
    sessions (plugin w') = sessions (plugin w) /\
    sockets (plugin w') = alter (set_readyState CLOSED) n (sockets (plugin w)) /\
    (is_Some (sessions (plugin w) !! ws_chatId k) ->
       timers (plugin w')
         = timers (plugin w) ++ [reconnect_timer (ws_chatId k) (ws_sessionId k)] /\
       trace (plugin w')
         = trace (plugin w) ++ [closed_log (ws_sessionId k);
                                SetTimeout (length (timers (plugin w))) 5000] /\
       step w' (TimerFired (length (timers (plugin w))))
         = Some (absorb
                   (connectWebSocket (ws_chatId k) (ws_sessionId k)
                      (upd_timers (alter set_fired (length (timers (plugin w))))
                         (plugin w')))
                   (pending w') (escaped w'))) /\
    (sessions (plugin w) !! ws_chatId k = None ->
       timers (plugin w') = timers (plugin w) /\
       trace (plugin w') = trace (plugin w) ++ [closed_log (ws_sessionId k)] /\
       forall s, sessions s = sessions (plugin w') ->
         connectWebSocket (ws_chatId k) (ws_sessionId k) s = Done tt s).
Proof.
  intros Hn Hst. unfold step. rewrite Hn.
  unfold ws_onclose, mbind, M_bind, sessions_has, setTimeout. simpl.
  destruct (sessions (plugin w) !! ws_chatId k) as [l|] eqn:Hc.
  - rewrite bool_decide_eq_true_2 by eauto. simpl.
    destruct (readyState k); try done;
      (eexists; split; [reflexivity|]; simpl; repeat (split; [reflexivity|]);
       split; [|by intros ?]; intros _;
       split; [reflexivity|]; split; [by rewrite <- app_assoc|];
       unfold step; simpl;
       rewrite lookup_app_r by done; rewrite Nat.sub_diag; reflexivity).
  - rewrite bool_decide_eq_false_2 by (by intros [? ?]). simpl.
    destruct (readyState k); try done;
      (eexists; split; [reflexivity|]; simpl; repeat (split; [reflexivity|]);
       split; [by intros [? ?]|]; intros _;
       split; [reflexivity|]; split; [reflexivity|];
       intros s Hs; apply connectWebSocket_unknown; by rewrite Hs).
Qed.

End Transport.

(** ** Fixed-point printing *)

Section ToFixed.
Context `{Runtime}.

Lemma length_append (a b : string) :
  String.length (a +:+ b) = String.length a + String.length b.
Proof. induction a as [|c a IH]; simpl; [done|]. by rewrite IH. Qed.

Lemma length_substring (s : string) (n m : nat) :
  n + m <= String.length s -> String.length (substring n m s) = m.
Proof.
  revert n m. induction s as [|c s IH]; intros n m Hle; simpl in *.
  - destruct n, m; simpl; lia.
  - destruct n as [|n]; simpl.
    + destruct m as [|m]; simpl; [done|]. rewrite IH; lia.
    + apply IH. lia.
Qed.

Lemma length_zeros (n : nat) : String.length (zeros n) = n.
Proof. induction n as [|n IH]; simpl; [done|]. by rewrite IH. Qed.

Lemma place_point_shape (f : nat) (n : Z) :
  exists a b,
    place_point (S f) n = a +:+ "." +:+ b /\
    String.length b = S f /\ 1 <= String.length a.
Proof.
  unfold place_point.
  set (m := pretty (Z.to_N n)).
  set (m' := if decide (String.length m <= S f)
             then zeros (S f + 1 - String.length m) +:+ m else m).
  assert (Hlen : S f + 1 <= String.length m').
  { unfold m'. case_decide; [|lia].
    rewrite length_append, length_zeros. lia. }
  exists (substring 0 (String.length m' - S f) m'),
         (substring (String.length m' - S f) (S f) m').
  split; [done|]. rewrite !length_substring by lia. lia.
Qed.

(** The integer that [toFixed] prints is nearest to the scaled value, and
    the larger one of two that are equally near:
    [n - 1/2 <= m * 2^e * 10^f < n + 1/2]. *)
Lemma nearest_scaled_nearest (f : nat) (m : positive) (e : Z) :
  (e < 0)%Z ->
  let n := nearest_scaled f m e in
  ((2 * n - 1) * 2 ^ (- e) <= 2 * (Z.pos m * 10 ^ Z.of_nat f)
   < (2 * n + 1) * 2 ^ (- e))%Z.
Proof.
  intros He n. unfold n, nearest_scaled.
  destruct (Z.leb_spec 0 e) as [?|_]; [lia|].
  replace (1 - e)%Z with (Z.succ (- e)) by lia.
  rewrite Z.pow_succ_r by lia.
  set (D := (2 ^ (- e))%Z). set (X := (Z.pos m * 10 ^ Z.of_nat f)%Z).
  assert (HD : (0 < D)%Z) by (apply Z.pow_pos_nonneg; lia).
  replace (2 * Z.pos m * 10 ^ Z.of_nat f)%Z with (2 * X)%Z by (unfold X; lia).
  pose proof (Z.div_mod (2 * X + D) (2 * D) ltac:(lia)) as Hdm.
  pose proof (Z.mod_pos_bound (2 * X + D) (2 * D) ltac:(lia)) as Hmod.
  nia.
Qed.

(** In its fixed-point range, [toFixed(2)] prints two decimals. *)
Lemma toFixed_two_decimals (x : number) :
  fixed_point_range x -> two_decimals (toFixed 2 x).
Proof.
  destruct x as [sg|sg| |sg m e]; unfold fixed_point_range, toFixed; try done.
  - intros _. apply (place_point_shape 1).
  - intros ->. destruct (place_point_shape 1 (nearest_scaled 2 m e)) as (a & b & -> & Hb & Ha).
    exists ((if sg then "-" else "") +:+ a), b. split; [|split; [done|]].
    + by destruct sg.
    + rewrite length_append. lia.
Qed.

End ToFixed.

(** ** The dispatcher *)

Section Dispatcher.
Context `{Runtime}.

(** C8.  A [research_complete] event for a registered session whose
    payload carries a response with a result, a model, a provider and a
    numeric process time sets the status of the session to [idle], updates
    the chat status, and then updates the last message: its content is the
    result, it is done, and its metadata holds the model, the provider and
    the process time printed by [toFixed(2)] followed by [s], which is a
    text with two decimals when the number is a zero or a finite value of
    magnitude below 10^21. *)
Theorem research_complete_applied s chatId l o data d response result model provider x :
  sessions s !! chatId = Some l ->
  heap s !! l = Some o ->
  get data "event" = Normal (VStr "research_complete") ->
  get data "data" = Normal d ->
  truthy d = true ->
  get d "response" = Normal response ->
  get response "result" = Normal result ->
  get response "model" = Normal model ->
  get response "provider" = Normal provider ->
  get response "process_time" = Normal (VNum x) ->
  let final := final_message chatId result model provider (toFixed 2 x +:+ "s") in
  exists s1 k1,
    handleWebSocketMessage chatId data s
      = Suspended (status_update chatId "idle") s1 k1 /\
    s1 = traced [Issued (status_update chatId "idle")] (write_status l idle s) /\
    status_at s1 l = Some idle /\
    (forall v s2, exists k2,
       k1 (Resolved v) s2 = Suspended final (traced [Issued final] s2) k2 /\
       settles k2) /\
    (fixed_point_range x -> two_decimals (toFixed 2 x)).
Proof.
  intros Hc Hl Hev Hd Ht Hr H1 H2 H3 H4 final.
  unfold handleWebSocketMessage, mbind, M_bind, sessions_get. simpl.
  rewrite Hc. simpl. rewrite Hev. simpl. rewrite Hd. simpl.
  unfold or_else. rewrite Ht.
  eexists _, _. split; [reflexivity|]. split; [reflexivity|]. split.
  - unfold status_at. simpl. by rewrite list_lookup_alter_eq, Hl.
  - split; [|apply toFixed_two_decimals].
    intros v s2. simpl. rewrite Hr. simpl. rewrite H1. simpl. rewrite H2. simpl.
    rewrite H3. simpl. rewrite H4. simpl.
    eexists. split; [reflexivity|]. intros [?|?] ?; reflexivity.
Qed.

(** C9.  A terminal event whose payload field is missing is not
    discarded.  With the [data] of the frame defaulting to an empty
    object, a [research_complete] event whose [response] is undefined or
    null, and a [research_error] event whose [error] is undefined or null,
    first write the status and issue the chat status update, and when that
    settles the handler throws a [TypeError] instead of updating the last
    message. *)
Theorem terminal_event_without_payload_throws s chatId l data d payload :
  sessions s !! chatId = Some l ->
  get data "data" = Normal d ->
  nullish payload ->
  (get data "event" = Normal (VStr "research_complete") ->
   get (or_else d (VObj [])) "response" = Normal payload ->
   exists k1,
     handleWebSocketMessage chatId data s
       = Suspended (status_update chatId "idle")
           (traced [Issued (status_update chatId "idle")] (write_status l idle s)) k1 /\
     forall rp s2,
       k1 rp s2 = Failed match rp with Resolved _ => TypeError | Rejected e => e end s2) /\
  (get data "event" = Normal (VStr "research_error") ->
   get (or_else d (VObj [])) "error" = Normal payload ->
   exists k1,
     handleWebSocketMessage chatId data s
       = Suspended (status_update chatId "idle")
           (traced [Issued (status_update chatId "idle")] (write_status l error s)) k1 /\
     forall rp s2,
       k1 rp s2 = Failed match rp with Resolved _ => TypeError | Rejected e => e end s2).
Proof.
  intros Hc Hd Hnull. split; intros Hev Hp;
    unfold handleWebSocketMessage, mbind, M_bind, sessions_get; simpl;
    rewrite Hc; simpl; rewrite Hev; simpl; rewrite Hd; simpl;
    (eexists; split; [reflexivity|]);
    intros [v|e] s2; simpl; [|reflexivity| |reflexivity];
    rewrite Hp; simpl; by destruct Hnull as [->| ->].
Qed.

(** An event for a chat that has no session is dropped. *)
Lemma handleWebSocketMessage_unknown chatId data s :
  sessions s !! chatId = None -> handleWebSocketMessage chatId data s = Done tt s.
Proof.
  intros Hc. unfold handleWebSocketMessage, mbind, M_bind, sessions_get. simpl.
  by rewrite Hc.
Qed.

End Dispatcher.

(** ** Creation and deletion *)

Section Lifecycle.
Context `{Runtime}.

Lemma on_message_send_unknown chatId message s :
  sessions s !! chatId = None -> on_message_send chatId message s = Done tt s.
Proof.
  intros Hc. unfold on_message_send, mbind, M_bind, sessions_has. simpl.
  rewrite Hc. by rewrite bool_decide_eq_false_2 by (by intros [? ?]).
Qed.

Lemma on_chat_delete_unknown chatId s :
  sessions s !! chatId = None -> on_chat_delete chatId s = Done tt s.
Proof.
  intros Hc. unfold on_chat_delete, mbind, M_bind, sessions_has. simpl.
  rewrite Hc. by rewrite bool_decide_eq_false_2 by (by intros [? ?]).
Qed.

(** X21.  When the provisioning request of [createResearchChat] is
    rejected, the method only logs the failure and shows the error notice:
    every store it hands back is the one it was resumed in with a longer
    trace, so it inserts no registry entry and creates no socket, and it
    still returns the chat id.  For a chat id without a registry entry,
    submitted messages are not intercepted (no [preventDefault], no
    admission, no rejection), and stream events, deletions and reconnects
    for that chat id leave the store as it is. *)
Theorem provisioning_failure_leaves_no_session now s chatId :
  (exists k1,
     createResearchChat now s
       = Suspended (create_chat now) (traced [Issued (create_chat now)] s) k1 /\
     forall s1, exists k2,
       k1 (Resolved (VStr chatId)) s1
         = Suspended (provision_request (apiEndpoint s1) now)
             (traced [Issued (provision_request (apiEndpoint s1) now)] s1) k2 /\
       forall e s2, exists k3,
         k2 (Rejected e) s2
           = Suspended (creation_failed_notice chatId)
               (traced [Issued (creation_failed_notice chatId)]
                  (traced [creation_failed_log e] s2)) k3 /\
         forall rp s3,
           k3 rp s3 = match rp with
                      | Resolved _ => Done (VStr chatId) s3
                      | Rejected e' => Failed e' s3
                      end) /\
  (forall s', sessions s' !! chatId = None ->
     (forall message, on_message_send chatId message s' = Done tt s') /\
     (forall data, handleWebSocketMessage chatId data s' = Done tt s') /\
     on_chat_delete chatId s' = Done tt s' /\
     (forall sid, connectWebSocket chatId sid s' = Done tt s')).
Proof.
  split.
  - unfold createResearchChat, await_chat_id, mbind, M_bind. simpl.
    eexists. split; [reflexivity|]. intros s1. simpl.
    eexists. split; [reflexivity|]. intros e s2. simpl.
    eexists. split; [reflexivity|]. intros [?|?] ?; reflexivity.
  - intros s' Hc. split; [|split; [|split]].
    + intros message. by apply on_message_send_unknown.
    + intros data. by apply handleWebSocketMessage_unknown.
    + by apply on_chat_delete_unknown.
    + intros sid. by apply connectWebSocket_unknown.
Qed.

(** Deleting a session: the connection is closed, the teardown request is
    issued, and whatever the reply, the registry entry is removed. *)
Lemma cleanupSession_run s chatId l o :
  sessions s !! chatId = Some l ->
  heap s !! l = Some o ->
  let request := teardown_request (apiEndpoint s) (sessionId o) in
  exists k,
    cleanupSession chatId s
      = Suspended request (traced [Issued request] (closed_connection o s)) k /\
    forall rp s2,
      k rp s2 = Done tt (upd_sessions (delete chatId)
                           match rp with
                           | Resolved _ => s2
                           | Rejected e => traced [teardown_failed_log e] s2
                           end).
Proof.
  intros Hc Hl request.
  unfold cleanupSession, mbind, M_bind, sessions_get, field, closed_connection. simpl.
  rewrite Hc. simpl. rewrite Hl. simpl.
  destruct (websocket o) as [n|] eqn:Hws; unfold try_catch; simpl; rewrite ?Hl; simpl;
    (eexists; split; [reflexivity|]; intros [v|e] s2; reflexivity).
Qed.

End Lifecycle.

(** ** Invariants of the event loop *)

Section Invariants.
Context `{Runtime}.
Variable I : store -> Prop.
Hypothesis I_trace : forall f s, I s -> I (upd_trace f s).

#[local] Instance keeps_discipline : Discipline (keeping I) (keeps I).
Proof.
  split; unfold keeping, keeps; auto.
Qed.

Hypothesis I_boot : forall endpoint, I (constructor endpoint).
Hypothesis I_opened : forall n k s,
  sockets s !! n = Some k -> readyState k = CONNECTING ->
  I s -> I (upd_sockets (alter (set_readyState OPEN) n) s).
Hypothesis I_closed : forall n s,
  I s -> I (upd_sockets (alter (set_readyState CLOSED) n) s).
Hypothesis I_fired : forall t s, I s -> I (upd_timers (alter set_fired t) s).
Hypothesis quiet_create : forall now, quiet (keeping I) (keeps I) (createResearchChat now).
Hypothesis quiet_send : forall chatId message,
  quiet (keeping I) (keeps I) (on_message_send chatId message).
Hypothesis quiet_delete : forall chatId, quiet (keeping I) (keeps I) (on_chat_delete chatId).
Hypothesis quiet_event : forall chatId data,
  quiet (keeping I) (keeps I) (handleWebSocketMessage chatId data).
Hypothesis quiet_connect : forall chatId sid,
  quiet (keeping I) (keeps I) (connectWebSocket chatId sid).
Hypothesis quiet_close : forall chatId sid,
  quiet (keeping I) (keeps I) (ws_onclose chatId sid).

Lemma step_invariant w i w' :
  I (plugin w) -> tasks_follow (keeping I) (pending w) ->
  step w i = Some w' ->
  I (plugin w') /\ tasks_follow (keeping I) (pending w').
Proof.
  intros Hw Hts Hstep.
  assert (Hrun : forall (m : M unit) s,
            I s -> quiet (keeping I) (keeps I) m ->
            Some (absorb (m s) (pending w) (escaped w)) = Some w' ->
            I (plugin w') /\ tasks_follow (keeping I) (pending w')).
  { intros m s Hs Hm [= <-].
    destruct (absorb_follows (G:=keeping I) (keeps I s) (m s) (pending w) (escaped w))
      as [HQ Hts']; [apply Hm|done|]. split; [by apply HQ|done]. }
  destruct i as [now|chatId message|chatId|n|n frame|n err|n|t|j rp];
    unfold step in Hstep; cbv beta iota zeta in Hstep.
  - apply Hrun in Hstep; [done..|]. by apply quiet_void.
  - by apply Hrun in Hstep.
  - by apply Hrun in Hstep.
  - destruct (sockets (plugin w) !! n) as [k|] eqn:Hn; [|done].
    destruct (readyState k) eqn:Hk; try done.
    apply Hrun in Hstep; [done|by eapply I_opened|].
    unfold ws_onopen. quiet_tac.
  - destruct (sockets (plugin w) !! n) as [k|]; [|done].
    destruct (readyState k); try done.
    apply Hrun in Hstep; [done..|]. unfold ws_onmessage.
    destruct (JSON_parse frame); [done|quiet_tac].
  - destruct (sockets (plugin w) !! n) as [k|]; [|done].
    destruct (readyState k); try done;
      (apply Hrun in Hstep; [done..|]; unfold ws_onerror; quiet_tac).
  - destruct (sockets (plugin w) !! n) as [k|]; [|done].
    destruct (readyState k); try done;
      (apply Hrun in Hstep; [done|by apply I_closed|done]).
  - destruct (timers (plugin w) !! t) as [tm|]; [|done].
    destruct (fired tm); [done|].
    apply Hrun in Hstep; [done|by apply I_fired|done].
  - destruct (pending w !! j) as [t|] eqn:Ht; [|done]. injection Hstep as <-.
    destruct (absorb_follows (G:=keeping I) (keeps I (plugin w))
                (resume t rp (plugin w)) (delete j (pending w)) (escaped w))
      as [HQ Hts'].
    + apply Hts. by eapply list_elem_of_lookup_2.
    + by apply tasks_follow_delete.
    + split; [by apply HQ|done].
Qed.

Lemma steps_invariant w inputs w' :
  I (plugin w) -> tasks_follow (keeping I) (pending w) ->
  steps w inputs = Some w' ->
  I (plugin w') /\ tasks_follow (keeping I) (pending w').
Proof.
  revert w. induction inputs as [|i rest IH]; intros w Hw Hts; simpl.
  - by intros [= <-].
  - destruct (step w i) as [w1|] eqn:Hstep; [|done].
    destruct (step_invariant w i w1 Hw Hts Hstep). by apply IH.
Qed.

Lemma reachable_invariant w : reachable w -> I (plugin w).
Proof.
  intros (endpoint & inputs & Hw).
  eapply (steps_invariant (boot endpoint)); [apply I_boot| |done].
  intros t Ht. simpl in Ht. by apply elem_of_nil in Ht.
Qed.

End Invariants.

(** ** One live connection per session *)

Section Listeners.
Context `{Runtime}.

Lemma one_listener_same s s' :
  heap s' = heap s -> sockets s' = sockets s -> one_listener s -> one_listener s'.
Proof.
  intros Hh Hk [H1 H2 H3]. split; unfold holds in *; rewrite ?Hh, ?Hk; eauto.
Qed.

(** Sockets only leave the live state. *)
Lemma one_listener_shrink s s' f n :
  heap s' = heap s ->
  sockets s' = alter f n (sockets s) ->
  (forall k, sockets s !! n = Some k -> live (f k) = true -> live k = true) ->
  one_listener s -> one_listener s'.
Proof.
  intros Hh Hk Hf [H1 H2 H3]. split; unfold holds in *; rewrite ?Hh, ?Hk.
  - intros m k Hm Hlive. destruct (decide (n = m)) as [->|Hne].
    + rewrite list_lookup_alter_eq in Hm.
      destruct (sockets s !! m) as [k0|] eqn:Hk0; [|done].
      injection Hm as <-. eapply H1; [done|]. by apply Hf.
    + rewrite list_lookup_alter_ne in Hm by done. eauto.
  - eauto.
  - intros l m Hl. rewrite length_alter. eauto.
Qed.

(** Writes to a session object that leave its connection alone. *)
Lemma one_listener_heap s s' f l :
  heap s' = alter f l (heap s) ->
  sockets s' = sockets s ->
  (forall o, websocket (f o) = websocket o) ->
  one_listener s -> one_listener s'.
Proof.
  intros Hh Hk Hf Hs.
  assert (Hholds : forall l' m, holds s' l' m <-> holds s l' m).
  { intros l' m. unfold holds. rewrite Hh. destruct (decide (l = l')) as [->|Hne].
    - rewrite list_lookup_alter_eq. destruct (heap s !! l') as [o|]; simpl.
      + split; intros (o' & [= <-] & Hw); eexists; (split; [done|]);
          by rewrite ?Hf in *.
      + split; intros (o' & ? & ?); done.
    - by rewrite list_lookup_alter_ne. }
  destruct Hs as [H1 H2 H3]. split.
  - intros m k. rewrite Hk. intros Hm Hlive.
    destruct (H1 m k Hm Hlive) as [l' Hl']. exists l'. by apply Hholds.
  - intros l1 l2 m Hl1%Hholds Hl2%Hholds. eauto.
  - intros l' m Hl'%Hholds. rewrite Hk. eauto.
Qed.

(** A new session object without a connection. *)
Lemma one_listener_alloc s s' o :
  heap s' = heap s ++ [o] ->
  sockets s' = sockets s ->
  websocket o = None ->
  one_listener s -> one_listener s'.
Proof.
  intros Hh Hk Ho Hs.
  assert (Hholds : forall l' m, holds s' l' m <-> holds s l' m).
  { intros l' m. unfold holds. rewrite Hh. split.
    - intros (o' & Hl' & Hw). apply lookup_app_Some in Hl' as [Hl'|[_ Hl']]; [eauto|].
      apply list_lookup_singleton_Some in Hl' as [_ <-]. congruence.
    - intros (o' & Hl' & Hw). exists o'. split; [|done]. by apply lookup_app_l_Some. }
  destruct Hs as [H1 H2 H3]. split.
  - intros m k. rewrite Hk. intros Hm Hlive.
    destruct (H1 m k Hm Hlive) as [l' Hl']. exists l'. by apply Hholds.
  - intros l1 l2 m Hl1%Hholds Hl2%Hholds. eauto.
  - intros l' m Hl'%Hholds. rewrite Hk. eauto.
Qed.

(** A session object whose old connection is no longer live takes a new
    socket. *)
Lemma one_listener_replace s s' l o k_new :
  heap s !! l = Some o ->
  heap s' = alter (fun o => mkSession (sessionId o) (Some (length (sockets s))) (status o))
              l (heap s) ->
  sockets s' = sockets s ++ [k_new] ->
  (forall n k, websocket o = Some n -> sockets s !! n = Some k -> live k = false) ->
  one_listener s -> one_listener s'.
Proof.
  intros Hl Hh Hk Hold [H1 H2 H3].
  assert (Hnew : holds s' l (length (sockets s))).
  { unfold holds. rewrite Hh, list_lookup_alter_eq, Hl. simpl. eauto. }
  assert (Hother : forall l' m, l' <> l -> holds s' l' m <-> holds s l' m).
  { intros l' m Hne. unfold holds. rewrite Hh. by rewrite list_lookup_alter_ne. }
  assert (Hatl : forall m, holds s' l m -> m = length (sockets s)).
  { intros m (o' & Ho' & Hw). rewrite Hh, list_lookup_alter_eq, Hl in Ho'.
    simpl in Ho'. injection Ho' as <-. simpl in Hw. congruence. }
  split.
  - intros m k Hm Hlive. rewrite Hk in Hm.
    apply lookup_app_Some in Hm as [Hm|[Hge Hm]].
    + destruct (H1 m k Hm Hlive) as [l' Hl']. exists l'.
      apply Hother; [|done]. intros ->.
      destruct Hl' as (o' & Ho' & Hw). rewrite Hl in Ho'. injection Ho' as <-.
      by rewrite (Hold m k Hw Hm) in Hlive.
    + apply list_lookup_singleton_Some in Hm as [Hm _].
      exists l. replace m with (length (sockets s)) by lia. done.
  - intros l1 l2 m Hl1 Hl2.
    destruct (decide (l1 = l)) as [->|Hne1], (decide (l2 = l)) as [->|Hne2]; [done|..].
    + apply Hatl in Hl1 as ->. apply Hother in Hl2; [|done].
      apply H3 in Hl2. lia.
    + apply Hatl in Hl2 as ->. apply Hother in Hl1; [|done].
      apply H3 in Hl1. lia.
    + apply Hother in Hl1; [|done]. apply Hother in Hl2; [|done]. eauto.
  - intros l' m Hl'. rewrite Hk, length_app. simpl.
    destruct (decide (l' = l)) as [->|Hne].
    + apply Hatl in Hl' as ->. lia.
    + apply Hother in Hl'; [|done]. apply H3 in Hl'. lia.
Qed.

Lemma live_closing k : live (closing k) = false.
Proof. unfold live, closing. simpl. by destruct (readyState k). Qed.

Lemma one_listener_closed_connection o s :
  one_listener s -> one_listener (closed_connection o s).
Proof.
  unfold closed_connection. destruct (websocket o) as [n|]; [|done].
  apply (one_listener_shrink _ _ closing n); [done..|].
  intros k _. by rewrite live_closing.
Qed.

Lemma connectWebSocket_run chatId sid l o s :
  sessions s !! chatId = Some l ->
  heap s !! l = Some o ->
  connectWebSocket chatId sid s
    = if WebSocket_accepts (ws_url (apiEndpoint s) sid)
      then Done tt (reconnected chatId sid l o s)
      else Failed SyntaxError (closed_connection o s).
Proof.
  intros Hc Hl.
  unfold connectWebSocket, mbind, M_bind, sessions_get, field, new_WebSocket. simpl.
  rewrite Hc. simpl. rewrite Hl. simpl.
  unfold reconnected, closed_connection.
  destruct (websocket o); simpl; by destruct (WebSocket_accepts _).
Qed.

Lemma one_listener_reconnected chatId sid l o s :
  heap s !! l = Some o ->
  one_listener s -> one_listener (reconnected chatId sid l o s).
Proof.
  intros Hl Hs. unfold reconnected.
  eapply (one_listener_replace (closed_connection o s) _ l o);
    [| reflexivity | reflexivity | | by apply one_listener_closed_connection].
  - unfold closed_connection. by destruct (websocket o).
  - intros n k Hw. unfold closed_connection. rewrite Hw. simpl.
    rewrite list_lookup_alter_eq. destruct (sockets s !! n); [|done].
    intros [= <-]. apply live_closing.
Qed.

Lemma one_listener_trace f s : one_listener s -> one_listener (upd_trace f s).
Proof. by apply one_listener_same. Qed.

#[local] Instance one_listener_discipline :
  Discipline (keeping one_listener) (keeps one_listener) :=
  keeps_discipline one_listener one_listener_trace.

Lemma listener_sessions_set chatId sid :
  quiet (keeping one_listener) (keeps one_listener)
    (sessions_set chatId (mkSession sid None idle)).
Proof.
  apply (quiet_update (fun _ => tt)). intros s. unfold keeps.
  by apply (one_listener_alloc _ _ (mkSession sid None idle)).
Qed.

Lemma listener_sessions_delete chatId :
  quiet (keeping one_listener) (keeps one_listener) (sessions_delete chatId).
Proof. apply (quiet_update (fun _ => tt)). intros s. unfold keeps. by apply one_listener_same. Qed.

Lemma listener_set_status l st :
  quiet (keeping one_listener) (keeps one_listener) (set_status l st).
Proof.
  apply (quiet_update (fun _ => tt)). intros s. unfold keeps.
  by eapply one_listener_heap.
Qed.

Lemma listener_ws_close w :
  quiet (keeping one_listener) (keeps one_listener) (ws_close w).
Proof.
  apply (quiet_update (fun _ => tt)). intros s. unfold keeps.
  apply (one_listener_shrink _ _ closing w); [done..|].
  intros k _. by rewrite live_closing.
Qed.

Lemma listener_setTimeout ms chatId sid :
  quiet (keeping one_listener) (keeps one_listener) (setTimeout ms chatId sid).
Proof. apply (quiet_update (fun _ => tt)). intros s. unfold keeps. by apply one_listener_same. Qed.

Lemma listener_connectWebSocket chatId sid :
  quiet (keeping one_listener) (keeps one_listener) (connectWebSocket chatId sid).
Proof.
  intros s. destruct (sessions s !! chatId) as [l|] eqn:Hc.
  - destruct (heap s !! l) as [o|] eqn:Hl.
    + rewrite (connectWebSocket_run chatId sid l o) by done.
      destruct (WebSocket_accepts _).
      * apply follows_done. unfold keeps. by apply one_listener_reconnected.
      * apply follows_failed. unfold keeps. apply one_listener_closed_connection.
    + unfold connectWebSocket, mbind, M_bind, sessions_get, field. simpl.
      rewrite Hc. simpl. rewrite Hl. simpl. apply follows_failed. by intros ?.
  - rewrite connectWebSocket_unknown by done. apply follows_done. by intros ?.
Qed.

#[local] Hint Resolve listener_sessions_set listener_sessions_delete listener_set_status
  listener_ws_close listener_setTimeout listener_connectWebSocket : quiet.

Lemma listener_handleResearchQuery chatId message :
  quiet (keeping one_listener) (keeps one_listener) (handleResearchQuery chatId message).
Proof. unfold handleResearchQuery. quiet_tac. Qed.

Lemma listener_cleanupSession chatId :
  quiet (keeping one_listener) (keeps one_listener) (cleanupSession chatId).
Proof. unfold cleanupSession. quiet_tac. Qed.

#[local] Hint Resolve listener_handleResearchQuery listener_cleanupSession : quiet.

(** Every socket that can deliver events is the connection of exactly
    one session object, in every world the event loop can reach. *)
Lemma reachable_one_listener w : reachable w -> one_listener (plugin w).
Proof.
  apply (reachable_invariant one_listener one_listener_trace).
  - intros endpoint. split; unfold holds; simpl.
    + intros n k Hn. by rewrite lookup_nil in Hn.
    + intros l l' n (o & Ho & _). by rewrite lookup_nil in Ho.
    + intros l n (o & Ho & _). by rewrite lookup_nil in Ho.
  - intros n k s Hn Hk. apply (one_listener_shrink _ _ (set_readyState OPEN) n); [done..|].
    intros k' Hn' _. rewrite Hn in Hn'. injection Hn' as <-. unfold live. by rewrite Hk.
  - intros n s. by apply (one_listener_shrink _ _ (set_readyState CLOSED) n).
  - intros t s. by apply one_listener_same.
  - intros now. unfold createResearchChat, await_chat_id. quiet_tac.
  - intros chatId message. unfold on_message_send. quiet_tac.
  - intros chatId. unfold on_chat_delete. quiet_tac.
  - intros chatId data. unfold handleWebSocketMessage. quiet_tac.
  - apply listener_connectWebSocket.
  - intros chatId sid. unfold ws_onclose. quiet_tac.
Qed.

(** C6.  In every world the event loop can reach, two different sockets
    that can still deliver events are the current connections of two
    different session objects, so no session has two live listeners.  And
    [connectWebSocket] on a session that has a connection calls [close] on
    it before it creates the new socket: afterwards the old socket is no
    longer live and the session object holds the new one. *)
Theorem replacing_closes_prior_connection w :
  reachable w ->
  (forall n1 n2 k1 k2,
     sockets (plugin w) !! n1 = Some k1 -> live k1 = true ->
     sockets (plugin w) !! n2 = Some k2 -> live k2 = true ->
     n1 <> n2 ->
     exists l1 l2, l1 <> l2 /\ holds (plugin w) l1 n1 /\ holds (plugin w) l2 n2) /\
  (forall chatId sid l o n,
     sessions (plugin w) !! chatId = Some l ->
     heap (plugin w) !! l = Some o ->
     websocket o = Some n ->
     let new := length (sockets (plugin w)) in
     let wsUrl := ws_url (apiEndpoint (plugin w)) sid in
     WebSocket_accepts wsUrl = true ->
     exists s',
       connectWebSocket chatId sid (plugin w) = Done tt s' /\
       trace s' = trace (plugin w) ++ [SocketClose n; SocketNew new wsUrl] /\
       (forall k, sockets s' !! n = Some k -> live k = false) /\
       sockets s' !! new = Some (mkSocket wsUrl chatId sid CONNECTING) /\
       holds s' l new /\
       one_listener s').
Proof.
  intros Hw. pose proof (reachable_one_listener w Hw) as Hinv. split.
  - intros n1 n2 k1 k2 Hn1 Hk1 Hn2 Hk2 Hne.
    destruct (live_held _ Hinv n1 k1 Hn1 Hk1) as [l1 Hl1].
    destruct (live_held _ Hinv n2 k2 Hn2 Hk2) as [l2 Hl2].
    exists l1, l2. split; [|done]. intros ->.
    destruct Hl1 as (o1 & Ho1 & Hw1), Hl2 as (o2 & Ho2 & Hw2). congruence.
  - intros chatId sid l o n Hc Hl Hws new wsUrl Hacc.
    exists (reconnected chatId sid l o (plugin w)).
    split; [rewrite (connectWebSocket_run chatId sid l o) by done; fold wsUrl; by rewrite Hacc|].
    assert (Hlen : length (sockets (closed_connection o (plugin w))) = new).
    { unfold closed_connection. rewrite Hws. simpl. apply length_alter. }
    assert (Hn : n < length (sockets (plugin w))).
    { apply (held_exists _ Hinv l). by exists o. }
    unfold reconnected. rewrite Hlen. unfold closed_connection. rewrite Hws. simpl.
    split; [by rewrite <- app_assoc|]. split; [|split; [|split]].
    + intros k. rewrite lookup_app_l by (by rewrite length_alter).
      rewrite list_lookup_alter_eq. destruct (sockets (plugin w) !! n); [|done].
      intros [= <-]. apply live_closing.
    + rewrite lookup_app_r by (by rewrite length_alter).
      by rewrite length_alter, Nat.sub_diag.
    + unfold holds. simpl. rewrite list_lookup_alter_eq, Hl. simpl. eauto.
    + pose proof (one_listener_reconnected chatId sid l o (plugin w) Hl Hinv) as Hr.
      unfold reconnected in Hr. rewrite Hlen in Hr.
      unfold closed_connection in Hr. by rewrite Hws in Hr.
Qed.

End Listeners.

(** ** Deletion *)

Section Deletion.
Context `{Runtime}.
Variable endpoint : string.

Lemma registered_same s s' :
  apiEndpoint s' = apiEndpoint s -> sessions s' = sessions s -> heap s' = heap s ->
  registered endpoint s -> registered endpoint s'.
Proof.
  intros He Hs Hh [Hep Hr]. split; [congruence|].
  intros c l. rewrite Hs, Hh. apply Hr.
Qed.

Lemma registered_heap s s' f l :
  apiEndpoint s' = apiEndpoint s ->
  sessions s' = sessions s ->
  heap s' = alter f l (heap s) ->
  (forall o, is_Some (websocket o) -> is_Some (websocket (f o))) ->
  registered endpoint s -> registered endpoint s'.
Proof.
  intros He Hs Hh Hf [Hep Hr]. split; [congruence|].
  intros c l'. rewrite Hs, Hh. intros Hc.
  destruct (Hr c l' Hc) as (o & Ho & Hn).
  destruct (decide (l = l')) as [->|Hne].
  - rewrite list_lookup_alter_eq, Ho. simpl. eauto.
  - rewrite list_lookup_alter_ne by done. eauto.
Qed.

Lemma registered_trace f s : registered endpoint s -> registered endpoint (upd_trace f s).
Proof. by apply registered_same. Qed.

#[local] Instance registered_discipline :
  Discipline (keeping (registered endpoint)) (keeps (registered endpoint)) :=
  keeps_discipline (registered endpoint) registered_trace.

Lemma registered_sessions_delete chatId :
  quiet (keeping (registered endpoint)) (keeps (registered endpoint))
    (sessions_delete chatId).
Proof.
  apply (quiet_update (fun _ => tt)). intros s [Hep Hr]. split; [done|].
  intros c l. simpl. intros [_ Hc]%lookup_delete_Some. exact (Hr c l Hc).
Qed.

Lemma registered_set_status l st :
  quiet (keeping (registered endpoint)) (keeps (registered endpoint)) (set_status l st).
Proof.
  apply (quiet_update (fun _ => tt)). intros s. unfold keeps.
  by eapply registered_heap.
Qed.

Lemma registered_ws_close w :
  quiet (keeping (registered endpoint)) (keeps (registered endpoint)) (ws_close w).
Proof.
  apply (quiet_update (fun _ => tt)). intros s. unfold keeps. by apply registered_same.
Qed.

Lemma registered_setTimeout ms chatId sid :
  quiet (keeping (registered endpoint)) (keeps (registered endpoint))
    (setTimeout ms chatId sid).
Proof.
  apply (quiet_update (fun _ => tt)). intros s. unfold keeps. by apply registered_same.
Qed.

Lemma registered_closed_connection o s :
  registered endpoint s -> registered endpoint (closed_connection o s).
Proof.
  unfold closed_connection. destruct (websocket o); [|done].
  by apply (registered_same s).
Qed.

Lemma registered_reconnected chatId sid l o s :
  registered endpoint s -> registered endpoint (reconnected chatId sid l o s).
Proof.
  unfold reconnected. intros Hr.
  apply (registered_heap (closed_connection o s) _
           (fun o' => mkSession (sessionId o')
                        (Some (length (sockets (closed_connection o s)))) (status o')) l);
    [reflexivity|reflexivity|reflexivity|intros o' _; by eexists|].
  by apply registered_closed_connection.
Qed.

Lemma registered_connectWebSocket chatId sid :
  quiet (keeping (registered endpoint)) (keeps (registered endpoint))
    (connectWebSocket chatId sid).
Proof.
  intros s. destruct (sessions s !! chatId) as [l|] eqn:Hc.
  - destruct (heap s !! l) as [o|] eqn:Hl.
    + rewrite (connectWebSocket_run chatId sid l o) by done.
      destruct (WebSocket_accepts _).
      * apply follows_done. unfold keeps. apply registered_reconnected.
      * apply follows_failed. unfold keeps. apply registered_closed_connection.
    + unfold connectWebSocket, mbind, M_bind, sessions_get, field. simpl.
      rewrite Hc. simpl. rewrite Hl. simpl. apply follows_failed. by intros ?.
  - rewrite connectWebSocket_unknown by done. apply follows_done. by intros ?.
Qed.

(** A session object enters the registry together with its connection:
    [sessions.set] and [connectWebSocket] run in one turn. *)
Lemma registered_set_then_connect {C} chatId sid (f : unit -> M C) :
  (forall a, quiet (keeping (registered endpoint)) (keeps (registered endpoint)) (f a)) ->
  quiet (keeping (registered endpoint)) (keeps (registered endpoint))
    (sessions_set chatId (mkSession sid None idle) ≫= fun _ =>
       connectWebSocket chatId sid ≫= f).
Proof.
  intros Hf s. unfold mbind, M_bind, sessions_set. simpl.
  set (s1 := upd_sessions _ _).
  assert (Hc : sessions s1 !! chatId = Some (length (heap s))).
  { unfold s1. simpl. apply lookup_insert_eq. }
  assert (Hl : heap s1 !! length (heap s) = Some (mkSession sid None idle)).
  { unfold s1. simpl. rewrite lookup_app_r by done. by rewrite Nat.sub_diag. }
  assert (Hold : forall c l, c <> chatId ->
            registered endpoint s -> sessions s1 !! c = Some l ->
            exists o, heap s !! l = Some o /\ l <> length (heap s) /\
                      (accepts_all endpoint -> is_Some (websocket o))).
  { intros c l Hne [_ Hr]. unfold s1. simpl. rewrite lookup_insert_ne by done.
    intros Hcl. destruct (Hr c l Hcl) as (o & Ho & Hn). exists o.
    split; [done|]. split; [|done]. apply lookup_lt_Some in Ho. lia. }
  rewrite (connectWebSocket_run chatId sid _ _ s1 Hc Hl).
  destruct (WebSocket_accepts (ws_url (apiEndpoint s1) sid)) eqn:Hacc; simpl.
  - apply (follows_after (B:=keeps (registered endpoint))); [|unfold keeps; auto|apply Hf].
    intros Hr. split; [apply Hr|]. intros c l Hcl.
    change (sessions s1 !! c = Some l) in Hcl.
    unfold reconnected, closed_connection. simpl.
    destruct (decide (c = chatId)) as [->|Hne].
    + rewrite Hc in Hcl. injection Hcl as <-.
      rewrite list_lookup_alter_eq. rewrite lookup_app_r by done.
      rewrite Nat.sub_diag. simpl. eauto.
    + destruct (Hold c l Hne Hr Hcl) as (o & Ho & Hl' & Hn).
      rewrite list_lookup_alter_ne by done.
      exists o. split; [|done]. by apply lookup_app_l_Some.
  - apply follows_failed. intros Hr. split; [apply Hr|]. intros c l Hcl.
    change (sessions s1 !! c = Some l) in Hcl.
    unfold closed_connection. simpl.
    destruct (decide (c = chatId)) as [->|Hne].
    + rewrite Hc in Hcl. injection Hcl as <-.
      exists (mkSession sid None idle). split; [done|].
      intros Hall. destruct Hr as [Hep _].
      specialize (Hall sid). unfold s1 in Hacc. simpl in Hacc. congruence.
    + destruct (Hold c l Hne Hr Hcl) as (o & Ho & Hl' & Hn).
      exists o. split; [|done]. by apply lookup_app_l_Some.
Qed.

#[local] Hint Resolve registered_sessions_delete registered_set_status
  registered_ws_close registered_setTimeout registered_connectWebSocket : quiet.

Lemma registered_createResearchChat now :
  quiet (keeping (registered endpoint)) (keeps (registered endpoint))
    (createResearchChat now).
Proof.
  unfold createResearchChat, await_chat_id.
  apply quiet_bind; [quiet_tac|]. intros chatId.
  apply quiet_try_catch; [|intros err; quiet_tac].
  apply quiet_bind; [quiet_tac|]. intros ep.
  apply quiet_bind; [quiet_tac|]. intros _.
  apply registered_set_then_connect. intros _. quiet_tac.
Qed.

Lemma steps_registered w inputs w' :
  registered endpoint (plugin w) ->
  tasks_follow (keeping (registered endpoint)) (pending w) ->
  steps w inputs = Some w' ->
  registered endpoint (plugin w').
Proof.
  intros Hw Hts Hsteps.
  eapply (steps_invariant (registered endpoint) registered_trace); [..|done|done|done].
  - intros n k s _ _. by apply registered_same.
  - intros n s. by apply registered_same.
  - intros t s. by apply registered_same.
  - apply registered_createResearchChat.
  - intros chatId message. unfold on_message_send, handleResearchQuery. quiet_tac.
  - intros chatId. unfold on_chat_delete, cleanupSession. quiet_tac.
  - intros chatId data. unfold handleWebSocketMessage. quiet_tac.
  - apply registered_connectWebSocket.
  - intros chatId sid. unfold ws_onclose. quiet_tac.
Qed.

End Deletion.

Section DeletionTheorem.
Context `{Runtime}.

Lemma reachable_registered w :
  reachable w -> registered (apiEndpoint (plugin w)) (plugin w).
Proof.
  intros (endpoint & inputs & Hsteps).
  assert (Hr : registered (apiEndpoint (constructor endpoint)) (plugin w)).
  { eapply (steps_registered _ (boot endpoint)); [| |done].
    - split; [done|]. intros c l. simpl. by rewrite lookup_empty.
    - intros t Ht. simpl in Ht. by apply elem_of_nil in Ht. }
  destruct Hr as [Hep Hr]. by rewrite Hep.
Qed.


End DeletionTheorem.

(** ** The other event kinds *)

Section Events.
Context `{Runtime}.

Lemma get_defined v k k' x : get v k = Normal x -> exists y, get v k' = Normal y.
Proof. destruct v; simpl; try done; eauto. Qed.

(** With [eventData = data.data || {}], reading a property of the payload
    never throws. *)
Lemma get_eventData d k : exists v, get (or_else d (VObj [])) k = Normal v.
Proof.
  unfold or_else. destruct (truthy d) eqn:Ht; [|simpl; eauto].
  destruct d; simpl in *; try done; eauto.
Qed.

Lemma is_str_false v lit : v <> VStr lit -> is_str v lit = false.
Proof.
  destruct v; simpl; try done. intros Hne. apply bool_decide_eq_false_2. congruence.
Qed.

(** X1.  An event whose kind is none of the seven the dispatcher knows
    (a missing or non-string [event] included) is ignored: the method
    returns at once and leaves the store as it is, whether or not the
    chat has a session. *)
Theorem unknown_event_ignored s chatId data event :
  get data "event" = Normal event ->
  (forall kind, kind ∈ event_kinds -> event <> VStr kind) ->
  handleWebSocketMessage chatId data s = Done tt s.
Proof.
  intros Hev Hkinds.
  destruct (get_defined data "event" "data" event Hev) as [d Hd].
  unfold handleWebSocketMessage, mbind, M_bind, sessions_get. simpl.
  destruct (sessions s !! chatId) as [l|]; [|done]. simpl.
  rewrite Hev. simpl. rewrite Hd. simpl.
  rewrite !is_str_false; [done|apply Hkinds; unfold event_kinds; set_solver..].
Qed.

(** X2.  A [token] event for a registered chat appends the [token]
    property of the payload to the last message, not yet done, whatever
    the frame carries: a payload without a token (or no payload at all)
    appends undefined, and nothing throws.  The store is untouched apart
    from the trace. *)
Theorem token_appended s chatId l data :
  sessions s !! chatId = Some l ->
  get data "event" = Normal (VStr "token") ->
  exists d token k,
    get data "data" = Normal d /\
    get (or_else d (VObj [])) "token" = Normal token /\
    handleWebSocketMessage chatId data s
      = Suspended (token_append chatId token)
          (traced [Issued (token_append chatId token)] s) k /\
    settles k.
Proof.
  intros Hc Hev.
  destruct (get_defined data "event" "data" _ Hev) as [d Hd].
  destruct (get_eventData d "token") as [token Ht].
  exists d, token.
  unfold handleWebSocketMessage, mbind, M_bind, sessions_get. simpl.
  rewrite Hc. simpl. rewrite Hev. simpl. rewrite Hd. simpl. rewrite Ht. simpl.
  eexists. split; [done|]. split; [done|]. split; [reflexivity|].
  intros [?|?] ?; reflexivity.
Qed.

(** X3.  A [research_start] event for a registered chat, whatever its
    payload: the status of the session becomes [processing] and the chat
    status update to ['typing'] is issued; once that resolves the
    placeholder message is added, and if it is rejected the handler
    rejects without adding it. *)
Theorem research_start_applied s chatId l data :
  sessions s !! chatId = Some l ->
  get data "event" = Normal (VStr "research_start") ->
  exists k1,
    handleWebSocketMessage chatId data s
      = Suspended (status_update chatId "typing")
          (traced [Issued (status_update chatId "typing")]
             (write_status l processing s)) k1 /\
    (forall v s2, exists k2,
       k1 (Resolved v) s2
         = Suspended (placeholder_message chatId)
             (traced [Issued (placeholder_message chatId)] s2) k2 /\
       settles k2) /\
    (forall e s2, k1 (Rejected e) s2 = Failed e s2).
Proof.
  intros Hc Hev.
  destruct (get_defined data "event" "data" _ Hev) as [d Hd].
  unfold handleWebSocketMessage, mbind, M_bind, sessions_get. simpl.
  rewrite Hc. simpl. rewrite Hev. simpl. rewrite Hd. simpl.
  eexists. split; [reflexivity|]. split.
  - intros v s2. simpl. eexists. split; [reflexivity|].
    intros [?|?] ?; reflexivity.
  - intros e s2. reflexivity.
Qed.

(** X4.  Tool events for a registered chat only add a thinking message:
    [tool_start] shows the tool and its input on two lines, [tool_end]
    shows the output, each property printed as a template literal prints
    it (so an absent one reads [undefined]).  The store is untouched apart
    from the trace. *)
Theorem tool_events_shown s chatId l data d :
  sessions s !! chatId = Some l ->
  get data "data" = Normal d ->
  (forall tool input t i,
     get data "event" = Normal (VStr "tool_start") ->
     get (or_else d (VObj [])) "tool" = Normal tool -> ToString tool = Normal t ->
     get (or_else d (VObj [])) "input" = Normal input -> ToString input = Normal i ->
     let shown := thinking_message chatId
                    ("Using tool: " +:+ t +:+ String "010" "Input: " +:+ i) in
     exists k,
       handleWebSocketMessage chatId data s
         = Suspended shown (traced [Issued shown] s) k /\
       settles k) /\
  (forall output t,
     get data "event" = Normal (VStr "tool_end") ->
     get (or_else d (VObj [])) "output" = Normal output -> ToString output = Normal t ->
     let shown := thinking_message chatId ("Tool result: " +:+ t) in
     exists k,
       handleWebSocketMessage chatId data s
         = Suspended shown (traced [Issued shown] s) k /\
       settles k).
Proof.
  intros Hc Hd. split.
  - intros tool input t i Hev Htool Ht Hinput Hi shown.
    unfold handleWebSocketMessage, mbind, M_bind, sessions_get. simpl.
    rewrite Hc. simpl. rewrite Hev. simpl. rewrite Hd. simpl.
    rewrite Htool. simpl. rewrite Ht. simpl. rewrite Hinput. simpl. rewrite Hi. simpl.
    eexists. split; [reflexivity|]. intros [?|?] ?; reflexivity.
  - intros output t Hev Hout Ht shown.
    unfold handleWebSocketMessage, mbind, M_bind, sessions_get. simpl.
    rewrite Hc. simpl. rewrite Hev. simpl. rewrite Hd. simpl.
    rewrite Hout. simpl. rewrite Ht. simpl.
    eexists. split; [reflexivity|]. intros [?|?] ?; reflexivity.
Qed.

(** X5.  A [research_error] event for a registered chat whose payload
    carries [error.error]: the status of the session becomes [error], the
    chat status update to ['idle'] is issued, and once that resolves the
    last message is replaced by [Error: ] followed by the reported error,
    done, with the error flag in its metadata. *)
Theorem research_error_applied s chatId l o data d err reported msg :
  sessions s !! chatId = Some l ->
  heap s !! l = Some o ->
  get data "event" = Normal (VStr "research_error") ->
  get data "data" = Normal d ->
  get (or_else d (VObj [])) "error" = Normal err ->
  get err "error" = Normal reported ->
  ToString reported = Normal msg ->
  exists s1 k1,
    handleWebSocketMessage chatId data s
      = Suspended (status_update chatId "idle") s1 k1 /\
    s1 = traced [Issued (status_update chatId "idle")] (write_status l error s) /\
    status_at s1 l = Some error /\
    forall v s2, exists k2,
      k1 (Resolved v) s2
        = Suspended (error_message chatId msg)
            (traced [Issued (error_message chatId msg)] s2) k2 /\
      settles k2.
Proof.
  intros Hc Hl Hev Hd Herr Hrep Hmsg.
  unfold handleWebSocketMessage, mbind, M_bind, sessions_get. simpl.
  rewrite Hc. simpl. rewrite Hev. simpl. rewrite Hd. simpl.
  eexists _, _. split; [reflexivity|]. split; [reflexivity|]. split.
  - unfold status_at. simpl. by rewrite list_lookup_alter_eq, Hl.
  - intros v s2. simpl. rewrite Herr. simpl. rewrite Hrep. simpl. rewrite Hmsg. simpl.
    eexists. split; [reflexivity|]. intros [?|?] ?; reflexivity.
Qed.

(** X6.  A [research_complete] event whose response is there but whose
    [process_time] is not a number (absent, null, or a string) writes the
    status [idle], issues the chat status update, and when that resolves
    throws a [TypeError]: the last message is never updated. *)
Theorem process_time_must_be_number s chatId l data d response pt :
  sessions s !! chatId = Some l ->
  get data "event" = Normal (VStr "research_complete") ->
  get data "data" = Normal d ->
  get (or_else d (VObj [])) "response" = Normal response ->
  get response "process_time" = Normal pt ->
  (forall x, pt <> VNum x) ->
  exists k1,
    handleWebSocketMessage chatId data s
      = Suspended (status_update chatId "idle")
          (traced [Issued (status_update chatId "idle")] (write_status l idle s)) k1 /\
    forall v s2, k1 (Resolved v) s2 = Failed TypeError s2.
Proof.
  intros Hc Hev Hd Hr Hpt Hnum.
  destruct (get_defined response "process_time" "result" _ Hpt) as [r1 Hr1].
  destruct (get_defined response "process_time" "model" _ Hpt) as [r2 Hr2].
  destruct (get_defined response "process_time" "provider" _ Hpt) as [r3 Hr3].
  unfold handleWebSocketMessage, mbind, M_bind, sessions_get. simpl.
  rewrite Hc. simpl. rewrite Hev. simpl. rewrite Hd. simpl.
  eexists. split; [reflexivity|]. intros v s2. simpl.
  rewrite Hr. simpl. rewrite Hr1. simpl. rewrite Hr2. simpl. rewrite Hr3. simpl.
  rewrite Hpt. simpl. destruct pt; try reflexivity. by destruct (Hnum x).
Qed.

End Events.

(** ** Replay of buffered messages *)

Section Replay.
Context `{Runtime}.

Lemma traced_traced es1 es2 s : traced es2 (traced es1 s) = traced (es1 ++ es2) s.
Proof. unfold traced, upd_trace. simpl. by rewrite app_assoc. Qed.

Lemma traced_nil s : traced [] s = s.
Proof. destruct s. unfold traced, upd_trace. simpl. by rewrite app_nil_r. Qed.

Lemma run_for_of chatId body items s vs :
  replays chatId body ->
  Forall (fun m => ~ nullish m) items ->
  length vs = length (flat_map (replayed chatId) items) ->
  run (for_of items body s) (map Resolved vs)
    = Settled (Returned tt) (traced (map Issued (flat_map (replayed chatId) items)) s).
Proof.
  intros Hbody Hitems. revert s vs.
  induction Hitems as [|x items Hx _ IH]; intros s vs Hlen; simpl in *.
  - by rewrite traced_nil.
  - unfold mbind, M_bind.
    destruct (proj2 (Hbody x s) Hx) as [[Hnone ->]|(c & k & Hone & -> & Hk)].
    + rewrite Hnone in *. simpl in *. by apply IH.
    + rewrite Hone in *. simpl in *. destruct vs as [|v vs]; [done|]. simpl.
      rewrite Hk. simpl. rewrite IH by (simpl in Hlen; lia).
      by rewrite traced_traced.
Qed.

Lemma run_for_of_stops chatId body good bad rest s vs :
  replays chatId body ->
  Forall (fun m => ~ nullish m) good ->
  nullish bad ->
  length vs = length (flat_map (replayed chatId) good) ->
  run (for_of (good ++ bad :: rest) body s) (map Resolved vs)
    = Settled (Threw TypeError) (traced (map Issued (flat_map (replayed chatId) good)) s).
Proof.
  intros Hbody Hgood Hbad. revert s vs.
  induction Hgood as [|x good Hx _ IH]; intros s vs Hlen; simpl in *.
  - unfold mbind, M_bind. rewrite (proj1 (Hbody bad s) Hbad). simpl.
    by rewrite traced_nil.
  - unfold mbind, M_bind.
    destruct (proj2 (Hbody x s) Hx) as [[Hnone ->]|(c & k & Hone & -> & Hk)].
    + rewrite Hnone in *. simpl in *. by apply IH.
    + rewrite Hone in *. simpl in *. destruct vs as [|v vs]; [done|]. simpl.
      rewrite Hk. simpl. rewrite IH by (simpl in Hlen; lia).
      by rewrite traced_traced.
Qed.

Lemma dispatch_session_state chatId l data d messages s :
  sessions s !! chatId = Some l ->
  get data "event" = Normal (VStr "session_state") ->
  get data "data" = Normal d ->
  get (or_else d (VObj [])) "messages" = Normal messages ->
  exists body,
    replays chatId body /\
    handleWebSocketMessage chatId data s
      = bind_result
          ((if truthy messages
            then len ← eval (get messages "length"); eval (gt_zero len)
            else mret false) s)
          (fun nonempty : bool =>
             if nonempty then
               match messages with
               | VArr items => for_of items body
               | VStr _ => mret tt
               | _ => throw TypeError
               end
             else mret tt).
Proof.
  intros Hc Hev Hd Hm.
  unfold handleWebSocketMessage, mbind at 1, M_bind at 1, sessions_get. simpl.
  rewrite Hc. unfold mbind at 1, M_bind at 1. rewrite Hev. simpl.
  unfold mbind at 1, M_bind at 1. rewrite Hd. simpl.
  unfold mbind at 1, M_bind at 1. rewrite Hm. simpl.
  eexists. split; [|reflexivity].
  intros x s'. split.
  - intros [-> | ->]; reflexivity.
  - intros Hx. unfold replayed, mbind, M_bind. cbv beta.
    destruct (get x "role") as [role|e] eqn:Hrole.
    2:{ destruct x; simpl in Hrole; try done; destruct Hx; unfold nullish; auto. }
    destruct (get_defined x "role" "content" _ Hrole) as [content Hcontent].
    rewrite Hcontent. unfold eval at 1. simpl.
    destruct (is_str role "user").
    + right. eexists _, _. split; [done|].
      split; [reflexivity|]. intros [?|?] ?; reflexivity.
    + destruct (is_str role "assistant").
      * right. eexists _, _. split; [done|].
        split; [reflexivity|]. intros [?|?] ?; reflexivity.
      * left. done.
Qed.

Lemma nonempty_array (x : value) (items : list value) s :
  (len ← eval (get (VArr (x :: items)) "length"); eval (gt_zero len)) s = Done true s.
Proof.
  unfold mbind, M_bind. simpl. unfold gt_zero, ToNumber, of_nat. reflexivity.
Qed.

(** X7.  A [session_state] event for a registered chat whose [messages]
    is an array of objects replays them in their order: for each message
    whose role is ['user'] a user message, for each whose role is
    ['assistant'] an assistant message marked done, each with the content
    of the message, and nothing for any other role.  When every call
    resolves the handler returns, and the store is untouched apart from
    the trace. *)
Theorem session_state_replayed s chatId l data d items vs :
  sessions s !! chatId = Some l ->
  get data "event" = Normal (VStr "session_state") ->
  get data "data" = Normal d ->
  get (or_else d (VObj [])) "messages" = Normal (VArr items) ->
  Forall (fun m => ~ nullish m) items ->
  length vs = length (flat_map (replayed chatId) items) ->
  run (handleWebSocketMessage chatId data s) (map Resolved vs)
    = Settled (Returned tt)
        (traced (map Issued (flat_map (replayed chatId) items)) s).
Proof.
  intros Hc Hev Hd Hm Hitems Hlen.
  destruct (dispatch_session_state chatId l data d _ s Hc Hev Hd Hm)
    as (body & Hbody & ->).
  destruct items as [|x items].
  - simpl. by rewrite traced_nil.
  - change (truthy (VArr (x :: items))) with true. cbv iota.
    rewrite nonempty_array.
    exact (run_for_of chatId body (x :: items) s vs Hbody Hitems Hlen).
Qed.

(** X8.  The replay stops at the first buffered message that is null or
    undefined: the messages before it are replayed, then the handler
    throws a [TypeError] and the messages after it are not shown. *)
Theorem session_state_stops_at_null s chatId l data d good bad rest vs :
  sessions s !! chatId = Some l ->
  get data "event" = Normal (VStr "session_state") ->
  get data "data" = Normal d ->
  get (or_else d (VObj [])) "messages" = Normal (VArr (good ++ bad :: rest)) ->
  Forall (fun m => ~ nullish m) good ->
  nullish bad ->
  length vs = length (flat_map (replayed chatId) good) ->
  run (handleWebSocketMessage chatId data s) (map Resolved vs)
    = Settled (Threw TypeError)
        (traced (map Issued (flat_map (replayed chatId) good)) s).
Proof.
  intros Hc Hev Hd Hm Hgood Hbad Hlen.
  destruct (dispatch_session_state chatId l data d _ s Hc Hev Hd Hm)
    as (body & Hbody & ->).
  assert (Hne : exists x items, good ++ bad :: rest = x :: items).
  { destruct good; simpl; eauto. }
  destruct Hne as (x & items & Heq). rewrite Heq.
  change (truthy (VArr (x :: items))) with true. cbv iota.
  rewrite nonempty_array. rewrite <- Heq.
  exact (run_for_of_stops chatId body good bad rest s vs Hbody Hgood Hbad Hlen).
Qed.

(** X9.  A [session_state] event whose [messages] is absent, null, an
    empty array, a string, a number or a boolean replays nothing: the
    handler returns at once and leaves the store as it is. *)
Theorem session_state_without_messages s chatId data d messages :
  get data "event" = Normal (VStr "session_state") ->
  get data "data" = Normal d ->
  get (or_else d (VObj [])) "messages" = Normal messages ->
  nothing_to_replay messages ->
  handleWebSocketMessage chatId data s = Done tt s.
Proof.
  intros Hev Hd Hm Hnothing.
  destruct (sessions s !! chatId) as [l|] eqn:Hc.
  - destruct (dispatch_session_state chatId l data d _ s Hc Hev Hd Hm)
      as (body & _ & ->).
    destruct messages as [| |b|x|str|items|fields]; simpl in Hnothing; try done.
    + by destruct b.
    + destruct x as [sg|sg| |sg m e]; try done; by destruct sg.
    + by destruct str.
    + by destruct items.
  - unfold handleWebSocketMessage, mbind, M_bind, sessions_get. simpl. by rewrite Hc.
Qed.

End Replay.

(** ** Plugin initialisation *)

Section Initialisation.
Context `{Runtime}.

(** X10.  [registerPlugin] never rejects, whatever the host replies to
    the two UI registrations.  The two listeners are registered, and
    success is logged, only when both registrations resolve; if the chat
    type is rejected the toolbar button is not even requested; in both
    failure cases the error is logged and no listener is registered. *)
Theorem registerPlugin_settles s :
  (forall v1 v2,
     run (registerPlugin s) [Resolved v1; Resolved v2]
       = Settled (Returned tt)
           (traced [initialized_log]
              (traced [listening "chat:delete"]
                 (traced [listening "message:send"]
                    (traced [Issued (Webui "addToolbarButton" research_button)]
                       (traced [Issued (Webui "registerChatType" research_chat_type)]
                          s)))))) /\
  (forall e rp,
     run (registerPlugin s) [Rejected e; rp]
       = Settled (Returned tt)
           (traced [initialization_failed_log e]
              (traced [Issued (Webui "registerChatType" research_chat_type)] s))) /\
  (forall v1 e,
     run (registerPlugin s) [Resolved v1; Rejected e]
       = Settled (Returned tt)
           (traced [initialization_failed_log e]
              (traced [Issued (Webui "addToolbarButton" research_button)]
                 (traced [Issued (Webui "registerChatType" research_chat_type)] s)))).
Proof. repeat split; intros; reflexivity. Qed.

End Initialisation.

(** ** Session creation *)

Section Creation.
Context `{Runtime}.

Lemma alter_last {A} (f : A -> A) (l : list A) (x : A) :
  alter f (length l) (l ++ [x]) = l ++ [f x].
Proof. induction l as [|y l IH]; [done|]. simpl. f_equal. exact IH. Qed.

(** X11.  When the provisioning request of [createResearchChat] resolves
    (its response is not inspected) and the WebSocket constructor accepts
    the stream URL, the method registers a new session object for the
    chat, idle, with the session id made from the time, connected to a new
    socket for [/ws/<session id>], and issues the welcome message.  If
    the welcome message resolves the method returns the chat id; if it is
    rejected the method logs it and shows the initialisation error, with
    the session still registered. *)
Theorem chat_created now s chatId :
  exists k1,
    createResearchChat now s
      = Suspended (create_chat now) (traced [Issued (create_chat now)] s) k1 /\
    forall s1, exists k2,
      k1 (Resolved (VStr chatId)) s1
        = Suspended (provision_request (apiEndpoint s1) now)
            (traced [Issued (provision_request (apiEndpoint s1) now)] s1) k2 /\
      forall response s2,
        WebSocket_accepts (ws_url (apiEndpoint s2) (session_id_at now)) = true ->
        exists s3 k3,
          k2 (Resolved response) s2
            = Suspended (welcome_message chatId)
                (traced [Issued (welcome_message chatId)] s3) k3 /\
          sessions s3 = <[chatId := length (heap s2)]> (sessions s2) /\
          heap s3 = heap s2
                    ++ [mkSession (session_id_at now) (Some (length (sockets s2))) idle] /\
          sockets s3 = sockets s2
                       ++ [mkSocket (ws_url (apiEndpoint s2) (session_id_at now))
                             chatId (session_id_at now) CONNECTING] /\
          trace s3 = trace s2
                     ++ [SocketNew (length (sockets s2))
                           (ws_url (apiEndpoint s2) (session_id_at now))] /\
          (forall v s4, k3 (Resolved v) s4 = Done (VStr chatId) s4) /\
          (forall e s4, exists k4,
             k3 (Rejected e) s4
               = Suspended (creation_failed_notice chatId)
                   (traced [Issued (creation_failed_notice chatId)]
                      (traced [creation_failed_log e] s4)) k4).
Proof.
  unfold createResearchChat, await_chat_id, mbind, M_bind. simpl.
  eexists. split; [reflexivity|]. intros s1. simpl.
  eexists. split; [reflexivity|]. intros response s2 Hacc. simpl.
  erewrite (connectWebSocket_run chatId _ (length (heap s2))
              (mkSession (session_id_at now) None idle));
    [|simpl; apply lookup_insert_eq
     |simpl; rewrite lookup_app_r by done; by rewrite Nat.sub_diag].
  simpl. fold (session_id_at now). rewrite Hacc. simpl.
  eexists _, _. split; [reflexivity|]. simpl.
  split; [done|]. split; [by rewrite alter_last|]. split; [done|]. split; [done|].
  split; [intros; reflexivity|]. intros e s4. simpl. eexists. reflexivity.
Qed.


Lemma substring_all (s : string) (n : nat) :
  String.length s <= n -> substring 0 n s = s.
Proof.
  revert n. induction s as [|c s IH]; intros n Hn; simpl in *.
  - by destruct n.
  - destruct n as [|n]; [lia|]. simpl. rewrite IH; [done|lia].
Qed.

Lemma replace_absent (pat by_ s : string) :
  occurs pat s = false -> replace pat by_ s = s.
Proof.
  induction s as [|c s IH]; cbn [occurs replace];
    intros [Hp Hrest]%orb_false_elim; rewrite Hp; [done|].
  f_equal. by apply IH.
Qed.

(** X13.  The stream URL takes its scheme from the endpoint: an endpoint
    that starts with [http] has that replaced by [ws] (so [https] gives
    [wss]), and an endpoint in which [http] does not occur is used as it
    is; either way [/ws/] and the session id follow. *)
Theorem ws_url_scheme rest endpoint sid :
  ws_url ("http" +:+ rest) sid = "ws" +:+ rest +:+ "/ws/" +:+ sid /\
  (occurs "http" endpoint = false ->
   ws_url endpoint sid = endpoint +:+ "/ws/" +:+ sid).
Proof.
  split.
  - unfold ws_url. simpl. rewrite substring_all by lia. simpl.
    by destruct rest.
  - intros Hfree. unfold ws_url. by rewrite replace_absent.
Qed.

End Creation.

(** ** Turns of the event loop, composed *)

Section Turns.
Context `{Runtime}.

Lemma world_eta w : mkWorld (plugin w) (pending w) (escaped w) = w.
Proof. by destruct w. Qed.

Lemma length_closed_connection o s :
  length (sockets (closed_connection o s)) = length (sockets s).
Proof.
  unfold closed_connection. destruct (websocket o); [|done].
  simpl. apply length_alter.
Qed.

Lemma lookup_last {A} (l : list A) (x : A) : (l ++ [x]) !! length l = Some x.
Proof. rewrite lookup_app_r by done. by rewrite Nat.sub_diag. Qed.

Lemma delete_last {A} (l : list A) (x : A) : delete (length l) (l ++ [x]) = l.
Proof. induction l as [|y l IH]; [done|]. simpl. f_equal. exact IH. Qed.

Lemma steps_cons w i w' rest :
  step w i = Some w' -> steps w (i :: rest) = steps w' rest.
Proof. intros Hs. simpl. by rewrite Hs. Qed.

Lemma steps_one w i w' : step w i = Some w' -> steps w [i] = Some w'.
Proof. intros Hs. simpl. by rewrite Hs. Qed.

(** X14.  A closed connection is replaced: when the socket of a
    registered chat closes and the timeout set by [onclose] fires, the
    session object holds a new socket, still connecting, for the same chat
    and session; nothing is left suspended, nothing escapes, and the
    timeout cannot fire a second time. *)
Theorem reconnect_replaces_connection w n k l o :
  sockets (plugin w) !! n = Some k ->
  readyState k <> CLOSED ->
  sessions (plugin w) !! ws_chatId k = Some l ->
  heap (plugin w) !! l = Some o ->
  WebSocket_accepts (ws_url (apiEndpoint (plugin w)) (ws_sessionId k)) = true ->
  exists w2,
    steps w [SocketClosed n; TimerFired (length (timers (plugin w)))] = Some w2 /\
    sockets (plugin w2) !! length (sockets (plugin w))
      = Some (mkSocket (ws_url (apiEndpoint (plugin w)) (ws_sessionId k))
                (ws_chatId k) (ws_sessionId k) CONNECTING) /\
    length (sockets (plugin w2)) = S (length (sockets (plugin w))) /\
    holds (plugin w2) l (length (sockets (plugin w))) /\
    sessions (plugin w2) = sessions (plugin w) /\
    pending w2 = pending w /\ escaped w2 = escaped w /\
    step w2 (TimerFired (length (timers (plugin w)))) = None.
Proof.
  intros Hn Hst Hc Hl Hacc.
  assert (Hclose : step w (SocketClosed n)
            = Some (mkWorld
                      (traced [SetTimeout (length (timers (plugin w))) 5000]
                         (upd_timers (fun ts => ts ++ [reconnect_timer (ws_chatId k) (ws_sessionId k)])
                            (traced [closed_log (ws_sessionId k)]
                               (upd_sockets (alter (set_readyState CLOSED) n) (plugin w)))))
                      (pending w) (escaped w))).
  { unfold step. rewrite Hn.
    unfold ws_onclose, mbind, M_bind, sessions_has, setTimeout. simpl.
    rewrite Hc. rewrite bool_decide_eq_true_2 by eauto. simpl.
    by destruct (readyState k). }
  set (s1 := upd_timers (alter set_fired (length (timers (plugin w))))
               (traced [SetTimeout (length (timers (plugin w))) 5000]
                  (upd_timers (fun ts => ts ++ [reconnect_timer (ws_chatId k) (ws_sessionId k)])
                     (traced [closed_log (ws_sessionId k)]
                        (upd_sockets (alter (set_readyState CLOSED) n) (plugin w)))))).
  exists (mkWorld (reconnected (ws_chatId k) (ws_sessionId k) l o s1) (pending w) (escaped w)).
  assert (Hlen : length (sockets (closed_connection o s1)) = length (sockets (plugin w))).
  { rewrite length_closed_connection. unfold s1. simpl. apply length_alter. }
  split; [|split; [|split; [|split; [|split; [|split; [|split]]]]]]; try done.
  - rewrite (steps_cons _ _ _ _ Hclose). apply steps_one.
    unfold step. cbn [plugin pending escaped].
    simpl timers. rewrite lookup_last. cbn [fired reconnect_timer t_chatId t_sessionId].
    fold s1. rewrite (connectWebSocket_run _ _ l o) by done.
    change (apiEndpoint s1) with (apiEndpoint (plugin w)). by rewrite Hacc.
  - unfold reconnected. simpl sockets. rewrite <- Hlen. apply lookup_last.
  - unfold reconnected. simpl sockets. rewrite length_app, Hlen. simpl. lia.
  - unfold holds, reconnected. simpl heap. rewrite Hlen.
    assert (Hh : heap (closed_connection o s1) = heap (plugin w)).
    { unfold closed_connection. by destruct (websocket o). }
    exists (mkSession (sessionId o) (Some (length (sockets (plugin w)))) (status o)).
    split; [|done].
    by rewrite list_lookup_alter, Hh, Hl, decide_True by done.
  - unfold reconnected. simpl. unfold closed_connection. by destruct (websocket o).
  - unfold step. simpl. 
    assert (Ht : timers (closed_connection o s1)
                 = alter set_fired (length (timers (plugin w)))
                     (timers (plugin w) ++ [reconnect_timer (ws_chatId k) (ws_sessionId k)])).
    { unfold closed_connection. by destruct (websocket o). }
    rewrite Ht. rewrite list_lookup_alter, lookup_last, decide_True by done.
    reflexivity.
Qed.

(** X15.  A reconnect is cancelled by deleting the chat: when the socket
    of a registered chat closes, the chat is deleted and the teardown
    request settles (either way) before the timeout fires, the timeout
    creates no socket; the chat is gone from the registry and nothing is
    left suspended. *)
Theorem reconnect_cancelled_by_deletion w n k l o rp :
  sockets (plugin w) !! n = Some k ->
  readyState k <> CLOSED ->
  sessions (plugin w) !! ws_chatId k = Some l ->
  heap (plugin w) !! l = Some o ->
  exists w4,
    steps w [SocketClosed n; ChatDelete (ws_chatId k);
             Settle (length (pending w)) rp;
             TimerFired (length (timers (plugin w)))] = Some w4 /\
    sessions (plugin w4) = delete (ws_chatId k) (sessions (plugin w)) /\
    length (sockets (plugin w4)) = length (sockets (plugin w)) /\
    pending w4 = pending w /\ escaped w4 = escaped w.
Proof.
  intros Hn Hst Hc Hl.
  set (s1 := traced [SetTimeout (length (timers (plugin w))) 5000]
               (upd_timers (fun ts => ts ++ [reconnect_timer (ws_chatId k) (ws_sessionId k)])
                  (traced [closed_log (ws_sessionId k)]
                     (upd_sockets (alter (set_readyState CLOSED) n) (plugin w))))).
  assert (Hclose : step w (SocketClosed n) = Some (mkWorld s1 (pending w) (escaped w))).
  { unfold step. rewrite Hn.
    unfold ws_onclose, mbind, M_bind, sessions_has, setTimeout. simpl.
    rewrite Hc. rewrite bool_decide_eq_true_2 by eauto. simpl.
    by destruct (readyState k). }
  destruct (cleanupSession_run s1 (ws_chatId k) l o Hc Hl) as (kd & Hrun & Hkd).
  assert (Hdelete : step (mkWorld s1 (pending w) (escaped w)) (ChatDelete (ws_chatId k))
            = Some (mkWorld
                      (traced [Issued (teardown_request (apiEndpoint s1) (sessionId o))]
                         (closed_connection o s1))
                      (pending w ++ [mkTask (teardown_request (apiEndpoint s1) (sessionId o)) kd])
                      (escaped w))).
  { unfold step. cbn [plugin pending escaped].
    unfold on_chat_delete, mbind, M_bind, sessions_has. simpl.
    rewrite bool_decide_eq_true_2 by eauto. simpl.
    fold s1. by rewrite Hrun. }
  set (s2 := traced [Issued (teardown_request (apiEndpoint s1) (sessionId o))]
               (closed_connection o s1)) in *.
  set (s3 := upd_sessions (delete (ws_chatId k))
               match rp with
               | Resolved _ => s2
               | Rejected e => traced [teardown_failed_log e] s2
               end).
  assert (Hsettle : step (mkWorld s2
                            (pending w ++ [mkTask (teardown_request (apiEndpoint s1) (sessionId o)) kd])
                            (escaped w))
                      (Settle (length (pending w)) rp)
                    = Some (mkWorld s3 (pending w) (escaped w))).
  { unfold step. cbn [plugin pending escaped]. rewrite lookup_last, delete_last.
    cbn [resume]. by rewrite Hkd. }
  assert (Hs3 : sessions s3 = delete (ws_chatId k) (sessions (plugin w))).
  { unfold s3, s2. destruct rp; simpl; unfold closed_connection; by destruct (websocket o). }
  assert (Ht3 : timers s3 = timers (plugin w) ++ [reconnect_timer (ws_chatId k) (ws_sessionId k)]).
  { unfold s3, s2. destruct rp; simpl; unfold closed_connection; by destruct (websocket o). }
  assert (Hk3 : length (sockets s3) = length (sockets (plugin w))).
  { unfold s3, s2. destruct rp; simpl; rewrite length_closed_connection; simpl;
      apply length_alter. }
  exists (mkWorld (upd_timers (alter set_fired (length (timers (plugin w)))) s3)
            (pending w) (escaped w)).
  split; [|by cbn [plugin pending escaped upd_timers sessions sockets]; rewrite Hs3, Hk3].
  rewrite (steps_cons _ _ _ _ Hclose), (steps_cons _ _ _ _ Hdelete),
    (steps_cons _ _ _ _ Hsettle).
  apply steps_one.
  unfold step. cbn [plugin pending escaped]. rewrite Ht3, lookup_last.
  cbn [fired reconnect_timer t_chatId t_sessionId].
  by rewrite connectWebSocket_unknown
    by (cbn [upd_timers sessions]; rewrite Hs3; apply lookup_delete_eq).
Qed.

End Turns.

(** ** The listeners of the host *)

Section HostEvents.
Context `{Runtime}.

Lemma on_message_send_registered chatId l message s :
  sessions s !! chatId = Some l ->
  on_message_send chatId message s
    = handleResearchQuery chatId message (traced [PreventDefault] s).
Proof.
  intros Hc. unfold on_message_send, mbind, M_bind, sessions_has. simpl.
  by rewrite Hc, bool_decide_eq_true_2 by eauto.
Qed.

(** An admitted query: the echo, then the request. *)
Lemma query_echo_then_request s chatId l o message :
  sessions s !! chatId = Some l ->
  heap s !! l = Some o ->
  status o <> processing ->
  exists k1,
    handleResearchQuery chatId message s
      = Suspended (user_echo chatId message)
          (traced [Issued (user_echo chatId message)] s) k1 /\
    forall v s1 o1, heap s1 !! l = Some o1 ->
      exists k2,
        k1 (Resolved v) s1
          = Suspended (query_request (apiEndpoint s1) (sessionId o1) message)
              (traced [Issued (query_request (apiEndpoint s1) (sessionId o1) message)] s1)
              k2.
Proof.
  intros Hc Hl Hst.
  unfold handleResearchQuery, mbind, M_bind, sessions_get, field. simpl.
  rewrite Hc. simpl. rewrite Hl. simpl.
  destruct (status o) eqn:Hso; [|done|]; simpl;
    (eexists; split; [reflexivity|]; intros v s1 o1 Hl1; simpl;
     unfold try_catch, this_apiEndpoint; simpl; rewrite Hl1; simpl;
     eexists; reflexivity).
Qed.

(** X16.  A message sent in a registered chat, in any world the event
    loop can reach, is taken from the host: the listener first calls
    [preventDefault] and then, in the same turn, issues exactly one UI
    call on which it suspends, the busy notice if the session is
    processing and the echo of the message otherwise. *)
Theorem message_send_intercepted w chatId l message :
  reachable w ->
  sessions (plugin w) !! chatId = Some l ->
  exists o k,
    heap (plugin w) !! l = Some o /\
    let c := if Status_eqb (status o) processing
             then busy_notice chatId else user_echo chatId message in
    step w (MessageSend chatId message)
      = Some (mkWorld (traced [Issued c] (traced [PreventDefault] (plugin w)))
                (pending w ++ [mkTask c k]) (escaped w)).
Proof.
  intros Hw Hc.
  destruct (reachable_registered w Hw) as [_ Hr].
  destruct (Hr chatId l Hc) as (o & Hl & _).
  exists o. unfold step. rewrite (on_message_send_registered _ l) by done.
  unfold handleResearchQuery, mbind, M_bind, sessions_get, field. simpl.
  rewrite Hc. simpl. rewrite Hl. simpl.
  destruct (Status_eqb (status o) processing); simpl; eexists; (split; [done|reflexivity]).
Qed.

(** X17.  Nothing is done for a chat that is not in the registry (it never
    was a research chat, or it was deleted): its messages and its deletion
    are left to the host, with no [preventDefault], no call and no state
    change, and a reconnect timeout that fires for it creates no socket
    and only marks the timeout as fired. *)
Theorem unregistered_chat_untouched w chatId :
  sessions (plugin w) !! chatId = None ->
  (forall message, step w (MessageSend chatId message) = Some w) /\
  step w (ChatDelete chatId) = Some w /\
  (forall t tm,
     timers (plugin w) !! t = Some tm -> t_chatId tm = chatId ->
     fired tm = false ->
     step w (TimerFired t)
       = Some (mkWorld (upd_timers (alter set_fired t) (plugin w))
                 (pending w) (escaped w))).
Proof.
  intros Hc. split; [|split].
  - intros message. unfold step. rewrite on_message_send_unknown by done.
    simpl. by rewrite world_eta.
  - unfold step. rewrite on_chat_delete_unknown by done.
    simpl. by rewrite world_eta.
  - intros t tm Ht <- Hf. unfold step. rewrite Ht, Hf.
    by rewrite connectWebSocket_unknown by done.
Qed.

(** X18.  The admission gate is closed only by the response to the query
    request, not by the submission: a second message sent while the
    request of the first is still in flight is admitted as well, so two
    query requests for the same session are in flight at once, and no
    session object has changed. *)
Theorem queries_overlap_in_flight w chatId l o m1 m2 v1 v2 :
  sessions (plugin w) !! chatId = Some l ->
  heap (plugin w) !! l = Some o ->
  status o <> processing ->
  exists w' k1 k2,
    steps w [MessageSend chatId m1; Settle (length (pending w)) (Resolved v1);
             MessageSend chatId m2; Settle (S (length (pending w))) (Resolved v2)]
      = Some w' /\
    pending w'
      = pending w
        ++ [mkTask (query_request (apiEndpoint (plugin w)) (sessionId o) m1) k1;
            mkTask (query_request (apiEndpoint (plugin w)) (sessionId o) m2) k2] /\
    requests (plugin w')
      = requests (plugin w)
        ++ [Issued (query_request (apiEndpoint (plugin w)) (sessionId o) m1);
            Issued (query_request (apiEndpoint (plugin w)) (sessionId o) m2)] /\
    heap (plugin w') = heap (plugin w) /\
    escaped w' = escaped w.
Proof.
  intros Hc Hl Hst.
  set (req m := query_request (apiEndpoint (plugin w)) (sessionId o) m).
  (* first message *)
  set (sA := traced [PreventDefault] (plugin w)).
  destruct (query_echo_then_request sA chatId l o m1 Hc Hl Hst) as (ka & Hqa & Hka).
  set (sA' := traced [Issued (user_echo chatId m1)] sA).
  destruct (Hka v1 sA' o Hl) as (ka' & Hka').
  change (query_request (apiEndpoint sA') (sessionId o) m1) with (req m1) in Hka'.
  set (w1 := mkWorld sA' (pending w ++ [mkTask (user_echo chatId m1) ka]) (escaped w)).
  assert (H1 : step w (MessageSend chatId m1) = Some w1).
  { unfold step. rewrite (on_message_send_registered _ l) by done.
    fold sA. by rewrite Hqa. }
  set (s2 := traced [Issued (req m1)] sA').
  set (w2 := mkWorld s2 (pending w ++ [mkTask (req m1) ka']) (escaped w)).
  assert (H2 : step w1 (Settle (length (pending w)) (Resolved v1)) = Some w2).
  { unfold step, w1. cbn [plugin pending escaped]. rewrite lookup_last, delete_last.
    cbn [resume]. by rewrite Hka'. }
  (* second message *)
  set (sB := traced [PreventDefault] s2).
  destruct (query_echo_then_request sB chatId l o m2 Hc Hl Hst) as (kb & Hqb & Hkb).
  set (sB' := traced [Issued (user_echo chatId m2)] sB).
  destruct (Hkb v2 sB' o Hl) as (kb' & Hkb').
  change (query_request (apiEndpoint sB') (sessionId o) m2) with (req m2) in Hkb'.
  set (w3 := mkWorld sB' ((pending w ++ [mkTask (req m1) ka'])
                           ++ [mkTask (user_echo chatId m2) kb]) (escaped w)).
  assert (H3 : step w2 (MessageSend chatId m2) = Some w3).
  { unfold step, w2. cbn [plugin pending escaped].
    rewrite (on_message_send_registered _ l) by done.
    fold sB. by rewrite Hqb. }
  set (s4 := traced [Issued (req m2)] sB').
  set (w4 := mkWorld s4 ((pending w ++ [mkTask (req m1) ka']) ++ [mkTask (req m2) kb'])
               (escaped w)).
  assert (H4 : step w3 (Settle (S (length (pending w))) (Resolved v2)) = Some w4).
  { unfold step, w3. cbn [plugin pending escaped].
    replace (S (length (pending w)))
      with (length (pending w ++ [mkTask (req m1) ka']))
      by (rewrite length_app; simpl; lia).
    rewrite lookup_last, delete_last. cbn [resume]. by rewrite Hkb'. }
  exists w4, ka', kb'. split; [|split; [|split; [|done]]].
  - rewrite (steps_cons _ _ _ _ H1), (steps_cons _ _ _ _ H2), (steps_cons _ _ _ _ H3).
    by apply steps_one.
  - simpl. by rewrite <- app_assoc.
  - unfold w4, s4, sB', sB, s2, sA', sA. cbn [plugin].
    rewrite !requests_traced. simpl. rewrite !app_nil_r, <- app_assoc. done.
Qed.

(** X19.  When the WebSocket constructor refuses the stream URL,
    [createResearchChat] has already registered the session: the
    exception is caught, logged, and the initialisation error is shown,
    but the chat stays in the registry with a session object that has no
    connection, and no socket exists for it. *)
Theorem chat_created_without_stream now s chatId :
  exists k1,
    createResearchChat now s
      = Suspended (create_chat now) (traced [Issued (create_chat now)] s) k1 /\
    forall s1, exists k2,
      k1 (Resolved (VStr chatId)) s1
        = Suspended (provision_request (apiEndpoint s1) now)
            (traced [Issued (provision_request (apiEndpoint s1) now)] s1) k2 /\
      forall response s2,
        WebSocket_accepts (ws_url (apiEndpoint s2) (session_id_at now)) = false ->
        exists s3 k3,
          k2 (Resolved response) s2
            = Suspended (creation_failed_notice chatId)
                (traced [Issued (creation_failed_notice chatId)]
                   (traced [creation_failed_log SyntaxError] s3)) k3 /\
          sessions s3 = <[chatId := length (heap s2)]> (sessions s2) /\
          heap s3 = heap s2 ++ [mkSession (session_id_at now) None idle] /\
          sockets s3 = sockets s2 /\
          trace s3 = trace s2 /\
          (forall rp s4, k3 rp s4
             = match rp with
               | Resolved _ => Done (VStr chatId) s4
               | Rejected e => Failed e s4
               end).
Proof.
  unfold createResearchChat, await_chat_id, mbind, M_bind. simpl.
  eexists. split; [reflexivity|]. intros s1. simpl.
  eexists. split; [reflexivity|]. intros response s2 Hacc. simpl.
  erewrite (connectWebSocket_run chatId _ (length (heap s2))
              (mkSession (session_id_at now) None idle));
    [|simpl; apply lookup_insert_eq
     |simpl; rewrite lookup_app_r by done; by rewrite Nat.sub_diag].
  simpl. fold (session_id_at now). rewrite Hacc. simpl.
  eexists _, _. split; [reflexivity|]. simpl.
  repeat (split; [done|]). by intros [v|e] s4.
Qed.

End HostEvents.

(** ** Stream URLs *)

Section Wiring.
Context `{Runtime}.
Variable endpoint : string.

Lemma wired_trace f s : wired endpoint s -> wired endpoint (upd_trace f s).
Proof. done. Qed.

Lemma wired_same s s' :
  apiEndpoint s' = apiEndpoint s -> sockets s' = sockets s ->
  wired endpoint s -> wired endpoint s'.
Proof. intros Hep Hk [? ?]. split; [congruence|]. by rewrite Hk. Qed.

(** Changing the state of a socket keeps its URL and its session. *)
Lemma wired_alter (f : Socket -> Socket) n s :
  (forall k, url (f k) = url k /\ ws_sessionId (f k) = ws_sessionId k) ->
  wired endpoint s -> wired endpoint (upd_sockets (alter f n) s).
Proof.
  intros Hf [Hep Hk]. split; [done|]. intros m k. simpl.
  destruct (decide (m = n)) as [->|Hne].
  - rewrite list_lookup_alter_eq. destruct (sockets s !! n) as [k0|] eqn:Hn; [|done].
    intros [= <-]. destruct (Hf k0) as [-> ->]. by apply (Hk n).
  - rewrite list_lookup_alter_ne by done. apply Hk.
Qed.

#[local] Instance wired_discipline :
  Discipline (keeping (wired endpoint)) (keeps (wired endpoint)) :=
  keeps_discipline (wired endpoint) wired_trace.

Lemma wired_sessions_set chatId o :
  quiet (keeping (wired endpoint)) (keeps (wired endpoint)) (sessions_set chatId o).
Proof. apply (quiet_update (fun _ => tt)). intros s. unfold keeps. by apply wired_same. Qed.

Lemma wired_sessions_delete chatId :
  quiet (keeping (wired endpoint)) (keeps (wired endpoint)) (sessions_delete chatId).
Proof. apply (quiet_update (fun _ => tt)). intros s. unfold keeps. by apply wired_same. Qed.

Lemma wired_set_status l st :
  quiet (keeping (wired endpoint)) (keeps (wired endpoint)) (set_status l st).
Proof. apply (quiet_update (fun _ => tt)). intros s. unfold keeps. by apply wired_same. Qed.

Lemma wired_set_websocket l w :
  quiet (keeping (wired endpoint)) (keeps (wired endpoint)) (set_websocket l w).
Proof. apply (quiet_update (fun _ => tt)). intros s. unfold keeps. by apply wired_same. Qed.

Lemma wired_ws_close w :
  quiet (keeping (wired endpoint)) (keeps (wired endpoint)) (ws_close w).
Proof.
  apply (quiet_update (fun _ => tt)). intros s. unfold keeps. intros Hs.
  apply wired_trace. by apply wired_alter.
Qed.

Lemma wired_setTimeout ms chatId sid :
  quiet (keeping (wired endpoint)) (keeps (wired endpoint)) (setTimeout ms chatId sid).
Proof. apply (quiet_update (fun _ => tt)). intros s. unfold keeps. by apply wired_same. Qed.

(** The URL is made from the endpoint when the socket is constructed. *)
Lemma wired_connectWebSocket chatId sid :
  quiet (keeping (wired endpoint)) (keeps (wired endpoint)) (connectWebSocket chatId sid).
Proof.
  intros s. destruct (sessions s !! chatId) as [l|] eqn:Hc.
  - destruct (heap s !! l) as [o|] eqn:Hl.
    + assert (Hclosed : wired endpoint s -> wired endpoint (closed_connection o s)).
      { unfold closed_connection. destruct (websocket o); [|done].
        intros Hs. apply wired_trace. by apply wired_alter. }
      rewrite (connectWebSocket_run chatId sid l o) by done.
      destruct (WebSocket_accepts _).
      * apply follows_done. unfold keeps. intros Hs.
        destruct (Hclosed Hs) as [Hep Hk]. destruct Hs as [Hep0 _].
        split; [done|]. intros n k. unfold reconnected. simpl.
        intros [Hn|[_ Hn]]%lookup_app_Some; [by apply (Hk n)|].
        destruct (n - _); simpl in Hn; [|done].
        injection Hn as <-. simpl. by rewrite Hep0.
      * apply follows_failed. exact Hclosed.
    + unfold connectWebSocket, mbind, M_bind, sessions_get, field. simpl.
      rewrite Hc. simpl. rewrite Hl. simpl. apply follows_failed. by intros ?.
  - rewrite connectWebSocket_unknown by done. apply follows_done. by intros ?.
Qed.

#[local] Hint Resolve wired_sessions_set wired_sessions_delete wired_set_status
  wired_set_websocket wired_ws_close wired_setTimeout wired_connectWebSocket : quiet.

Lemma steps_wired w inputs w' :
  wired endpoint (plugin w) ->
  tasks_follow (keeping (wired endpoint)) (pending w) ->
  steps w inputs = Some w' ->
  wired endpoint (plugin w').
Proof.
  intros Hw Hts Hsteps.
  eapply (steps_invariant (wired endpoint) wired_trace); [..|done|done|done].
  - intros n k s _ _. by apply wired_alter.
  - intros n s. by apply wired_alter.
  - intros t s. by apply wired_same.
  - intros now. unfold createResearchChat, await_chat_id. quiet_tac.
  - intros chatId message. unfold on_message_send, handleResearchQuery. quiet_tac.
  - intros chatId. unfold on_chat_delete, cleanupSession. quiet_tac.
  - intros chatId data. unfold handleWebSocketMessage. quiet_tac.
  - apply wired_connectWebSocket.
  - intros chatId sid. unfold ws_onclose. quiet_tac.
Qed.

End Wiring.

Section WiringTheorem.
Context `{Runtime}.

(** X20.  The endpoint is fixed when the plugin is constructed: no turn
    of the event loop changes it, and every socket the plugin has ever
    created, whether at creation of a chat or by a reconnect, has the URL
    made of that endpoint (with [http] replaced by [ws]), [/ws/] and the
    session id the socket was created for. *)
Theorem sockets_wired_to_endpoint config inputs w :
  steps (boot config) inputs = Some w ->
  apiEndpoint (plugin w) = apiEndpoint (constructor config) /\
  forall n k, sockets (plugin w) !! n = Some k ->
    url k = ws_url (apiEndpoint (constructor config)) (ws_sessionId k).
Proof.
  intros Hsteps.
  eapply (steps_wired _ (boot config)); [| |done].
  - split; [done|]. intros n k. simpl. by rewrite lookup_nil.
  - intros t Ht. simpl in Ht. by apply elem_of_nil in Ht.
Qed.

End WiringTheorem.

(** ** C1 on concrete runs *)

Import Sample Runs.

Lemma status_changes_have_cause_witness :
  reachable (after chat_opened) /\
  step (after chat_opened) (SocketMessage 0 frame_start)
    = steps (boot None) (chat_opened ++ [SocketMessage 0 frame_start]) /\
  status_at (plugin (after chat_opened)) 0 = Some idle /\
  status_at (plugin (after (chat_opened ++ [SocketMessage 0 frame_start]))) 0
    = Some processing /\
  cause (after chat_opened) (SocketMessage 0 frame_start) 0 processing.
Proof.
  assert (Hr : reachable (after chat_opened)).
  { exists None, chat_opened. vm_compute. reflexivity. }
  assert (Hs : step (after chat_opened) (SocketMessage 0 frame_start)
               = Some (after (chat_opened ++ [SocketMessage 0 frame_start]))).
  { vm_compute. reflexivity. }
  split; [exact Hr|]. split; [vm_compute; reflexivity|].
  split; [reflexivity|]. split; [reflexivity|].
  exact (status_changes_have_cause _ _ _ 0 idle processing Hr Hs eq_refl eq_refl
           ltac:(discriminate)).
Defined.

(** C1 as stated fails: while a query is in flight the status is
    [processing]; a [research_error] event then sets it to [error], which
    is neither of the two transitions of the specification. *)
Lemma status_machine_counterexample :
  status_at (plugin (after query_accepted)) 0 = Some processing /\
  step (after query_accepted) (SocketMessage 0 frame_error)
    = steps (boot None) (query_accepted ++ [SocketMessage 0 frame_error]) /\
  status_at (plugin (after (query_accepted ++ [SocketMessage 0 frame_error]))) 0
    = Some error /\
  ~ spec_status_machine.
Proof.
  assert (Hs : step (after query_accepted) (SocketMessage 0 frame_error)
               = Some (after (query_accepted ++ [SocketMessage 0 frame_error]))).
  { vm_compute. reflexivity. }
  split; [reflexivity|]. split; [vm_compute; reflexivity|].
  split; [reflexivity|].
  intros Hspec.
  assert (Hr : reachable (after query_accepted)).
  { exists None, query_accepted. vm_compute. reflexivity. }
  destruct (Hspec _ _ _ 0 processing error Hr Hs eq_refl eq_refl ltac:(discriminate))
    as [[? _]|[_ ?]]; discriminate.
Qed.

(** ** C3 on a concrete run *)

Lemma busy_query_rejected_witness :
  sessions (plugin (after query_accepted)) !! "c1" = Some 0 /\
  heap (plugin (after query_accepted)) !! 0
    = Some (mkSession "research-1700000000000" (Some 0) processing) /\
  exists s' k,
    handleResearchQuery "c1" (VStr "And Lean?") (plugin (after query_accepted))
      = Suspended (busy_notice "c1") s' k /\
    s' = traced [Issued (busy_notice "c1")] (plugin (after query_accepted)) /\
    sessions s' = sessions (plugin (after query_accepted)) /\
    heap s' = heap (plugin (after query_accepted)) /\
    requests s' = requests (plugin (after query_accepted)) /\
    settles k.
Proof.
  split; [reflexivity|]. split; [reflexivity|].
  exact (busy_query_rejected (plugin (after query_accepted)) "c1" 0 _ (VStr "And Lean?")
           eq_refl eq_refl eq_refl).
Defined.

(** ** C2 on a concrete run *)

Lemma malformed_frame_discarded_witness :
  sockets (plugin (after chat_opened)) !! 0 = Some (socket_c1 OPEN) /\
  JSON_parse frame_garbage = None /\
  let w' := mkWorld (plugin (after chat_opened)) (pending (after chat_opened))
              (escaped (after chat_opened) ++ [SyntaxError]) in
  step (after chat_opened) (SocketMessage 0 frame_garbage) = Some w' /\
  forall frame' data,
    JSON_parse frame' = Some data ->
    step w' (SocketMessage 0 frame')
      = Some (absorb (handleWebSocketMessage "c1" data (plugin (after chat_opened)))
                (pending (after chat_opened)) (escaped w')).
Proof.
  split; [reflexivity|]. split; [reflexivity|].
  exact (malformed_frame_discarded (after chat_opened) 0 (socket_c1 OPEN) frame_garbage
           eq_refl eq_refl eq_refl).
Defined.

(** ** C4 on concrete runs *)

Lemma query_admission_witness :
  sessions (plugin (after chat_opened)) !! "c1" = Some 0 /\
  heap (plugin (after chat_opened)) !! 0 = Some (session_c1 idle) /\
  status (session_c1 idle) <> processing /\
  exists k1,
    handleResearchQuery "c1" (VStr "What is Rocq?") (plugin (after chat_opened))
      = Suspended (user_echo "c1" (VStr "What is Rocq?"))
          (traced [Issued (user_echo "c1" (VStr "What is Rocq?"))]
             (plugin (after chat_opened))) k1.
Proof.
  split; [reflexivity|]. split; [reflexivity|]. split; [discriminate|].
  destruct (query_admission (plugin (after chat_opened)) "c1" 0 (session_c1 idle)
              (VStr "What is Rocq?") eq_refl eq_refl ltac:(discriminate))
    as (k1 & Hk1 & _).
  exists k1. exact Hk1.
Defined.

(** C4 as stated fails.  After a failed research the status is [error];
    the next query is admitted, its request is rejected, and the status is
    still [error], not [idle].  Nothing is reverted, because nothing was
    written: while the request of an admitted query is in flight the
    status is still what it was ([idle] in the first run below), not
    [processing]. *)
Lemma failed_query_counterexample :
  run (handleResearchQuery "c1" (VStr "What is Rocq?") (plugin (after chat_opened)))
    [Resolved VUndefined]
    = Awaiting
        (query_request "http://localhost:8000" "research-1700000000000"
           (VStr "What is Rocq?"))
        (traced [Issued (query_request "http://localhost:8000" "research-1700000000000"
                           (VStr "What is Rocq?"))]
           (traced [Issued (user_echo "c1" (VStr "What is Rocq?"))]
              (plugin (after chat_opened)))) /\
  heap (plugin (after chat_opened)) !! 0 = Some (session_c1 idle) /\
  heap (plugin (after research_failed)) !! 0 = Some (session_c1 error) /\
  status_at
    (store_of (run (handleResearchQuery "c1" (VStr "Again?") (plugin (after research_failed)))
                 [Resolved VUndefined; Rejected network_error; Resolved VUndefined])) 0
    = Some error /\
  ~ spec_failed_query_idle.
Proof.
  split; [vm_compute; reflexivity|].
  split; [reflexivity|]. split; [reflexivity|]. split; [reflexivity|].
  intros Hspec.
  assert (Hr : reachable (after research_failed)).
  { exists None, research_failed. vm_compute. reflexivity. }
  specialize (Hspec (after research_failed) "c1" 0 (session_c1 error) (VStr "Again?")
                VUndefined network_error VUndefined Hr eq_refl eq_refl ltac:(discriminate)).
  vm_compute in Hspec. discriminate.
Qed.

(** ** C5 on a concrete run *)

Lemma close_schedules_reconnect_witness :
  sockets (plugin (after chat_opened)) !! 0 = Some (socket_c1 OPEN) /\
  readyState (socket_c1 OPEN) <> CLOSED /\
  exists w',
    step (after chat_opened) (SocketClosed 0) = Some w' /\
    timers (plugin w') = [reconnect_timer "c1" "research-1700000000000"].
Proof.
  split; [reflexivity|]. split; [discriminate|].
  destruct (close_schedules_reconnect (after chat_opened) 0 (socket_c1 OPEN)
              eq_refl ltac:(discriminate))
    as (w' & Hstep & _ & _ & _ & Hthere & _).
  exists w'. split; [exact Hstep|].
  exact (proj1 (Hthere (ex_intro _ 0 eq_refl))).
Defined.

(** ** C6 on a concrete run *)

Lemma replacing_closes_prior_connection_witness :
  reachable (after chat_opened) /\
  WebSocket_accepts (ws_url "http://localhost:8000" "research-1700000000000") = true /\
  exists s',
    connectWebSocket "c1" "research-1700000000000" (plugin (after chat_opened))
      = Done tt s' /\
    trace s' = trace (plugin (after chat_opened))
               ++ [SocketClose 0;
                   SocketNew 1 (ws_url "http://localhost:8000" "research-1700000000000")] /\
    (forall k, sockets s' !! 0 = Some k -> live k = false) /\
    sockets s' !! 1 = Some (socket_c1 CONNECTING) /\
    holds s' 0 1 /\
    one_listener s'.
Proof.
  assert (Hr : reachable (after chat_opened)).
  { exists None, chat_opened. vm_compute. reflexivity. }
  split; [exact Hr|]. split; [reflexivity|].
  exact (proj2 (replacing_closes_prior_connection (after chat_opened) Hr)
           "c1" "research-1700000000000" 0 (session_c1 idle) 0
           eq_refl eq_refl eq_refl eq_refl).
Defined.

(** ** C7 on a concrete run *)


(** ** C8 on a concrete run: 1.234 is shown as 1.23s *)

Lemma research_complete_applied_witness :
  sessions (plugin (after query_accepted)) !! "c1" = Some 0 /\
  heap (plugin (after query_accepted)) !! 0 = Some (session_c1 processing) /\
  JSON_parse frame_complete = Some complete_payload /\
  let final := final_message "c1" (VStr "Answer.") (VStr "m") (VStr "p") "1.23s" in
  exists s1 k1,
    handleWebSocketMessage "c1" complete_payload (plugin (after query_accepted))
      = Suspended (status_update "c1" "idle") s1 k1 /\
    s1 = traced [Issued (status_update "c1" "idle")]
           (write_status 0 idle (plugin (after query_accepted))) /\
    status_at s1 0 = Some idle /\
    (forall v s2, exists k2,
       k1 (Resolved v) s2 = Suspended final (traced [Issued final] s2) k2 /\
       settles k2) /\
    (fixed_point_range d1_234 -> two_decimals (toFixed 2 d1_234)).
Proof.
  split; [reflexivity|]. split; [reflexivity|]. split; [reflexivity|].
  assert (Hfix : toFixed 2 d1_234 +:+ "s" = "1.23s") by (vm_compute; reflexivity).
  rewrite <- Hfix.
  exact (research_complete_applied (plugin (after query_accepted)) "c1" 0
           (session_c1 processing) complete_payload
           (VObj [("response",
              VObj [("result", VStr "Answer."); ("model", VStr "m");
                    ("provider", VStr "p"); ("process_time", VNum d1_234)])])
           (VObj [("result", VStr "Answer."); ("model", VStr "m");
                  ("provider", VStr "p"); ("process_time", VNum d1_234)])
           (VStr "Answer.") (VStr "m") (VStr "p") d1_234
           eq_refl eq_refl eq_refl eq_refl eq_refl eq_refl eq_refl eq_refl eq_refl eq_refl).
Defined.

(** ** C9 on a concrete run *)

Lemma terminal_event_without_payload_throws_witness :
  sessions (plugin (after query_accepted)) !! "c1" = Some 0 /\
  JSON_parse frame_complete_bare = Some (VObj [("event", VStr "research_complete")]) /\
  get (VObj [("event", VStr "research_complete")]) "data" = Normal VUndefined /\
  nullish VUndefined /\
  exists k1,
    handleWebSocketMessage "c1" (VObj [("event", VStr "research_complete")])
      (plugin (after query_accepted))
      = Suspended (status_update "c1" "idle")
          (traced [Issued (status_update "c1" "idle")]
             (write_status 0 idle (plugin (after query_accepted)))) k1 /\
    forall rp s2,
      k1 rp s2 = Failed match rp with Resolved _ => TypeError | Rejected e => e end s2.
Proof.
  split; [reflexivity|]. split; [reflexivity|]. split; [reflexivity|].
  split; [by left|].
  exact (proj1 (terminal_event_without_payload_throws (plugin (after query_accepted))
                  "c1" 0 (VObj [("event", VStr "research_complete")]) VUndefined VUndefined
                  eq_refl eq_refl (or_introl eq_refl))
           eq_refl eq_refl).
Defined.

(** ** Further runs *)

(** A [research_start] event makes the session processing and shows the
    placeholder message. *)
Example started_shows_placeholder :
  let w := after (chat_opened ++
                  [SocketMessage 0 frame_start; Settle 0 (Resolved VUndefined)]) in
  status_at (plugin w) 0 = Some processing /\
  map waiting (pending w)
    = [Webui "addAssistantMessage"
         (VObj [("chatId", VStr "c1"); ("content", VStr "Researching...");
                ("metadata", VObj [("model", VStr "DeepSeek-R1");
                                   ("provider", VStr "Groq/Ollama")])])].
Proof. vm_compute. split; reflexivity. Qed.

(** A rejected teardown request is logged and the registry entry is
    removed all the same; the socket is closing. *)
Example deleted_offline_is_removed :
  sessions (plugin (after deleted_offline)) !! "c1" = None /\
  sockets (plugin (after deleted_offline)) !! 0 = Some (socket_c1 CLOSING) /\
  last (trace (plugin (after deleted_offline)))
    = Some (teardown_failed_log network_error) /\
  escaped (after deleted_offline) = [].
Proof. vm_compute. repeat split; reflexivity. Qed.

(** A rejected provisioning request leaves no session and no socket
    behind. *)
Example provisioning_unreachable_degrades :
  sessions (plugin (after provisioning_unreachable)) !! "c1" = None /\
  sockets (plugin (after provisioning_unreachable)) = [] /\
  last (trace (plugin (after provisioning_unreachable)))
    = Some (Issued (creation_failed_notice "c1")).
Proof. vm_compute. repeat split; reflexivity. Qed.

(** [toFixed(2)] rounds the double it is given: the double nearest to
    1.005 lies below it, and a tie goes up. *)
Example toFixed_examples :
  toFixed 2 d1_234 = "1.23" /\
  toFixed 2 (S754_finite false 4526117625507348 (-52)) = "1.00" /\
  toFixed 2 (S754_finite false 1 (-3)) = "0.13" /\
  toFixed 2 (S754_finite true 5 (-1)) = "-2.50" /\
  toFixed 2 (S754_zero true) = "0.00".
Proof. vm_compute. repeat split; reflexivity. Qed.

(** ** A rejected provisioning request on a concrete run *)

Lemma provisioning_failure_leaves_no_session_witness :
  let now := 1700000000000%Z in
  let s := plugin (boot None) in
  let s1 := traced [Issued (create_chat now)] s in
  let s2 := traced [Issued (provision_request (apiEndpoint s1) now)] s1 in
  sessions (plugin (after provisioning_unreachable)) !! "c1" = None /\
  (exists k1 k2 k3,
     createResearchChat now s = Suspended (create_chat now) s1 k1 /\
     k1 (Resolved (VStr "c1")) s1
       = Suspended (provision_request (apiEndpoint s1) now) s2 k2 /\
     k2 (Rejected network_error) s2
       = Suspended (creation_failed_notice "c1")
           (traced [Issued (creation_failed_notice "c1")]
              (traced [creation_failed_log network_error] s2)) k3 /\
     forall v s3, k3 (Resolved v) s3 = Done (VStr "c1") s3) /\
  (forall message,
     on_message_send "c1" message (plugin (after provisioning_unreachable))
       = Done tt (plugin (after provisioning_unreachable))) /\
  (forall data,
     handleWebSocketMessage "c1" data (plugin (after provisioning_unreachable))
       = Done tt (plugin (after provisioning_unreachable))) /\
  on_chat_delete "c1" (plugin (after provisioning_unreachable))
    = Done tt (plugin (after provisioning_unreachable)) /\
  (forall sid,
     connectWebSocket "c1" sid (plugin (after provisioning_unreachable))
       = Done tt (plugin (after provisioning_unreachable))).
Proof.
  intros now s s1 s2.
  destruct (provisioning_failure_leaves_no_session now s "c1")
    as [(k1 & Hrun & Hk1) Hgone].
  destruct (Hk1 s1) as (k2 & Hprov & Hk2).
  destruct (Hk2 network_error s2) as (k3 & Hfail & Hk3).
  split; [reflexivity|]. split.
  - exists k1, k2, k3. split; [exact Hrun|]. split; [exact Hprov|].
    split; [exact Hfail|]. intros v s3. exact (Hk3 (Resolved v) s3).
  - exact (Hgone (plugin (after provisioning_unreachable)) eq_refl).
Defined.

(** ** C10 on a concrete run: the backend refuses the provisioning request *)

(** C10.  The backend answers the provisioning request of chat [c1] with
    status 500, so provisioning has failed.  [createResearchChat] does not
    look at the response (as [handleResearchQuery] does, with
    [response.ok]): it issues the two requests, creates the socket and
    shows the welcome message, never the error notice; the chat is in the
    registry with an idle session that holds the connecting socket, and a
    message then sent in the chat is intercepted and echoed as in any
    research chat. *)
Theorem provisioning_refused_registers_session :
  let now := 1700000000000%Z in
  let question := VStr "What is Rocq?" in
  let w := after provisioning_refused in
  let w' := after (provisioning_refused ++ [MessageSend "c1" question]) in
  get response_500 "ok" = Normal (VBool false) /\
  steps (boot None) (provisioning_refused ++ [MessageSend "c1" question]) = Some w' /\
  trace (plugin w)
    = [Issued (create_chat now);
       Issued (provision_request "http://localhost:8000" now);
       SocketNew 0 "ws://localhost:8000/ws/research-1700000000000";
       Issued (welcome_message "c1")] /\
  sessions (plugin w) !! "c1" = Some 0 /\
  heap (plugin w) !! 0 = Some (session_c1 idle) /\
  sockets (plugin w) !! 0 = Some (socket_c1 CONNECTING) /\
  trace (plugin w')
    = trace (plugin w) ++ [PreventDefault; Issued (user_echo "c1" question)] /\
  map waiting (pending w') = [user_echo "c1" question].
Proof. vm_compute. repeat split; reflexivity. Qed.

(** The WebSocket constructor of the sample runtime accepts every stream
    URL of the default endpoint, so the sessions of the runs above all
    have a connection. *)
Example default_endpoint_accepted :
  accepts_all (apiEndpoint (plugin (boot None))).
Proof. intros sid. reflexivity. Qed.

(** ** The further properties on concrete inputs *)

Import Payloads.

Lemma unknown_event_ignored_witness :
  get ping_payload "event" = Normal (VStr "ping") /\
  (forall kind, kind ∈ event_kinds -> VStr "ping" <> VStr kind) /\
  handleWebSocketMessage "c1" ping_payload (plugin (after chat_opened))
    = Done tt (plugin (after chat_opened)).
Proof.
  assert (Hkinds : forall kind, kind ∈ event_kinds -> VStr "ping" <> VStr kind).
  { intros kind Hin [= <-]. unfold event_kinds in Hin.
    repeat (apply elem_of_cons in Hin as [Hin|Hin]; [discriminate|]).
    by apply elem_of_nil in Hin. }
  split; [reflexivity|]. split; [exact Hkinds|].
  exact (unknown_event_ignored (plugin (after chat_opened)) "c1" ping_payload
           (VStr "ping") eq_refl Hkinds).
Defined.

Lemma token_appended_witness :
  sessions (plugin (after chat_opened)) !! "c1" = Some 0 /\
  get token_payload "event" = Normal (VStr "token") /\
  exists d token k,
    get token_payload "data" = Normal d /\
    get (or_else d (VObj [])) "token" = Normal token /\
    handleWebSocketMessage "c1" token_payload (plugin (after chat_opened))
      = Suspended (token_append "c1" token)
          (traced [Issued (token_append "c1" token)] (plugin (after chat_opened))) k /\
    settles k.
Proof.
  split; [reflexivity|]. split; [reflexivity|].
  exact (token_appended (plugin (after chat_opened)) "c1" 0 token_payload
           eq_refl eq_refl).
Defined.

Lemma research_start_applied_witness :
  sessions (plugin (after chat_opened)) !! "c1" = Some 0 /\
  get start_payload "event" = Normal (VStr "research_start") /\
  exists k1,
    handleWebSocketMessage "c1" start_payload (plugin (after chat_opened))
      = Suspended (status_update "c1" "typing")
          (traced [Issued (status_update "c1" "typing")]
             (write_status 0 processing (plugin (after chat_opened)))) k1 /\
    (forall v s2, exists k2,
       k1 (Resolved v) s2
         = Suspended (placeholder_message "c1")
             (traced [Issued (placeholder_message "c1")] s2) k2 /\
       settles k2) /\
    (forall e s2, k1 (Rejected e) s2 = Failed e s2).
Proof.
  split; [reflexivity|]. split; [reflexivity|].
  exact (research_start_applied (plugin (after chat_opened)) "c1" 0 start_payload
           eq_refl eq_refl).
Defined.

Lemma tool_events_shown_witness :
  sessions (plugin (after query_accepted)) !! "c1" = Some 0 /\
  (exists k,
     handleWebSocketMessage "c1" tool_start_payload (plugin (after query_accepted))
       = Suspended
           (thinking_message "c1" ("Using tool: search" +:+ String "010" "Input: rocq"))
           (traced [Issued (thinking_message "c1"
                              ("Using tool: search" +:+ String "010" "Input: rocq"))]
              (plugin (after query_accepted))) k /\
     settles k) /\
  (exists k,
     handleWebSocketMessage "c1" tool_end_payload (plugin (after query_accepted))
       = Suspended (thinking_message "c1" "Tool result: 3 results")
           (traced [Issued (thinking_message "c1" "Tool result: 3 results")]
              (plugin (after query_accepted))) k /\
     settles k).
Proof.
  split; [reflexivity|]. split.
  - exact (proj1 (tool_events_shown (plugin (after query_accepted)) "c1" 0
                    tool_start_payload
                    (VObj [("tool", VStr "search"); ("input", VStr "rocq")])
                    eq_refl eq_refl)
             (VStr "search") (VStr "rocq") "search" "rocq"
             eq_refl eq_refl eq_refl eq_refl eq_refl).
  - exact (proj2 (tool_events_shown (plugin (after query_accepted)) "c1" 0
                    tool_end_payload (VObj [("output", VStr "3 results")])
                    eq_refl eq_refl)
             (VStr "3 results") "3 results" eq_refl eq_refl eq_refl).
Defined.

Lemma research_error_applied_witness :
  sessions (plugin (after query_accepted)) !! "c1" = Some 0 /\
  heap (plugin (after query_accepted)) !! 0 = Some (session_c1 processing) /\
  exists s1 k1,
    handleWebSocketMessage "c1" error_payload (plugin (after query_accepted))
      = Suspended (status_update "c1" "idle") s1 k1 /\
    s1 = traced [Issued (status_update "c1" "idle")]
           (write_status 0 error (plugin (after query_accepted))) /\
    status_at s1 0 = Some error /\
    forall v s2, exists k2,
      k1 (Resolved v) s2
        = Suspended (error_message "c1" "boom")
            (traced [Issued (error_message "c1" "boom")] s2) k2 /\
      settles k2.
Proof.
  split; [reflexivity|]. split; [reflexivity|].
  exact (research_error_applied (plugin (after query_accepted)) "c1" 0
           (session_c1 processing) error_payload
           (VObj [("error", VObj [("error", VStr "boom")])])
           (VObj [("error", VStr "boom")]) (VStr "boom") "boom"
           eq_refl eq_refl eq_refl eq_refl eq_refl eq_refl eq_refl).
Defined.

Lemma process_time_must_be_number_witness :
  sessions (plugin (after query_accepted)) !! "c1" = Some 0 /\
  (forall x, VStr "1.2" <> VNum x) /\
  exists k1,
    handleWebSocketMessage "c1" complete_payload_text_time (plugin (after query_accepted))
      = Suspended (status_update "c1" "idle")
          (traced [Issued (status_update "c1" "idle")]
             (write_status 0 idle (plugin (after query_accepted)))) k1 /\
    forall v s2, k1 (Resolved v) s2 = Failed TypeError s2.
Proof.
  split; [reflexivity|]. split; [discriminate|].
  exact (process_time_must_be_number (plugin (after query_accepted)) "c1" 0
           complete_payload_text_time
           (VObj [("response",
              VObj [("result", VStr "Answer."); ("process_time", VStr "1.2")])])
           (VObj [("result", VStr "Answer."); ("process_time", VStr "1.2")])
           (VStr "1.2")
           eq_refl eq_refl eq_refl eq_refl eq_refl ltac:(discriminate)).
Defined.

Lemma not_nullish_object fields : ~ nullish (VObj fields).
Proof. intros [?|?]; discriminate. Defined.

Lemma session_state_replayed_witness :
  sessions (plugin (after chat_opened)) !! "c1" = Some 0 /\
  Forall (fun m => ~ nullish m) [user_said; system_said; assistant_said] /\
  run (handleWebSocketMessage "c1"
         (session_state_of [user_said; system_said; assistant_said])
         (plugin (after chat_opened)))
      [Resolved VUndefined; Resolved VUndefined]
    = Settled (Returned tt)
        (traced [Issued (user_echo "c1" (VStr "hi"));
                 Issued (replayed_assistant "c1" (VStr "hello"))]
           (plugin (after chat_opened))).
Proof.
  assert (Hall : Forall (fun m => ~ nullish m) [user_said; system_said; assistant_said]).
  { repeat constructor; apply not_nullish_object. }
  split; [reflexivity|]. split; [exact Hall|].
  exact (session_state_replayed (plugin (after chat_opened)) "c1" 0
           (session_state_of [user_said; system_said; assistant_said])
           (VObj [("messages", VArr [user_said; system_said; assistant_said])])
           [user_said; system_said; assistant_said] [VUndefined; VUndefined]
           eq_refl eq_refl eq_refl eq_refl Hall eq_refl).
Defined.

Lemma session_state_stops_at_null_witness :
  sessions (plugin (after chat_opened)) !! "c1" = Some 0 /\
  nullish VNull /\
  run (handleWebSocketMessage "c1"
         (session_state_of [user_said; VNull; assistant_said])
         (plugin (after chat_opened)))
      [Resolved VUndefined]
    = Settled (Threw TypeError)
        (traced [Issued (user_echo "c1" (VStr "hi"))] (plugin (after chat_opened))).
Proof.
  assert (Hgood : Forall (fun m => ~ nullish m) [user_said]).
  { repeat constructor; apply not_nullish_object. }
  split; [reflexivity|]. split; [by right|].
  exact (session_state_stops_at_null (plugin (after chat_opened)) "c1" 0
           (session_state_of [user_said; VNull; assistant_said])
           (VObj [("messages", VArr [user_said; VNull; assistant_said])])
           [user_said] VNull [assistant_said] [VUndefined]
           eq_refl eq_refl eq_refl eq_refl
           Hgood (or_intror eq_refl) eq_refl).
Defined.

Lemma session_state_without_messages_witness :
  get state_payload_bare "data" = Normal VUndefined /\
  nothing_to_replay VUndefined /\
  handleWebSocketMessage "c1" state_payload_bare (plugin (after chat_opened))
    = Done tt (plugin (after chat_opened)).
Proof.
  split; [reflexivity|]. split; [exact I|].
  exact (session_state_without_messages (plugin (after chat_opened)) "c1"
           state_payload_bare VUndefined VUndefined eq_refl eq_refl eq_refl I).
Defined.

Lemma chat_created_witness :
  let now := 1700000000000%Z in
  let s := constructor None in
  let s1 := traced [Issued (create_chat now)] s in
  let s2 := traced [Issued (provision_request (apiEndpoint s1) now)] s1 in
  WebSocket_accepts (ws_url (apiEndpoint s2) (session_id_at now)) = true /\
  exists k1 k2 s3 k3,
    createResearchChat now s = Suspended (create_chat now) s1 k1 /\
    k1 (Resolved (VStr "c1")) s1
      = Suspended (provision_request (apiEndpoint s1) now) s2 k2 /\
    k2 (Resolved response_500) s2
      = Suspended (welcome_message "c1")
          (traced [Issued (welcome_message "c1")] s3) k3 /\
    sessions s3 !! "c1" = Some 0 /\
    heap s3 = [session_c1 idle] /\
    sockets s3 = [socket_c1 CONNECTING] /\
    (forall v s4, k3 (Resolved v) s4 = Done (VStr "c1") s4).
Proof.
  intros now s s1 s2. split; [reflexivity|].
  destruct (chat_created now s "c1") as (k1 & Hrun & Hk1).
  destruct (Hk1 s1) as (k2 & Hprov & Hk2).
  destruct (Hk2 response_500 s2 eq_refl)
    as (s3 & k3 & Hwelcome & Hsessions & Hheap & Hsockets & _ & Hdone & _).
  exists k1, k2, s3, k3.
  split; [exact Hrun|]. split; [exact Hprov|]. split; [exact Hwelcome|].
  split; [rewrite Hsessions; reflexivity|].
  split; [exact Hheap|]. split; [exact Hsockets|exact Hdone].
Defined.


Lemma ws_url_scheme_witness :
  ws_url "https://research.example" "research-1"
    = "wss://research.example/ws/research-1" /\
  occurs "http" "backend:8000" = false /\
  ws_url "backend:8000" "research-1" = "backend:8000/ws/research-1".
Proof.
  destruct (ws_url_scheme "s://research.example" "backend:8000" "research-1")
    as [Hprefix Habsent].
  split; [exact Hprefix|]. split; [reflexivity|exact (Habsent eq_refl)].
Defined.

Lemma reconnect_replaces_connection_witness :
  sockets (plugin (after chat_opened)) !! 0 = Some (socket_c1 OPEN) /\
  readyState (socket_c1 OPEN) <> CLOSED /\
  sessions (plugin (after chat_opened)) !! "c1" = Some 0 /\
  heap (plugin (after chat_opened)) !! 0 = Some (session_c1 idle) /\
  WebSocket_accepts (ws_url "http://localhost:8000" "research-1700000000000") = true /\
  exists w2,
    steps (after chat_opened) [SocketClosed 0; TimerFired 0] = Some w2 /\
    sockets (plugin w2) !! 1 = Some (socket_c1 CONNECTING) /\
    length (sockets (plugin w2)) = 2 /\
    holds (plugin w2) 0 1 /\
    sessions (plugin w2) = sessions (plugin (after chat_opened)) /\
    pending w2 = [] /\ escaped w2 = [] /\
    step w2 (TimerFired 0) = None.
Proof.
  split; [reflexivity|]. split; [discriminate|]. split; [reflexivity|].
  split; [reflexivity|]. split; [reflexivity|].
  exact (reconnect_replaces_connection (after chat_opened) 0 (socket_c1 OPEN) 0
           (session_c1 idle) eq_refl ltac:(discriminate) eq_refl eq_refl eq_refl).
Defined.

Lemma reconnect_cancelled_by_deletion_witness :
  sockets (plugin (after chat_opened)) !! 0 = Some (socket_c1 OPEN) /\
  readyState (socket_c1 OPEN) <> CLOSED /\
  sessions (plugin (after chat_opened)) !! "c1" = Some 0 /\
  heap (plugin (after chat_opened)) !! 0 = Some (session_c1 idle) /\
  exists w4,
    steps (after chat_opened)
      [SocketClosed 0; ChatDelete "c1"; Settle 0 (Rejected network_error); TimerFired 0]
      = Some w4 /\
    sessions (plugin w4) = delete "c1" (sessions (plugin (after chat_opened))) /\
    length (sockets (plugin w4)) = 1 /\
    pending w4 = [] /\ escaped w4 = [].
Proof.
  split; [reflexivity|]. split; [discriminate|]. split; [reflexivity|].
  split; [reflexivity|].
  exact (reconnect_cancelled_by_deletion (after chat_opened) 0 (socket_c1 OPEN) 0
           (session_c1 idle) (Rejected network_error)
           eq_refl ltac:(discriminate) eq_refl eq_refl).
Defined.

Lemma message_send_intercepted_witness :
  reachable (after query_accepted) /\
  sessions (plugin (after query_accepted)) !! "c1" = Some 0 /\
  exists o k,
    heap (plugin (after query_accepted)) !! 0 = Some o /\
    let c := if Status_eqb (status o) processing
             then busy_notice "c1" else user_echo "c1" (VStr "And Lean?") in
    step (after query_accepted) (MessageSend "c1" (VStr "And Lean?"))
      = Some (mkWorld
                (traced [Issued c] (traced [PreventDefault] (plugin (after query_accepted))))
                (pending (after query_accepted) ++ [mkTask c k])
                (escaped (after query_accepted))).
Proof.
  assert (Hr : reachable (after query_accepted)).
  { exists None, query_accepted. vm_compute. reflexivity. }
  split; [exact Hr|]. split; [reflexivity|].
  exact (message_send_intercepted (after query_accepted) "c1" 0 (VStr "And Lean?")
           Hr eq_refl).
Defined.

Lemma unregistered_chat_untouched_witness :
  sessions (plugin (after closed_then_deleted)) !! "c1" = None /\
  timers (plugin (after closed_then_deleted)) !! 0
    = Some (reconnect_timer "c1" "research-1700000000000") /\
  step (after closed_then_deleted) (MessageSend "c1" (VStr "Anyone?"))
    = Some (after closed_then_deleted) /\
  step (after closed_then_deleted) (ChatDelete "c1") = Some (after closed_then_deleted) /\
  step (after closed_then_deleted) (TimerFired 0)
    = Some (mkWorld (upd_timers (alter set_fired 0) (plugin (after closed_then_deleted)))
              (pending (after closed_then_deleted)) (escaped (after closed_then_deleted))).
Proof.
  assert (Hgone : sessions (plugin (after closed_then_deleted)) !! "c1" = None).
  { vm_compute. reflexivity. }
  destruct (unregistered_chat_untouched (after closed_then_deleted) "c1" Hgone)
    as (Hsend & Hdelete & Htimer).
  split; [exact Hgone|]. split; [reflexivity|].
  split; [exact (Hsend (VStr "Anyone?"))|]. split; [exact Hdelete|].
  exact (Htimer 0 (reconnect_timer "c1" "research-1700000000000")
           eq_refl eq_refl eq_refl).
Defined.

Lemma queries_overlap_in_flight_witness :
  sessions (plugin (after chat_opened)) !! "c1" = Some 0 /\
  heap (plugin (after chat_opened)) !! 0 = Some (session_c1 idle) /\
  status (session_c1 idle) <> processing /\
  exists w' k1 k2,
    steps (after chat_opened)
      [MessageSend "c1" (VStr "What is Rocq?"); Settle 0 (Resolved VUndefined);
       MessageSend "c1" (VStr "And Lean?"); Settle 1 (Resolved VUndefined)]
      = Some w' /\
    pending w'
      = pending (after chat_opened)
        ++ [mkTask (query_request "http://localhost:8000" "research-1700000000000"
                      (VStr "What is Rocq?")) k1;
            mkTask (query_request "http://localhost:8000" "research-1700000000000"
                      (VStr "And Lean?")) k2] /\
    requests (plugin w')
      = requests (plugin (after chat_opened))
        ++ [Issued (query_request "http://localhost:8000" "research-1700000000000"
                      (VStr "What is Rocq?"));
            Issued (query_request "http://localhost:8000" "research-1700000000000"
                      (VStr "And Lean?"))] /\
    heap (plugin w') = heap (plugin (after chat_opened)) /\
    escaped w' = escaped (after chat_opened).
Proof.
  split; [reflexivity|]. split; [reflexivity|]. split; [discriminate|].
  exact (queries_overlap_in_flight (after chat_opened) "c1" 0 (session_c1 idle)
           (VStr "What is Rocq?") (VStr "And Lean?") VUndefined VUndefined
           eq_refl eq_refl ltac:(discriminate)).
Defined.

Lemma chat_created_without_stream_witness :
  let now := 1700000000000%Z in
  let s := constructor (Some "ftp://backend:8000") in
  let s1 := traced [Issued (create_chat now)] s in
  let s2 := traced [Issued (provision_request (apiEndpoint s1) now)] s1 in
  WebSocket_accepts (ws_url (apiEndpoint s2) (session_id_at now)) = false /\
  exists k1 k2 s3 k3,
    createResearchChat now s = Suspended (create_chat now) s1 k1 /\
    k1 (Resolved (VStr "c1")) s1
      = Suspended (provision_request (apiEndpoint s1) now) s2 k2 /\
    k2 (Resolved response_ok) s2
      = Suspended (creation_failed_notice "c1")
          (traced [Issued (creation_failed_notice "c1")]
             (traced [creation_failed_log SyntaxError] s3)) k3 /\
    sessions s3 !! "c1" = Some 0 /\
    heap s3 = [mkSession "research-1700000000000" None idle] /\
    sockets s3 = [].
Proof.
  intros now s s1 s2. split; [reflexivity|].
  destruct (chat_created_without_stream now s "c1") as (k1 & Hrun & Hk1).
  destruct (Hk1 s1) as (k2 & Hprov & Hk2).
  destruct (Hk2 response_ok s2 eq_refl)
    as (s3 & k3 & Hnotice & Hsessions & Hheap & Hsockets & _).
  exists k1, k2, s3, k3.
  split; [exact Hrun|]. split; [exact Hprov|]. split; [exact Hnotice|].
  split; [rewrite Hsessions; reflexivity|].
  split; [exact Hheap|exact Hsockets].
Defined.

Lemma sockets_wired_to_endpoint_witness :
  steps (boot None) chat_opened = Some (after chat_opened) /\
  apiEndpoint (plugin (after chat_opened)) = "http://localhost:8000" /\
  forall n k, sockets (plugin (after chat_opened)) !! n = Some k ->
    url k = ws_url "http://localhost:8000" (ws_sessionId k).
Proof.
  assert (Hrun : steps (boot None) chat_opened = Some (after chat_opened)).
  { vm_compute. reflexivity. }
  split; [exact Hrun|].
  exact (sockets_wired_to_endpoint None chat_opened (after chat_opened) Hrun).
Defined.
